(** * Task core of the kernel: Task, TaskTable and ObjectTable

    A shallow embedding of [src/kernel/task.cpp] and
    [src/kernel/object_table.cpp].  Kernel objects live in an explicit
    store; every method becomes a function in a state-and-crash monad
    over that store.  Spin locks are taken and released inside each
    method and never held across a call that the model distinguishes,
    so the sequential model leaves them out. *)

From Stdlib Require Import ZArith Lia.
From stdpp Require Import gmap list functions.

Local Open Scope Z_scope.

(** ** Constants declared in headers that are not part of the sources *)

Class KernelConsts := {
  MaxObjects : nat;        (* ArraySize(ObjectArray) *)
  InvalidObjectId : Z;
  HashPtr : Z -> Z;        (* Stdlib::HashPtr *)
  TaskMagic : Z;
  StackMagic1 : Z;
  StackMagic2 : Z;
  StackSize : Z;
  PageSize : Z;
  OffMagic1 : Z;           (* offsetof(Stack, Magic1) *)
  OffTask : Z;             (* offsetof(Stack, Task) *)
  OffMagic2 : Z;           (* offsetof(Stack, Magic2) *)
  OffStackBottom : Z;      (* offsetof(Stack, StackBottom) *)
  OffStackTop : Z;         (* offsetof(Stack, StackTop) *)
  SizeofContext : Z;       (* sizeof(Context) *)
  OffRdi : Z;              (* offsetof(Context, Rdi) *)
  OffRflags : Z;           (* offsetof(Context, Rflags) *)
  ExecAddr : Z;            (* (ulong)&Task::Exec *)
  StateWaiting : Z
}.

(** [ulong] is 64 bits wide. *)
Definition ulong_mod : Z := 2 ^ 64.
Definition to_ulong (x : Z) : Z := x mod ulong_mod.

(** ** Data model *)

(** The members of Task that the functions below read or write.  A
    nullable pointer is an [option]; [RefCounter] is an atomic counter,
    kept as an integer.  [TableListEntry] is not a field: whether it is
    linked is read off the bucket lists of the TaskTable. *)
Record Task := mkTask {
  TaskQueue : option nat;  (* back-pointer; a queue is named by its CPU index *)
  Rsp : Z;
  State : Z;
  Flags : Z;
  Magic : Z;
  CpuAffinity : Z;
  Pid : Z;
  Stack : option Z;        (* base address of the kernel stack *)
  Function : option Z;
  Ctx : Z;
  RefCounter : Z;
  StartTime : Z
}.

Record TaskQueueRec := mkQueue {
  QueueList : list Z;
  SwitchContextCounter : Z
}.

Inductive Event :=
  | EvFreeStack (stack : Z)
  | EvFreeTask (task : Z).

Record Kernel := mkKernel {
  Tasks : gmap Z Task;            (* live Task objects, by address *)
  Mem : Z -> Z;                   (* the machine word stored at an address *)
  LiveStacks : gset Z;            (* bases of the allocated Stack objects *)
  StackPool : list Z;             (* bases operator new can still hand out *)
  ObjectArray : list (option Z);  (* TaskTable::TaskObjectTable *)
  TaskList : list (list Z);       (* TaskTable::TaskList, one list per bucket *)
  Queues : nat -> TaskQueueRec;   (* CpuTable::GetCpu(i).GetTaskQueue() *)
  RunningCpus : Z;                (* CpuTable::GetRunningCpus() *)
  BootTime : Z;                   (* GetBootTime() *)
  Log : list Event                (* objects deleted so far, oldest first *)
}.

Definition set_Tasks (f : gmap Z Task -> gmap Z Task) (k : Kernel) : Kernel :=
  mkKernel (f (Tasks k)) (Mem k) (LiveStacks k) (StackPool k) (ObjectArray k)
           (TaskList k) (Queues k) (RunningCpus k) (BootTime k) (Log k).
Definition set_Mem (f : (Z -> Z) -> (Z -> Z)) (k : Kernel) : Kernel :=
  mkKernel (Tasks k) (f (Mem k)) (LiveStacks k) (StackPool k) (ObjectArray k)
           (TaskList k) (Queues k) (RunningCpus k) (BootTime k) (Log k).
Definition set_LiveStacks (f : gset Z -> gset Z) (k : Kernel) : Kernel :=
  mkKernel (Tasks k) (Mem k) (f (LiveStacks k)) (StackPool k) (ObjectArray k)
           (TaskList k) (Queues k) (RunningCpus k) (BootTime k) (Log k).
Definition set_StackPool (f : list Z -> list Z) (k : Kernel) : Kernel :=
  mkKernel (Tasks k) (Mem k) (LiveStacks k) (f (StackPool k)) (ObjectArray k)
           (TaskList k) (Queues k) (RunningCpus k) (BootTime k) (Log k).
Definition set_ObjectArray (f : list (option Z) -> list (option Z)) (k : Kernel) : Kernel :=
  mkKernel (Tasks k) (Mem k) (LiveStacks k) (StackPool k) (f (ObjectArray k))
           (TaskList k) (Queues k) (RunningCpus k) (BootTime k) (Log k).
Definition set_TaskList (f : list (list Z) -> list (list Z)) (k : Kernel) : Kernel :=
  mkKernel (Tasks k) (Mem k) (LiveStacks k) (StackPool k) (ObjectArray k)
           (f (TaskList k)) (Queues k) (RunningCpus k) (BootTime k) (Log k).
Definition set_Queues (f : (nat -> TaskQueueRec) -> (nat -> TaskQueueRec)) (k : Kernel) : Kernel :=
  mkKernel (Tasks k) (Mem k) (LiveStacks k) (StackPool k) (ObjectArray k)
           (TaskList k) (f (Queues k)) (RunningCpus k) (BootTime k) (Log k).
Definition set_Log (f : list Event -> list Event) (k : Kernel) : Kernel :=
  mkKernel (Tasks k) (Mem k) (LiveStacks k) (StackPool k) (ObjectArray k)
           (TaskList k) (Queues k) (RunningCpus k) (BootTime k) (f (Log k)).

Definition set_TaskQueue (v : option nat) (t : Task) : Task :=
  mkTask v (Rsp t) (State t) (Flags t) (Magic t) (CpuAffinity t) (Pid t)
         (Stack t) (Function t) (Ctx t) (RefCounter t) (StartTime t).
Definition set_Rsp (v : Z) (t : Task) : Task :=
  mkTask (TaskQueue t) v (State t) (Flags t) (Magic t) (CpuAffinity t) (Pid t)
         (Stack t) (Function t) (Ctx t) (RefCounter t) (StartTime t).
Definition set_State (v : Z) (t : Task) : Task :=
  mkTask (TaskQueue t) (Rsp t) v (Flags t) (Magic t) (CpuAffinity t) (Pid t)
         (Stack t) (Function t) (Ctx t) (RefCounter t) (StartTime t).
Definition set_CpuAffinity (v : Z) (t : Task) : Task :=
  mkTask (TaskQueue t) (Rsp t) (State t) (Flags t) (Magic t) v (Pid t)
         (Stack t) (Function t) (Ctx t) (RefCounter t) (StartTime t).
Definition set_Pid (v : Z) (t : Task) : Task :=
  mkTask (TaskQueue t) (Rsp t) (State t) (Flags t) (Magic t) (CpuAffinity t) v
         (Stack t) (Function t) (Ctx t) (RefCounter t) (StartTime t).
Definition set_Stack (v : option Z) (t : Task) : Task :=
  mkTask (TaskQueue t) (Rsp t) (State t) (Flags t) (Magic t) (CpuAffinity t) (Pid t)
         v (Function t) (Ctx t) (RefCounter t) (StartTime t).
Definition set_Function (f : option Z) (c : Z) (t : Task) : Task :=
  mkTask (TaskQueue t) (Rsp t) (State t) (Flags t) (Magic t) (CpuAffinity t) (Pid t)
         (Stack t) f c (RefCounter t) (StartTime t).
Definition set_RefCounter (v : Z) (t : Task) : Task :=
  mkTask (TaskQueue t) (Rsp t) (State t) (Flags t) (Magic t) (CpuAffinity t) (Pid t)
         (Stack t) (Function t) (Ctx t) v (StartTime t).
Definition set_StartTime (v : Z) (t : Task) : Task :=
  mkTask (TaskQueue t) (Rsp t) (State t) (Flags t) (Magic t) (CpuAffinity t) (Pid t)
         (Stack t) (Function t) (Ctx t) (RefCounter t) v.

(** ** The state-and-crash monad *)

Inductive Crash :=
  | BugCheck      (* a BugOn predicate held: Panic *)
  | NullDeref     (* a member access through nullptr *)
  | BadPointer.   (* an access to an object that is not live *)

Inductive Outcome (A : Type) :=
  | Ok (a : A) (k : Kernel)
  | Crashed (c : Crash).
Arguments Ok {A} a k.
Arguments Crashed {A} c.

Definition M (A : Type) : Type := Kernel -> Outcome A.

Definition ret {A} (a : A) : M A := fun k => Ok a k.
Definition bind {A B} (m : M A) (f : A -> M B) : M B :=
  fun k => match m k with
           | Ok a k' => f a k'
           | Crashed c => Crashed c
           end.
Definition crash {A} (c : Crash) : M A := fun _ => Crashed c.
Definition get : M Kernel := fun k => Ok k k.
Definition modify (f : Kernel -> Kernel) : M unit := fun k => Ok tt (f k).

Notation "x <- m ;; f" := (bind m (fun x => f))
  (at level 100, m at next level, right associativity).
Notation "m ;;; f" := (bind m (fun _ => f))
  (at level 100, right associativity).

(** [BugOn(cond)] panics when [cond] holds; the code after a panic is
    never reached. *)
Definition BugOn (cond : bool) : M unit :=
  if cond then crash BugCheck else ret tt.

(** Read and write the fields of the Task object at address [this]. *)
Definition load (this : Z) : M Task :=
  fun k => match Tasks k !! this with
           | Some T => Ok T k
           | None => Crashed BadPointer
           end.
Definition update (this : Z) (f : Task -> Task) : M unit :=
  T <- load this ;; modify (set_Tasks <[this := f T]>).

Definition is_null {A} (p : option A) : bool :=
  match p with None => true | Some _ => false end.

Section Kernel.
Context {KC : KernelConsts}.

(** ** Task: construction and reference counting (task.cpp 12-70) *)

(** The member initialisers of [Task::Task()]. The time stamps are left
    uninitialised by the constructor; the model starts them at 0. *)
Definition Task_ctor : Task :=
  {| TaskQueue := None;
     Rsp := 0;
     State := 0;
     Flags := 0;
     Magic := TaskMagic;
     CpuAffinity := to_ulong (Z.lnot 0);
     Pid := InvalidObjectId;
     Stack := None;
     Function := None;
     Ctx := 0;
     RefCounter := 1;
     StartTime := 0 |}.

(** [delete Stack]: the Stack object stops being live and its pages go
    back to the allocator.  The destructor of Stack is declared outside
    the sources and is taken to do nothing else. *)
Definition Stack_delete (stack : Z) : M unit :=
  k <- get ;;
  if bool_decide (stack ∈ LiveStacks k) then
    modify (set_LiveStacks (fun s => s ∖ {[stack]})) ;;;
    modify (set_StackPool (cons stack)) ;;;
    modify (set_Log (fun l => l ++ [EvFreeStack stack]))
  else crash BadPointer.

(** [Task::~Task] *)
Definition Task_dtor (this : Z) : M unit :=
  T <- load this ;;
  BugOn (negb (is_null (TaskQueue T))) ;;;
  BugOn (negb (is_null (Stack T))).

(** [delete this]: run the destructor, then give the object back. *)
Definition Task_delete (this : Z) : M unit :=
  Task_dtor this ;;;
  modify (set_Tasks (delete this)) ;;;
  modify (set_Log (fun l => l ++ [EvFreeTask this])).

(** [Task::Release] *)
Definition Task_Release (this : Z) : M unit :=
  T <- load this ;;
  BugOn (negb (is_null (TaskQueue T))) ;;;
  match Stack T with
  | Some stack =>
      Stack_delete stack ;;;
      update this (set_Stack None)
  | None => ret tt
  end.

(** [Task::Get] *)
Definition Task_Get (this : Z) : M unit :=
  T <- load this ;;
  BugOn (RefCounter T <=? 0) ;;;
  update this (set_RefCounter (RefCounter T + 1)).

(** [Task::Put]; [DecAndTest] decrements and tells whether the counter
    is now zero. *)
Definition Task_Put (this : Z) : M unit :=
  T <- load this ;;
  BugOn (RefCounter T <=? 0) ;;;
  update this (set_RefCounter (RefCounter T - 1)) ;;;
  if RefCounter T - 1 =? 0 then
    Task_Release this ;;;
    Task_delete this
  else ret tt.

(** ** ObjectTable (object_table.cpp)

    [Object::Get] and [Object::Put] are virtual; Task is the one Object
    in the sources, so the calls resolve to [Task_Get] and [Task_Put]. *)

(** The scan of [Insert]: index of the first slot holding nullptr. *)
Fixpoint first_free (slots : list (option Z)) : option nat :=
  match slots with
  | [] => None
  | None :: _ => Some 0%nat
  | Some _ :: rest => S <$> first_free rest
  end.

(** [ObjectTable::Insert] *)
Definition ObjectTable_Insert (object : Z) : M Z :=
  Task_Get object ;;;
  k <- get ;;
  match first_free (ObjectArray k) with
  | Some objectId =>
      modify (set_ObjectArray <[objectId := Some object]>) ;;;
      ret (Z.of_nat objectId)
  | None =>
      Task_Put object ;;;
      ret InvalidObjectId
  end.

(** [ObjectTable::Remove] *)
Definition ObjectTable_Remove (objectId : Z) : M unit :=
  k <- get ;;
  if Z.of_nat (length (ObjectArray k)) <=? objectId then ret tt
  else
    let object := mjoin (ObjectArray k !! Z.to_nat objectId) in
    modify (set_ObjectArray <[Z.to_nat objectId := None]>) ;;;
    match object with
    | Some o => Task_Put o
    | None => ret tt
    end.

(** [ObjectTable::Lookup] *)
Definition ObjectTable_Lookup (objectId : Z) : M (option Z) :=
  k <- get ;;
  if Z.of_nat (length (ObjectArray k)) <=? objectId then ret None
  else
    match mjoin (ObjectArray k !! Z.to_nat objectId) with
    | Some o => Task_Get o ;;; ret (Some o)
    | None => ret None
    end.

(** ** TaskTable (task.cpp 275-337) *)

(** [HashPtr(task) % ArraySize(TaskList)] *)
Definition bucket_of (task : Z) (k : Kernel) : nat :=
  Z.to_nat (HashPtr task mod Z.of_nat (length (TaskList k))).

(** How many bucket positions hold the task's [TableListEntry]. *)
Definition occurrences (task : Z) (buckets : list (list Z)) : nat :=
  length (filter (fun x => x = task) (concat buckets)).

(** [task->TableListEntry.IsEmpty()]: the entry is linked into no list. *)
Definition TableListEntry_IsEmpty (task : Z) (k : Kernel) : bool :=
  bool_decide (occurrences task (TaskList k) = 0%nat).

(** [TaskList[i].InsertTail(&task->TableListEntry)] *)
Definition InsertTail (i : nat) (task : Z) (buckets : list (list Z)) : list (list Z) :=
  alter (fun b => b ++ [task]) i buckets.

(** [task->TableListEntry.RemoveInit()]: unlink the entry from the list
    it is on, whichever that is. *)
Definition RemoveInit (task : Z) (buckets : list (list Z)) : list (list Z) :=
  map (filter (fun x => x ≠ task)) buckets.

(** [TaskTable::Insert] *)
Definition TaskTable_Insert (task : Z) : M bool :=
  pid <- ObjectTable_Insert task ;;
  if pid =? InvalidObjectId then ret false
  else
    update task (set_Pid pid) ;;;
    Task_Get task ;;;
    k <- get ;;
    let i := bucket_of task k in
    BugOn (negb (TableListEntry_IsEmpty task k)) ;;;
    modify (set_TaskList (InsertTail i task)) ;;;
    ret true.

(** [TaskTable::Remove] *)
Definition TaskTable_Remove (task : Z) : M unit :=
  T <- load task ;;
  ObjectTable_Remove (Pid T) ;;;
  k <- get ;;
  BugOn (TableListEntry_IsEmpty task k) ;;;
  modify (set_TaskList (RemoveInit task)) ;;;
  Task_Put task.

(** [TaskTable::Lookup] *)
Definition TaskTable_Lookup (pid : Z) : M (option Z) :=
  ObjectTable_Lookup pid.

(** ** Kernel stacks and task start-up (task.cpp 116-205, 241-273) *)

(** Modelled from the spec: [struct Stack], its constructor and the page
    allocator behind [new] are declared outside the sources.  The spec
    gives the header as Magic1, the back-pointer to the Task and Magic2;
    a failed allocation yields nullptr. *)
Definition Stack_new (task : Z) : M (option Z) :=
  k <- get ;;
  match StackPool k with
  | [] => ret None
  | stack :: rest =>
      modify (set_StackPool (fun _ => rest)) ;;;
      modify (set_LiveStacks (fun s => {[stack]} ∪ s)) ;;;
      modify (set_Mem (fun m =>
        <[stack + OffMagic2 := StackMagic2]>
          (<[stack + OffTask := task]>
             (<[stack + OffMagic1 := StackMagic1]> m)))) ;;;
      ret (Some stack)
  end.

(** [Task::PrepareStart] *)
Definition Task_PrepareStart (this func ctx : Z) : M bool :=
  T <- load this ;;
  BugOn (negb (is_null (Stack T))) ;;;
  BugOn (negb (is_null (Function T))) ;;;
  stack <- Stack_new this ;;
  update this (set_Stack stack) ;;;
  match stack with
  | None => ret false
  | Some s =>
      inserted <- TaskTable_Insert this ;;
      if negb inserted then
        Stack_delete s ;;;
        update this (set_Stack None) ;;;
        ret false
      else
        update this (set_Function (Some func) ctx) ;;;
        ret true
  end.

(** One iteration of the loop of [SelectNextTaskQueue]: [own] is the
    task's TaskQueue member, [best] the local variable taskQueue. *)
Definition select_step (k : Kernel) (cpuMask : Z) (own : option nat)
    (best : option nat) (i : nat) : option nat :=
  if negb (Z.land cpuMask (Z.shiftl 1 (Z.of_nat i)) =? 0) then
    if bool_decide (own = Some i) then best
    else
      match best with
      | None => Some i
      | Some q =>
          if SwitchContextCounter (Queues k q) >? SwitchContextCounter (Queues k i)
          then Some i
          else Some q
      end
  else best.

(** [Task::SelectNextTaskQueue]; the loop runs over the 8 * sizeof(ulong)
    bit positions. *)
Definition Task_SelectNextTaskQueue (this : Z) : M (option nat) :=
  T <- load this ;;
  k <- get ;;
  let cpuMask := Z.land (RunningCpus k) (CpuAffinity T) in
  if negb (cpuMask =? 0) then
    ret (fold_left (select_step k cpuMask (TaskQueue T)) (seq 0 64) None)
  else ret None.

(** Modelled from the spec: [TaskQueue::Insert] is defined outside the
    sources.  The spec says it appends the task to the tail of the queue
    and sets the task's queue back-pointer, and that the owning queue
    holds one reference to the task. *)
Definition TaskQueue_Insert (queue : nat) (task : Z) : M unit :=
  Task_Get task ;;;
  update task (set_TaskQueue (Some queue)) ;;;
  modify (set_Queues (fun qs i =>
    if bool_decide (i = queue)
    then mkQueue (QueueList (qs i) ++ [task]) (SwitchContextCounter (qs i))
    else qs i)).

(** [Stdlib::MemSet(p, 0, n)]: every word stored in [p, p + n) becomes 0. *)
Definition MemSet0 (p n : Z) (m : Z -> Z) : Z -> Z :=
  fun a => if (p <=? a) && (a <? p + n) then 0 else m a.

(** [Task::Start].  The local [rsp] is a [ulong*], so [--rsp] moves it
    down by one word of 8 bytes. *)
Definition Task_Start (this func ctx : Z) : M bool :=
  prepared <- Task_PrepareStart this func ctx ;;
  if negb prepared then ret false
  else
    T <- load this ;;
    match Stack T with
    | None => crash NullDeref
    | Some stack =>
        let rsp := stack + OffStackTop - 8 in
        modify (set_Mem <[rsp := ExecAddr]>) ;;;
        let regs := rsp - SizeofContext in
        modify (set_Mem (MemSet0 regs SizeofContext)) ;;;
        modify (set_Mem <[regs + OffRdi := this]>) ;;;
        modify (set_Mem <[regs + OffRflags := Z.shiftl 1 9]>) ;;;
        update this (set_Rsp regs) ;;;
        k <- get ;;
        update this (set_StartTime (BootTime k)) ;;;
        update this (set_State StateWaiting) ;;;
        taskQueue <- Task_SelectNextTaskQueue this ;;
        match taskQueue with
        | None => crash NullDeref
        | Some queue =>
            TaskQueue_Insert queue this ;;;
            ret true
        end
    end.

(** [Task::Start] again, line by line, with the body of
    [TaskQueue::Insert] left open: [Insert queue task] stands for the
    call [taskQueue->Insert(this)] at the end of [Start], whatever the
    queue does with the task.  The state in which [Start] makes that call
    can then be told apart from the state [Insert] leaves. *)
Definition Task_Start_with (Insert : nat -> Z -> M unit)
    (this func ctx : Z) : M bool :=
  prepared <- Task_PrepareStart this func ctx ;;
  if negb prepared then ret false
  else
    T <- load this ;;
    match Stack T with
    | None => crash NullDeref
    | Some stack =>
        let rsp := stack + OffStackTop - 8 in
        modify (set_Mem <[rsp := ExecAddr]>) ;;;
        let regs := rsp - SizeofContext in
        modify (set_Mem (MemSet0 regs SizeofContext)) ;;;
        modify (set_Mem <[regs + OffRdi := this]>) ;;;
        modify (set_Mem <[regs + OffRflags := Z.shiftl 1 9]>) ;;;
        update this (set_Rsp regs) ;;;
        k <- get ;;
        update this (set_StartTime (BootTime k)) ;;;
        update this (set_State StateWaiting) ;;;
        taskQueue <- Task_SelectNextTaskQueue this ;;
        match taskQueue with
        | None => crash NullDeref
        | Some queue =>
            Insert queue this ;;;
            ret true
        end
    end.

(** [Task::GetCurrentTask], with the value of [GetRsp()] as argument.
    [~(StackSize - 1)] is computed in [ulong]. *)
Definition Task_GetCurrentTask (rsp : Z) : M Z :=
  k <- get ;;
  let stack := Z.land rsp (to_ulong (Z.lnot (StackSize - 1))) in
  BugOn (negb (Mem k (stack + OffMagic1) =? StackMagic1)) ;;;
  BugOn (negb (Mem k (stack + OffMagic2) =? StackMagic2)) ;;;
  BugOn (rsp <? stack + OffStackBottom + PageSize) ;;;
  BugOn (rsp >? stack + OffStackTop) ;;;
  let task := Mem k (stack + OffTask) in
  T <- load task ;;
  BugOn (negb (Magic T =? TaskMagic)) ;;;
  ret task.

(** ** Vocabulary of the statements *)

(** The deletions a releasing [Put] performs on task [this]. *)
Definition release_events (this : Z) (T : Task) : list Event :=
  match Stack T with
  | Some stack => [EvFreeStack stack; EvFreeTask this]
  | None => [EvFreeTask this]
  end.

(** The task is linked into exactly one bucket, once. *)
Definition in_one_bucket (task : Z) (k : Kernel) : Prop :=
  occurrences task (TaskList k) = 1%nat.

(** The task is linked into no bucket. *)
Definition in_no_bucket (task : Z) (k : Kernel) : Prop :=
  occurrences task (TaskList k) = 0%nat.

(** How many ObjectTable slots point at the object. *)
Definition slots_of (object : Z) (slots : list (option Z)) : nat :=
  length (filter (fun s => s = Some object) slots).

#[global] Arguments slots_of : simpl never.
#[global] Arguments occurrences : simpl never.

(** 1 for true, 0 for false. *)
Definition count1 (b : bool) : nat := if b then 1%nat else 0%nat.

(** All [MaxObjects] slots of the ObjectTable are occupied. *)
Definition table_full (k : Kernel) : Prop :=
  length (ObjectArray k) = MaxObjects /\ Forall is_Some (ObjectArray k).

(** Calls a client can make on the ObjectTable; an id is a [ulong]. *)
Inductive TableOp :=
  | OpInsert (object : Z)
  | OpRemove (objectId : N)
  | OpLookup (objectId : N).

Definition run_op (op : TableOp) : M unit :=
  match op with
  | OpInsert object => ObjectTable_Insert object ;;; ret tt
  | OpRemove objectId => ObjectTable_Remove (Z.of_N objectId)
  | OpLookup objectId => ObjectTable_Lookup (Z.of_N objectId) ;;; ret tt
  end.

Fixpoint run_ops (ops : list TableOp) : M unit :=
  match ops with
  | [] => ret tt
  | op :: rest => run_op op ;;; run_ops rest
  end.

(** Slot [id] points at [object], which is live and has more references
    than the table has slots pointing at it: its inserter still holds
    one of its own. *)
Definition slot_holds (object : Z) (id : nat) (k : Kernel) : Prop :=
  ObjectArray k !! id = Some (Some object) /\
  exists T, Tasks k !! object = Some T /\
    Z.of_nat (slots_of object (ObjectArray k)) < RefCounter T.

(** CPU [i] is considered for placing task [T]: its bit is set in
    [GetRunningCpus() & CpuAffinity] and its queue is not the one the
    task is on. *)
Definition candidate (k : Kernel) (T : Task) (i : nat) : Prop :=
  (i < 64)%nat /\
  Z.testbit (Z.land (RunningCpus k) (CpuAffinity T)) (Z.of_nat i) = true /\
  TaskQueue T <> Some i.

(** [i] is a candidate with the lowest switch counter, and the lowest
    index among the candidates with that counter. *)
Definition least_loaded (k : Kernel) (T : Task) (i : nat) : Prop :=
  candidate k T i /\
  forall j, candidate k T j ->
    SwitchContextCounter (Queues k i) < SwitchContextCounter (Queues k j) \/
    (SwitchContextCounter (Queues k i) = SwitchContextCounter (Queues k j) /\
     (i <= j)%nat).

(** What the loop has established after the bit positions below [n]. *)
Definition scanned (k : Kernel) (T : Task) (n : nat) (best : option nat) : Prop :=
  let mask := Z.land (RunningCpus k) (CpuAffinity T) in
  let cand j := Z.testbit mask (Z.of_nat j) = true /\ TaskQueue T <> Some j in
  match best with
  | None => forall j, (j < n)%nat -> ~ cand j
  | Some i =>
      (i < n)%nat /\ cand i /\
      forall j, (j < n)%nat -> cand j ->
        SwitchContextCounter (Queues k i) < SwitchContextCounter (Queues k j) \/
        (SwitchContextCounter (Queues k i) = SwitchContextCounter (Queues k j) /\
         (i <= j)%nat)
  end.

(** The initial frame [Task::Start] writes below the top of [stack]:
    the return address in the top word, and under it a zeroed Context
    with [Rdi] and [Rflags] filled in. *)
Definition frame_base (stack : Z) : Z :=
  stack + OffStackTop - 8 - SizeofContext.

Definition initial_frame (this stack : Z) (k : Kernel) : Prop :=
  let regs := frame_base stack in
  Mem k (stack + OffStackTop - 8) = ExecAddr /\
  Mem k (regs + OffRdi) = this /\
  (forall n, Z.testbit (Mem k (regs + OffRflags)) n = true <-> n = 9) /\
  (forall a, regs <= a < regs + SizeofContext ->
     a <> regs + OffRdi -> a <> regs + OffRflags -> Mem k a = 0).

(** The steps of [Start] between [PrepareStart] and the placement. *)
Definition framed (this stack : Z) (T : Task) (k : Kernel) : Kernel :=
  let rsp := stack + OffStackTop - 8 in
  let regs := rsp - SizeofContext in
  set_Tasks
    <[this := set_State StateWaiting (set_StartTime (BootTime k) (set_Rsp regs T))]>
    (set_Mem (fun m =>
       <[regs + OffRflags := Z.shiftl 1 9]>
         (<[regs + OffRdi := this]>
            (MemSet0 regs SizeofContext (<[rsp := ExecAddr]> m)))) k).

(** [Context] has room for the 8-byte members [Rdi] and [Rflags], and
    they do not overlap. *)
Definition context_layout_ok : Prop :=
  0 <= OffRdi /\ OffRdi + 8 <= SizeofContext /\
  0 <= OffRflags /\ OffRflags + 8 <= SizeofContext /\
  (OffRdi + 8 <= OffRflags \/ OffRflags + 8 <= OffRdi).

(** The header of the Stack at [stack] is intact and names a live task
    whose own magic is intact. *)
Definition header_intact (k : Kernel) (stack : Z) : Prop :=
  Mem k (stack + OffMagic1) = StackMagic1 /\
  Mem k (stack + OffMagic2) = StackMagic2 /\
  exists T, Tasks k !! Mem k (stack + OffTask) = Some T /\ Magic T = TaskMagic.

(** The range of stack pointers [GetCurrentTask] accepts: from one page
    above [StackBottom] up to and including [StackTop]. *)
Definition rsp_in_range (stack rsp : Z) : Prop :=
  stack + OffStackBottom + PageSize <= rsp <= stack + OffStackTop.

End Kernel.

(** ** A concrete configuration, for evaluating the model *)

Definition sample_consts : KernelConsts :=
  {| MaxObjects := 2;
     InvalidObjectId := 2 ^ 64 - 1;
     HashPtr := fun p => p / 64;
     TaskMagic := 11;
     StackMagic1 := 22;
     StackMagic2 := 33;
     StackSize := 32768;
     PageSize := 4096;
     OffMagic1 := 0;
     OffTask := 8;
     OffMagic2 := 16;
     OffStackBottom := 24;
     OffStackTop := 32768;
     SizeofContext := 72;
     OffRdi := 48;
     OffRflags := 56;
     ExecAddr := 1048576;
     StateWaiting := 1 |}.

(** One freshly constructed task at address 4096, two stacks available,
    an empty table, CPUs 0 and 1 running. *)
Definition sample_kernel : Kernel :=
  {| Tasks := {[ 4096 := @Task_ctor sample_consts ]};
     Mem := fun _ => 0;
     LiveStacks := ∅;
     StackPool := [65536; 98304];
     ObjectArray := [None; None];
     TaskList := [[]; []; []; []];
     Queues := fun _ => mkQueue [] 0;
     RunningCpus := 3;
     BootTime := 0;
     Log := [] |}.

(** The table is full: both slots point at the task, which also has
    the reference of its creator. *)
Definition sample_full_kernel : Kernel :=
  set_ObjectArray (fun _ => [Some 4096; Some 4096])
    (set_Tasks (fun _ => {[ 4096 := set_RefCounter 3 (@Task_ctor sample_consts) ]})
       sample_kernel).

(** The task owns the stack at 65536 and has one reference left. *)
Definition sample_last_ref_kernel : Kernel :=
  set_LiveStacks (fun _ => {[ 65536 ]})
    (set_StackPool (fun _ => [98304])
       (set_Tasks (fun _ => {[ 4096 := set_Stack (Some 65536) (@Task_ctor sample_consts) ]})
          sample_kernel)).

(** The state [Start] leaves behind when it places the sample task. *)
Definition sample_started_kernel : Kernel :=
  match Task_Start (KC := sample_consts) 4096 777 0 sample_kernel with
  | Ok _ k => k
  | Crashed _ => sample_kernel
  end.

(** The sample task with an affinity mask that names no CPU, as
    [SetCpuAffinity(0)] leaves it. *)
Definition sample_unplaceable_kernel : Kernel :=
  set_Tasks (fun _ => {[ 4096 := set_CpuAffinity 0 (@Task_ctor sample_consts) ]})
    sample_kernel.

(** No stack can be allocated. *)
Definition sample_no_memory_kernel : Kernel :=
  set_StackPool (fun _ => []) sample_kernel.

(** Both slots of the table point at another task, at address 8192. *)
Definition sample_exhausted_kernel : Kernel :=
  set_ObjectArray (fun _ => [Some 8192; Some 8192])
    (set_Tasks (fun m => <[ 8192 := set_RefCounter 3 (@Task_ctor sample_consts) ]> m)
       sample_kernel).

(** CPUs 0, 1 and 2 are running; their queues have switched context
    5, 3 and 3 times. *)
Definition sample_loaded_kernel : Kernel :=
  set_Queues (fun _ i =>
      mkQueue [] (match i with 0%nat => 5 | 1%nat => 3 | 2%nat => 3 | _ => 0 end))
    (mkKernel (Tasks sample_kernel) (Mem sample_kernel) (LiveStacks sample_kernel)
       (StackPool sample_kernel) (ObjectArray sample_kernel) (TaskList sample_kernel)
       (Queues sample_kernel) 7 (BootTime sample_kernel) (Log sample_kernel)).

(** ** The rest of ObjectTable, TaskTable and Task *)

(** Constants of [task.h] that the functions below use. *)
Class TaskConsts := {
  StateExited : Z;
  FlagStoppingBit : Z
}.

Definition set_Flags (v : Z) (t : Task) : Task :=
  mkTask (TaskQueue t) (Rsp t) (State t) v (Magic t) (CpuAffinity t) (Pid t)
         (Stack t) (Function t) (Ctx t) (RefCounter t) (StartTime t).

(** A loop that runs its body on the elements of [l], in order. *)
Fixpoint for_each {A} (body : A -> M unit) (l : list A) : M unit :=
  match l with
  | [] => ret tt
  | x :: rest => body x ;;; for_each body rest
  end.

Section KernelRest.
Context {KC : KernelConsts} {TC : TaskConsts}.

(** [ObjectTable::ObjectTable]: every slot of the array becomes nullptr. *)
Definition ObjectTable_ctor : M unit :=
  modify (set_ObjectArray (fun _ => replicate MaxObjects None)).

(** The body of the loop of [ObjectTable::~ObjectTable]. *)
Definition ObjectTable_dtor_step (objectId : nat) : M unit :=
  k <- get ;;
  let object := mjoin (ObjectArray k !! objectId) in
  modify (set_ObjectArray <[objectId := None]>) ;;;
  match object with
  | Some o => Task_Put o
  | None => ret tt
  end.

(** [ObjectTable::~ObjectTable] *)
Definition ObjectTable_dtor : M unit :=
  k <- get ;;
  for_each ObjectTable_dtor_step (seq 0 (length (ObjectArray k))).

(** The body of the outer loop of [TaskTable::~TaskTable]:
    [MoveTailList] empties bucket [i] into a local list, whose entries
    are then taken from the head and released. *)
Definition TaskTable_dtor_bucket (i : nat) : M unit :=
  k <- get ;;
  let taskList := default [] (TaskList k !! i) in
  modify (set_TaskList <[i := []]>) ;;;
  for_each Task_Put taskList.

(** [TaskTable::~TaskTable]; the member [TaskObjectTable] is destroyed
    after the body has run. *)
Definition TaskTable_dtor : M unit :=
  k <- get ;;
  for_each TaskTable_dtor_bucket (seq 0 (length (TaskList k))) ;;;
  ObjectTable_dtor.

(** [Task::SetStopping] and [Task::IsStopping]; [SetBit] and [TestBit]
    of the atomic word set and test the bit of that number. *)
Definition Task_SetStopping (this : Z) : M unit :=
  T <- load this ;;
  update this (set_Flags (Z.lor (Flags T) (Z.shiftl 1 FlagStoppingBit))).

Definition Task_IsStopping (this : Z) : M bool :=
  T <- load this ;;
  ret (Z.testbit (Flags T) FlagStoppingBit).

(** [Task::SetCpuAffinity] and [Task::GetCpuAffinity] *)
Definition Task_SetCpuAffinity (this affinity : Z) : M unit :=
  update this (set_CpuAffinity affinity).

Definition Task_GetCpuAffinity (this : Z) : M Z :=
  T <- load this ;;
  ret (CpuAffinity T).

(** [Task::Exit].  [ExitTime] is a member of Task that no other function
    of the sources reads; it is kept beside the store, as a map from
    task to time stamp.  [Schedule] is defined outside the sources and
    is a parameter; [rsp] is the value of [GetRsp()].  [Panic] is the
    same crash as a [BugOn] that fired. *)
Definition Task_Exit (Schedule : gmap Z Z -> M unit) (this rsp : Z)
    (ExitTime : gmap Z Z) : M unit :=
  current <- Task_GetCurrentTask rsp ;;
  BugOn (negb (this =? current)) ;;;
  update this (set_State StateExited) ;;;
  k <- get ;;
  let ExitTime := <[this := BootTime k]> ExitTime in
  TaskTable_Remove this ;;;
  Schedule ExitTime ;;;
  crash BugCheck.

(** Insert the objects of [objects] one after the other; the ids that
    [ObjectTable::Insert] returned, in order. *)
Fixpoint insert_all (objects : list Z) : M (list Z) :=
  match objects with
  | [] => ret []
  | o :: rest =>
      id <- ObjectTable_Insert o ;;
      ids <- insert_all rest ;;
      ret (id :: ids)
  end.

(** Every object the table points at, and every task in [objects], is
    live and has more references than the table has slots pointing at
    it plus the times it is listed in [objects]. *)
Definition refs_cover (objects : list Z) (k : Kernel) : Prop :=
  forall o,
    (Some o ∈ ObjectArray k \/ o ∈ objects) ->
    exists T, Tasks k !! o = Some T /\
      Z.of_nat (slots_of o (ObjectArray k)
                + length (filter (fun x => x = o) objects)) < RefCounter T.

(** The Task object and the state that a successful [PrepareStart]
    leaves: [stack] is the stack it allocated, [rest] what remains in
    the pool, [i] the slot the task got. *)
Definition prepared_task (func ctx stack : Z) (i : nat) (T : Task) : Task :=
  set_Function (Some func) ctx
    (set_RefCounter (RefCounter T + 2)
       (set_Pid (Z.of_nat i) (set_Stack (Some stack) T))).

Definition prepared (this func ctx stack : Z) (rest : list Z) (i : nat)
    (T : Task) (k : Kernel) : Kernel :=
  set_TaskList (InsertTail (bucket_of this k) this)
    (set_ObjectArray <[i := Some this]>
       (set_Tasks <[this := prepared_task func ctx stack i T]>
          (set_Mem (fun m =>
             <[stack + OffMagic2 := StackMagic2]>
               (<[stack + OffTask := this]>
                  (<[stack + OffMagic1 := StackMagic1]> m)))
             (set_LiveStacks (fun s => {[stack]} ∪ s)
                (set_StackPool (fun _ => rest) k))))).

(** What [Start] needs to go through on task [this]: the task is live,
    has never been prepared and is not registered; a stack and a slot
    are available; some running CPU is allowed by the affinity mask. *)
Definition startable (this stack : Z) (rest : list Z) (i : nat) (T : Task)
    (k : Kernel) : Prop :=
  Tasks k !! this = Some T /\ 0 < RefCounter T /\
  Stack T = None /\ Function T = None /\
  StackPool k = stack :: rest /\
  first_free (ObjectArray k) = Some i /\ Z.of_nat i <> InvalidObjectId /\
  TaskList k <> [] /\ in_no_bucket this k /\
  exists c, candidate k T c.

(** The members of [struct Stack] are 8 bytes wide, do not overlap, and
    lie outside the initial frame; the frame lies above the guard page
    and inside the stack. *)
Definition stack_layout_ok : Prop :=
  0 <= SizeofContext /\
  (OffMagic1 + 8 <= OffTask \/ OffTask + 8 <= OffMagic1) /\
  (OffMagic1 + 8 <= OffMagic2 \/ OffMagic2 + 8 <= OffMagic1) /\
  (OffTask + 8 <= OffMagic2 \/ OffMagic2 + 8 <= OffTask) /\
  (OffMagic1 + 8 <= OffStackTop - 8 - SizeofContext \/ OffStackTop <= OffMagic1) /\
  (OffTask + 8 <= OffStackTop - 8 - SizeofContext \/ OffStackTop <= OffTask) /\
  (OffMagic2 + 8 <= OffStackTop - 8 - SizeofContext \/ OffStackTop <= OffMagic2) /\
  0 <= OffStackBottom + PageSize /\
  OffStackBottom + PageSize <= OffStackTop - 8 - SizeofContext /\
  OffStackTop <= StackSize.

End KernelRest.

(** ** CPU start-up (main.cpp) *)

Section CpuStartup.
Context {KC : KernelConsts}.

(** [CpuStackSize], and the row size of the array [Stack]. *)
Definition CpuStackSize : Z := 8 * PageSize.

(** The macro [ALLOC_CPU_STACK].  [StackBase] is the address of the
    array [Stack]; the result is the new stack pointer and the new value
    of [StackIndex], or nothing when the macro panics.
    [AtomicReadAndInc] yields the value the counter had before the
    increment. *)
Definition ALLOC_CPU_STACK (StackBase MaxCpus StackIndex : Z) : option (Z * Z) :=
  let index := StackIndex in
  let StackIndex := StackIndex + 1 in
  if index >=? MaxCpus then None
  else Some (StackBase + index * CpuStackSize + CpuStackSize, StackIndex).

(** [n] CPUs run the macro one after the other; the stack pointers they
    get, in order. *)
Fixpoint alloc_cpu_stacks (StackBase MaxCpus : Z) (n : nat) (StackIndex : Z)
    : option (list Z * Z) :=
  match n with
  | O => Some ([], StackIndex)
  | S n' =>
      match ALLOC_CPU_STACK StackBase MaxCpus StackIndex with
      | None => None
      | Some (rsp, StackIndex) =>
          match alloc_cpu_stacks StackBase MaxCpus n' StackIndex with
          | None => None
          | Some (rsps, StackIndex) => Some (rsp :: rsps, StackIndex)
          end
      end
  end.

(** One iteration of the IPI loop of [BpStartup]: [sent] lists the CPUs
    that [SendIPI] has been called for, oldest first; [self] is
    [cpu.GetIndex()]. *)
Definition ipi_step (cpuMask self : Z) (sent : list nat) (i : nat) : list nat :=
  if negb (Z.land cpuMask (Z.shiftl 1 (Z.of_nat i)) =? 0) then
    if negb (Z.of_nat i =? self) then sent ++ [i] else sent
  else sent.

(** The IPI loop of [BpStartup] over the 8 * sizeof(ulong) bit
    positions. *)
Definition BpStartup_ipis (cpuMask self : Z) : list nat :=
  fold_left (ipi_step cpuMask self) (seq 0 64) [].

End CpuStartup.

(** ** More concrete states *)

Definition sample_task_consts : TaskConsts :=
  {| StateExited := 3; FlagStoppingBit := 0 |}.

(** The table holds the only reference to the sample task, which owns
    the stack at 65536. *)
Definition sample_sole_holder_kernel : Kernel :=
  set_ObjectArray (fun _ => [Some 4096; None]) sample_last_ref_kernel.

(** The sample task, registered in the TaskTable. *)
Definition sample_registered_kernel : Kernel :=
  match TaskTable_Insert (KC := sample_consts) 4096 sample_kernel with
  | Ok _ k => k
  | Crashed _ => sample_kernel
  end.

(** Two freshly constructed tasks, at 4096 and 8192. *)
Definition sample_two_tasks_kernel : Kernel :=
  set_Tasks (fun m => <[ 8192 := @Task_ctor sample_consts ]> m) sample_kernel.

(** ** Reasoning about monadic code *)

Lemma bind_Ok {A B} (m : M A) (f : A -> M B) k a k' :
  m k = Ok a k' -> bind m f k = f a k'.
Proof. intros H. unfold bind. now rewrite H. Qed.

Lemma bind_Crashed {A B} (m : M A) (f : A -> M B) k c :
  m k = Crashed c -> bind m f k = Crashed c.
Proof. intros H. unfold bind. now rewrite H. Qed.

Lemma bind_inv {A B} (m : M A) (f : A -> M B) k b k' :
  bind m f k = Ok b k' -> exists a k1, m k = Ok a k1 /\ f a k1 = Ok b k'.
Proof.
  unfold bind. destruct (m k) as [a k1|c]; [eauto | discriminate].
Qed.

Lemma bind_assoc {A B C} (m : M A) (f : A -> M B) (g : B -> M C) k :
  bind (bind m f) g k = bind m (fun a => bind (f a) g) k.
Proof. unfold bind. destruct (m k); reflexivity. Qed.

Lemma load_Ok k this T :
  Tasks k !! this = Some T -> load this k = Ok T k.
Proof. intros H. unfold load. now rewrite H. Qed.

Lemma update_Ok k this T f :
  Tasks k !! this = Some T ->
  update this f k = Ok tt (set_Tasks <[this := f T]> k).
Proof. intros H. unfold update. now rewrite (bind_Ok _ _ _ _ _ (load_Ok _ _ _ H)). Qed.

Lemma BugOn_false k : BugOn false k = Ok tt k.
Proof. reflexivity. Qed.

Lemma BugOn_true k : BugOn true k = Crashed BugCheck.
Proof. reflexivity. Qed.

Ltac mstep :=
  first
    [ rewrite bind_assoc
    | erewrite bind_Ok by (first [ eapply load_Ok | eapply update_Ok ]; eassumption)
    | rewrite (bind_Ok (BugOn false) _ _ tt _ (BugOn_false _))
    | erewrite bind_Ok by reflexivity ].

Section TaskProofs.
Context {KC : KernelConsts}.

Lemma Task_Get_Ok k this T :
  Tasks k !! this = Some T -> 0 < RefCounter T ->
  Task_Get this k = Ok tt (set_Tasks <[this := set_RefCounter (RefCounter T + 1) T]> k).
Proof.
  intros HT Hc. unfold Task_Get. mstep.
  replace (RefCounter T <=? 0) with false by (symmetry; apply Z.leb_gt; lia).
  mstep. now apply update_Ok.
Qed.

Lemma Task_Put_keep k this T :
  Tasks k !! this = Some T -> 1 < RefCounter T ->
  Task_Put this k = Ok tt (set_Tasks <[this := set_RefCounter (RefCounter T - 1) T]> k).
Proof.
  intros HT Hc. unfold Task_Put. mstep.
  replace (RefCounter T <=? 0) with false by (symmetry; apply Z.leb_gt; lia).
  mstep. mstep.
  replace (RefCounter T - 1 =? 0) with false by (symmetry; apply Z.eqb_neq; lia).
  reflexivity.
Qed.

Lemma Stack_delete_Ok k stack :
  stack ∈ LiveStacks k ->
  Stack_delete stack k =
  Ok tt (set_Log (fun l => l ++ [EvFreeStack stack])
           (set_StackPool (cons stack)
              (set_LiveStacks (fun s => s ∖ {[stack]}) k))).
Proof.
  intros H. unfold Stack_delete. mstep.
  rewrite bool_decide_eq_true_2 by exact H. reflexivity.
Qed.

Lemma Task_Release_Ok k this T :
  Tasks k !! this = Some T -> TaskQueue T = None ->
  (forall stack, Stack T = Some stack -> stack ∈ LiveStacks k) ->
  exists k',
    Task_Release this k = Ok tt k' /\
    Tasks k' = <[this := set_Stack None T]> (Tasks k) /\
    Log k' = Log k ++ match Stack T with Some s => [EvFreeStack s] | None => [] end /\
    (forall stack, Stack T = Some stack -> stack ∉ LiveStacks k') /\
    ObjectArray k' = ObjectArray k /\ TaskList k' = TaskList k.
Proof.
  intros HT Hq Hlive. unfold Task_Release. mstep. rewrite Hq. mstep.
  destruct (Stack T) as [stack|] eqn:Hs.
  - rewrite (bind_Ok _ _ _ _ _ (Stack_delete_Ok _ _ (Hlive _ eq_refl))).
    erewrite update_Ok by exact HT.
    eexists. split; [reflexivity|]. cbn. repeat split.
    intros s Hs'. injection Hs' as <-.
    apply not_elem_of_difference. right. now apply elem_of_singleton.
  - exists k. split; [reflexivity|]. rewrite app_nil_r. repeat split.
    + symmetry. apply insert_id. rewrite HT. f_equal.
      destruct T; unfold set_Stack; cbn in *; congruence.
    + intros s [=].
Qed.

Lemma Task_delete_Ok k this T :
  Tasks k !! this = Some T -> TaskQueue T = None -> Stack T = None ->
  Task_delete this k =
  Ok tt (set_Log (fun l => l ++ [EvFreeTask this]) (set_Tasks (delete this) k)).
Proof.
  intros HT Hq Hs. unfold Task_delete, Task_dtor.
  mstep. mstep. rewrite Hq, Hs. mstep. mstep. reflexivity.
Qed.

Lemma Task_Put_release k this T :
  Tasks k !! this = Some T -> RefCounter T = 1 -> TaskQueue T = None ->
  (forall stack, Stack T = Some stack -> stack ∈ LiveStacks k) ->
  exists k',
    Task_Put this k = Ok tt k' /\
    Tasks k' = delete this (Tasks k) /\
    Log k' = Log k ++ release_events this T /\
    (forall stack, Stack T = Some stack -> stack ∉ LiveStacks k') /\
    ObjectArray k' = ObjectArray k /\ TaskList k' = TaskList k.
Proof.
  intros HT Hc Hq Hlive. unfold Task_Put. mstep. rewrite Hc.
  change (1 <=? 0) with false. mstep. mstep.
  change (1 - 1) with 0. change (0 =? 0) with true. cbv iota.
  set (T1 := set_RefCounter 0 T).
  set (k1 := set_Tasks <[this := T1]> k).
  assert (H1 : Tasks k1 !! this = Some T1) by (cbn; apply lookup_insert_eq).
  destruct (Task_Release_Ok k1 this T1 H1 Hq Hlive)
    as (k2 & Hrel & Htasks & Hlog & Hdead & Hoa & Htl).
  rewrite (bind_Ok _ _ _ _ _ Hrel).
  erewrite Task_delete_Ok; [| rewrite Htasks; apply lookup_insert_eq | exact Hq | reflexivity].
  eexists. split; [reflexivity|]. cbn. repeat split.
  - rewrite Htasks. cbn. rewrite !delete_insert_eq. reflexivity.
  - rewrite Hlog. cbn. unfold release_events.
    destruct (Stack T); rewrite <- app_assoc; reflexivity.
  - exact Hdead.
  - exact Hoa.
  - exact Htl.
Qed.

Lemma Task_Put_queued k this T :
  Tasks k !! this = Some T -> RefCounter T = 1 -> TaskQueue T <> None ->
  Task_Put this k = Crashed BugCheck.
Proof.
  intros HT Hc Hq. unfold Task_Put. mstep. rewrite Hc.
  change (1 <=? 0) with false. mstep. mstep.
  change (1 - 1) with 0. change (0 =? 0) with true. cbv iota.
  unfold Task_Release.
  erewrite bind_Crashed; [reflexivity|].
  erewrite bind_Ok by (apply load_Ok; cbn; apply lookup_insert_eq).
  cbn [TaskQueue set_RefCounter].
  destruct (TaskQueue T); [reflexivity | congruence].
Qed.

Lemma Task_Put_dead_stack k this T stack :
  Tasks k !! this = Some T -> RefCounter T = 1 -> TaskQueue T = None ->
  Stack T = Some stack -> stack ∉ LiveStacks k ->
  Task_Put this k = Crashed BadPointer.
Proof.
  intros HT Hc Hq Hs Hdead. unfold Task_Put. mstep. rewrite Hc.
  change (1 <=? 0) with false. mstep. mstep.
  change (1 - 1) with 0. change (0 =? 0) with true. cbv iota.
  erewrite bind_Crashed; [reflexivity|].
  unfold Task_Release.
  erewrite bind_Ok by (apply load_Ok; cbn; apply lookup_insert_eq).
  cbn [TaskQueue Stack set_RefCounter]. rewrite Hq, Hs. mstep.
  erewrite bind_Crashed; [reflexivity|].
  unfold Stack_delete. mstep. cbn [LiveStacks set_Tasks].
  rewrite bool_decide_eq_false_2 by exact Hdead. reflexivity.
Qed.

Lemma Task_Get_inv k this k' :
  Task_Get this k = Ok tt k' ->
  exists T, Tasks k !! this = Some T /\ 0 < RefCounter T /\
    k' = set_Tasks <[this := set_RefCounter (RefCounter T + 1) T]> k.
Proof.
  unfold Task_Get, bind, load.
  destruct (Tasks k !! this) as [T|] eqn:HT; [|discriminate].
  destruct (RefCounter T <=? 0) eqn:Hc; [discriminate|]. cbn.
  apply Z.leb_gt in Hc.
  rewrite (update_Ok _ _ _ _ HT). intros [= <-]. eauto.
Qed.

(** What a returning [Put] may have changed. *)
Lemma Task_Put_inv k this k' :
  Task_Put this k = Ok tt k' ->
  exists T, Tasks k !! this = Some T /\ 0 < RefCounter T /\
    ObjectArray k' = ObjectArray k /\ TaskList k' = TaskList k /\
    (forall o, o <> this -> Tasks k' !! o = Tasks k !! o) /\
    (1 < RefCounter T ->
       k' = set_Tasks <[this := set_RefCounter (RefCounter T - 1) T]> k) /\
    (RefCounter T = 1 -> TaskQueue T = None /\ Tasks k' !! this = None).
Proof.
  intros Hput.
  destruct (Tasks k !! this) as [T|] eqn:HT;
    [| unfold Task_Put, bind, load in Hput; rewrite HT in Hput; discriminate ].
  destruct (Z_lt_le_dec 0 (RefCounter T)) as [Hpos|Hneg].
  2:{ unfold Task_Put in Hput. rewrite (bind_Ok _ _ _ _ _ (load_Ok _ _ _ HT)) in Hput.
      replace (RefCounter T <=? 0) with true in Hput by (symmetry; apply Z.leb_le; lia).
      discriminate. }
  exists T. split; [reflexivity|]. split; [exact Hpos|].
  destruct (Z.eq_dec (RefCounter T) 1) as [Hone|Hmore].
  - destruct (TaskQueue T) as [q|] eqn:Hq.
    { rewrite (Task_Put_queued k this T HT Hone) in Hput by congruence. discriminate. }
    assert (Hlive : forall stack, Stack T = Some stack -> stack ∈ LiveStacks k).
    { intros stack Hs. destruct (decide (stack ∈ LiveStacks k)) as [|Hdead]; [assumption|].
      rewrite (Task_Put_dead_stack k this T stack HT Hone Hq Hs Hdead) in Hput.
      discriminate. }
    destruct (Task_Put_release k this T HT Hone Hq Hlive)
      as (k2 & Hrun & Htasks & _ & _ & Hoa & Htl).
    rewrite Hrun in Hput. injection Hput as <-.
    repeat split; try assumption; try lia.
    + intros o Ho. rewrite Htasks. now apply lookup_delete_ne.
    + rewrite Htasks. apply lookup_delete_eq.
  - rewrite (Task_Put_keep k this T HT) in Hput by lia.
    injection Hput as <-. cbn.
    repeat split; try lia.
    intros o Ho. now apply lookup_insert_ne.
Qed.

End TaskProofs.

(** ** The slot array *)

Section Slots.

Lemma first_free_Some (slots : list (option Z)) i :
  first_free slots = Some i ->
  slots !! i = Some None /\
  forall j, (j < i)%nat -> exists o, slots !! j = Some (Some o).
Proof.
  revert i. induction slots as [|[o|] rest IH]; intros i H; cbn in H.
  - discriminate.
  - destruct (first_free rest) as [i'|]; [|discriminate].
    injection H as <-. destruct (IH i' eq_refl) as [Hi Hlt].
    split; [exact Hi|]. intros [|j] Hj; cbn; [eauto | apply Hlt; lia].
  - injection H as <-. split; [reflexivity|]. intros j Hj. lia.
Qed.

Lemma first_free_None (slots : list (option Z)) :
  first_free slots = None <-> Forall is_Some slots.
Proof.
  induction slots as [|[o|] rest IH]; cbn.
  - split; [constructor | reflexivity].
  - destruct (first_free rest); cbn.
    + split; [discriminate|]. intros H. inversion H; subst.
      destruct IH as [_ IH]. discriminate (IH ltac:(assumption)).
    + split; [|reflexivity]. intros _. constructor; [eauto | now apply IH].
  - split; [discriminate|]. intros H. inversion H as [|? ? [? Hx] ?]. discriminate.
Qed.

Lemma first_free_is_Some (slots : list (option Z)) i :
  slots !! i = Some None -> is_Some (first_free slots).
Proof.
  intros Hi. destruct (first_free slots) eqn:E; [eauto|].
  apply first_free_None in E.
  rewrite Forall_lookup in E. destruct (E i None Hi). discriminate.
Qed.

Lemma slots_of_insert (object : Z) (slots : list (option Z)) i old new :
  slots !! i = Some old ->
  (slots_of object (<[i := new]> slots)
     + count1 (bool_decide (old = Some object)) =
   slots_of object slots + count1 (bool_decide (new = Some object)))%nat.
Proof.
  unfold slots_of. revert i. induction slots as [|s rest IH]; intros i Hi.
  - discriminate.
  - destruct i as [|i]; cbn in Hi |- *.
    + injection Hi as ->.
      destruct (decide (new = Some object)), (decide (old = Some object));
        repeat case_bool_decide; try congruence; cbn; lia.
    + specialize (IH i Hi).
      destruct (decide (s = Some object)); cbn; [f_equal|]; exact IH.
Qed.

Lemma slots_of_pos (object : Z) (slots : list (option Z)) i :
  slots !! i = Some (Some object) -> (0 < slots_of object slots)%nat.
Proof.
  intros Hi. unfold slots_of.
  assert (Hin : Some object ∈ filter (fun s => s = Some object) slots).
  { apply list_elem_of_filter. split; [reflexivity|].
    apply list_elem_of_lookup. eauto. }
  destruct (filter _ slots); [inversion Hin | cbn; lia].
Qed.

End Slots.

(** ** ObjectTable *)

Lemma set_Tasks_same f k : f (Tasks k) = Tasks k -> set_Tasks f k = k.
Proof. intros H. destruct k. unfold set_Tasks. cbn in *. now rewrite H. Qed.

Section ObjectTableProofs.
Context {KC : KernelConsts}.

Lemma ObjectTable_Insert_Ok k object T i :
  Tasks k !! object = Some T -> 0 < RefCounter T ->
  first_free (ObjectArray k) = Some i ->
  ObjectTable_Insert object k =
  Ok (Z.of_nat i)
     (set_ObjectArray <[i := Some object]>
        (set_Tasks <[object := set_RefCounter (RefCounter T + 1) T]> k)).
Proof.
  intros HT Hc Hfree. unfold ObjectTable_Insert.
  rewrite (bind_Ok _ _ _ _ _ (Task_Get_Ok _ _ _ HT Hc)).
  mstep. cbn [ObjectArray set_Tasks]. rewrite Hfree. reflexivity.
Qed.

Lemma ObjectTable_Insert_full k object T :
  Tasks k !! object = Some T -> 0 < RefCounter T ->
  first_free (ObjectArray k) = None ->
  ObjectTable_Insert object k = Ok InvalidObjectId k.
Proof.
  intros HT Hc Hfull. unfold ObjectTable_Insert.
  rewrite (bind_Ok _ _ _ _ _ (Task_Get_Ok _ _ _ HT Hc)).
  mstep. cbn [ObjectArray set_Tasks]. rewrite Hfull.
  erewrite bind_Ok.
  2:{ apply Task_Put_keep with (T := set_RefCounter (RefCounter T + 1) T).
      - cbn. apply lookup_insert_eq.
      - cbn. lia. }
  unfold ret. f_equal.
  change (set_Tasks ?f (set_Tasks ?g k)) with (set_Tasks (fun m => f (g m)) k).
  apply set_Tasks_same.
  rewrite insert_insert_eq. apply insert_id. rewrite HT. f_equal.
  destruct T; unfold set_RefCounter; cbn. f_equal. lia.
Qed.

Lemma ObjectTable_Lookup_Ok k id object T :
  ObjectArray k !! id = Some (Some object) ->
  Tasks k !! object = Some T -> 0 < RefCounter T ->
  ObjectTable_Lookup (Z.of_nat id) k =
  Ok (Some object) (set_Tasks <[object := set_RefCounter (RefCounter T + 1) T]> k).
Proof.
  intros Hslot HT Hc. unfold ObjectTable_Lookup. mstep.
  apply lookup_lt_Some in Hslot as Hlt.
  replace (Z.of_nat (length (ObjectArray k)) <=? Z.of_nat id) with false
    by (symmetry; apply Z.leb_gt; lia).
  rewrite Nat2Z.id, Hslot. cbn [mjoin option_join].
  now rewrite (bind_Ok _ _ _ _ _ (Task_Get_Ok _ _ _ HT Hc)).
Qed.

Lemma ObjectTable_Lookup_null k id :
  ObjectArray k !! id = Some None ->
  ObjectTable_Lookup (Z.of_nat id) k = Ok None k.
Proof.
  intros Hslot. unfold ObjectTable_Lookup. mstep.
  apply lookup_lt_Some in Hslot as Hlt.
  replace (Z.of_nat (length (ObjectArray k)) <=? Z.of_nat id) with false
    by (symmetry; apply Z.leb_gt; lia).
  rewrite Nat2Z.id, Hslot. reflexivity.
Qed.

Lemma ObjectTable_Remove_Ok k id object T :
  ObjectArray k !! id = Some (Some object) ->
  Tasks k !! object = Some T -> 1 < RefCounter T ->
  ObjectTable_Remove (Z.of_nat id) k =
  Ok tt (set_Tasks <[object := set_RefCounter (RefCounter T - 1) T]>
           (set_ObjectArray <[id := None]> k)).
Proof.
  intros Hslot HT Hc. unfold ObjectTable_Remove. mstep.
  apply lookup_lt_Some in Hslot as Hlt.
  replace (Z.of_nat (length (ObjectArray k)) <=? Z.of_nat id) with false
    by (symmetry; apply Z.leb_gt; lia).
  rewrite Nat2Z.id, Hslot. cbn [mjoin option_join]. mstep.
  now apply Task_Put_keep.
Qed.

(** A table call other than [Remove(id)] keeps slot [id] and the
    margin of the reference count. *)
Lemma Insert_preserves object id o' k r k' :
  slot_holds object id k ->
  ObjectTable_Insert o' k = Ok r k' ->
  slot_holds object id k'.
Proof.
  intros (Hslot & T & HT & Hc) Hrun.
  unfold ObjectTable_Insert in Hrun.
  apply bind_inv in Hrun as ([] & kg & Hget & Hrun).
  apply Task_Get_inv in Hget as (T' & HT' & Hc' & ->).
  unfold bind, get in Hrun. cbn [ObjectArray set_Tasks] in Hrun.
  destruct (first_free (ObjectArray k)) as [i|] eqn:Hfree.
  - cbn in Hrun. injection Hrun as <- <-.
    apply first_free_Some in Hfree as [Hi _].
    assert (Hne : i <> id) by congruence.
    split; [cbn; rewrite list_lookup_insert_ne; assumption|].
    pose proof (slots_of_insert object _ _ _ (Some o') Hi) as Hcount.
    rewrite bool_decide_eq_false_2 in Hcount by discriminate.
    cbn [ObjectArray Tasks set_ObjectArray set_Tasks].
    destruct (decide (o' = object)) as [->|Ho].
    + rewrite bool_decide_eq_true_2 in Hcount by reflexivity.
      eexists. split; [apply lookup_insert_eq|]. cbn in *.
      assert (T' = T) by congruence. subst T'. lia.
    + rewrite bool_decide_eq_false_2 in Hcount by congruence.
      exists T. split; [rewrite lookup_insert_ne; assumption|]. cbn in *. lia.
  - destruct (Task_Put o' _) as [[] kp|] eqn:Hput; [|discriminate].
    injection Hrun as _ <-.
    apply Task_Put_inv in Hput as (Tp & HTp & _ & Hoa & _ & Hframe & Hkeep & _).
    cbn [Tasks ObjectArray set_Tasks] in *.
    rewrite lookup_insert_eq in HTp. injection HTp as <-.
    split; [rewrite Hoa; assumption|]. rewrite Hoa.
    destruct (decide (o' = object)) as [->|Ho].
    + assert (T' = T) by congruence. subst T'.
      rewrite Hkeep by (cbn; lia). cbn.
      eexists. split; [apply lookup_insert_eq|]. cbn. lia.
    + exists T. split; [|assumption].
      rewrite Hframe by congruence. rewrite lookup_insert_ne; assumption.
Qed.

Lemma Lookup_preserves object id j k r k' :
  slot_holds object id k ->
  ObjectTable_Lookup j k = Ok r k' ->
  slot_holds object id k'.
Proof.
  intros (Hslot & T & HT & Hc) Hrun.
  unfold ObjectTable_Lookup, bind, get in Hrun.
  destruct (Z.of_nat (length (ObjectArray k)) <=? j).
  { injection Hrun as _ <-. split; eauto. }
  destruct (mjoin (ObjectArray k !! Z.to_nat j)) as [o'|].
  2:{ injection Hrun as _ <-. split; eauto. }
  destruct (Task_Get o' k) as [[] kg|] eqn:Hget; [|discriminate].
  injection Hrun as _ <-.
  apply Task_Get_inv in Hget as (T' & HT' & Hc' & ->).
  split; [assumption|]. cbn.
  destruct (decide (o' = object)) as [->|Ho].
  - assert (T' = T) by congruence. subst T'.
    eexists. split; [apply lookup_insert_eq|]. cbn. lia.
  - exists T. split; [rewrite lookup_insert_ne; assumption|]. assumption.
Qed.

Lemma Remove_preserves object id j k k' :
  slot_holds object id k -> 0 <= j -> j <> Z.of_nat id ->
  ObjectTable_Remove j k = Ok tt k' ->
  slot_holds object id k'.
Proof.
  intros (Hslot & T & HT & Hc) Hj Hne Hrun.
  unfold ObjectTable_Remove in Hrun. unfold bind at 1 in Hrun. unfold get in Hrun.
  destruct (Z.of_nat (length (ObjectArray k)) <=? j) eqn:Hrange.
  { injection Hrun as <-. split; eauto. }
  apply Z.leb_gt in Hrange.
  assert (Hnat : Z.to_nat j <> id) by lia.
  destruct (lookup_lt_is_Some_2 (ObjectArray k) (Z.to_nat j)) as [old Hold]; [lia|].
  rewrite Hold in Hrun. cbn [mjoin option_join] in Hrun.
  rewrite (bind_Ok (modify _) _ _ tt _ eq_refl) in Hrun.
  pose proof (slots_of_insert object _ _ _ None Hold) as Hcount.
  rewrite (bool_decide_eq_false_2 (None = Some object)) in Hcount by discriminate.
  assert (Hslot' : <[Z.to_nat j := None]> (ObjectArray k) !! id = Some (Some object))
    by (rewrite list_lookup_insert_ne; assumption).
  pose proof (slots_of_pos _ _ _ Hslot') as Hpos.
  destruct old as [o'|].
  2:{ injection Hrun as <-. split; [exact Hslot'|]. exists T. split; [assumption|].
      rewrite bool_decide_eq_false_2 in Hcount by discriminate. cbn in *. lia. }
  apply Task_Put_inv in Hrun as (Tp & HTp & _ & Hoa & _ & Hframe & Hkeep & _).
  cbn [Tasks ObjectArray set_ObjectArray] in *.
  split; [rewrite Hoa; assumption|]. rewrite Hoa.
  destruct (decide (o' = object)) as [->|Ho].
  - rewrite bool_decide_eq_true_2 in Hcount by reflexivity.
    assert (Tp = T) by congruence. subst Tp.
    rewrite Hkeep by (cbn in *; lia). cbn.
    eexists. split; [apply lookup_insert_eq|]. cbn in *. lia.
  - rewrite bool_decide_eq_false_2 in Hcount by congruence.
    exists T. split; [rewrite Hframe by congruence; assumption|]. cbn in *. lia.
Qed.

Lemma run_ops_preserves object id ops k k' :
  slot_holds object id k ->
  OpRemove (N.of_nat id) ∉ ops ->
  run_ops ops k = Ok tt k' ->
  slot_holds object id k'.
Proof.
  revert k. induction ops as [|op rest IH]; intros k Hinv Hnot Hrun.
  - injection Hrun as <-. exact Hinv.
  - cbn [run_ops] in Hrun. apply bind_inv in Hrun as ([] & k1 & Hop & Hrest).
    apply not_elem_of_cons in Hnot as [Hop_ne Hnot].
    apply (IH k1); [|assumption|assumption].
    destruct op as [o'|j|j]; cbn [run_op] in Hop.
    + apply bind_inv in Hop as (r & k2 & Hins & Hret). injection Hret as <-.
      eapply Insert_preserves; eassumption.
    + eapply Remove_preserves; [eassumption| apply N2Z.is_nonneg | | eassumption].
      intros Heq. apply Hop_ne. f_equal.
      rewrite <- nat_N_Z in Heq. now apply N2Z.inj in Heq.
    + apply bind_inv in Hop as (r & k2 & Hlk & Hret). injection Hret as <-.
      eapply Lookup_preserves; eassumption.
Qed.

End ObjectTableProofs.

(** ** Reference counting: the last [Put] *)

Section RefCount.
Context {KC : KernelConsts}.

(** C10: when [Put] takes the reference count of a task from one to zero,
    the call goes through only if the queue back-pointer is null; it
    then deletes the task's stack exactly once, deletes the task after
    that, and deletes nothing else.  With a non-null back-pointer the
    [BugOn] of [Release] panics and nothing is released. *)
Theorem Task_Put_zero_releases_unqueued k this T :
  Tasks k !! this = Some T -> RefCounter T = 1 ->
  (forall stack, Stack T = Some stack -> stack ∈ LiveStacks k) ->
  (TaskQueue T = None ->
     exists k', Task_Put this k = Ok tt k' /\
       Tasks k' !! this = None /\
       Log k' = Log k ++ release_events this T /\
       (forall stack, Stack T = Some stack -> stack ∉ LiveStacks k')) /\
  (TaskQueue T <> None -> Task_Put this k = Crashed BugCheck) /\
  (forall k', Task_Put this k = Ok tt k' -> TaskQueue T = None).
Proof.
  intros HT Hc Hlive. split; [|split].
  - intros Hq.
    destruct (Task_Put_release k this T HT Hc Hq Hlive)
      as (k' & Hrun & Htasks & Hlog & Hdead & _).
    exists k'. repeat split; try assumption.
    rewrite Htasks. apply lookup_delete_eq.
  - intros Hq. now apply Task_Put_queued with (T := T).
  - intros k' Hrun. destruct (TaskQueue T) eqn:Hq; [|reflexivity].
    rewrite (Task_Put_queued k this T HT Hc) in Hrun by congruence.
    discriminate.
Qed.

End RefCount.

Lemma Task_Put_zero_releases_unqueued_witness :
  exists k', Task_Put 4096 sample_last_ref_kernel = Ok tt k' /\
    Log k' = [EvFreeStack 65536; EvFreeTask 4096].
Proof.
  destruct (Task_Put_zero_releases_unqueued
              sample_last_ref_kernel 4096
              (set_Stack (Some 65536) (@Task_ctor sample_consts)))
    as [Hrel _].
  - reflexivity.
  - reflexivity.
  - intros stack Hs. injection Hs as <-. vm_compute. reflexivity.
  - destruct (Hrel eq_refl) as (k' & Hrun & _ & Hlog & _).
    exists k'. split; [exact Hrun | exact Hlog].
Defined.

(** ** ObjectTable: insertion, lookup and removal *)

Section ObjectTableClaims.
Context {KC : KernelConsts}.

(** C6: when every one of the [MaxObjects] slots is occupied, [Insert]
    returns [InvalidObjectId] and leaves the kernel state as it was: the
    slots are unchanged and the object's reference count is what it was
    before the call. *)
Theorem ObjectTable_Insert_full_no_side_effects k object T :
  table_full k ->
  Tasks k !! object = Some T -> 0 < RefCounter T ->
  ObjectTable_Insert object k = Ok InvalidObjectId k.
Proof.
  intros [_ Hfull] HT Hc.
  apply ObjectTable_Insert_full with (T := T); try assumption.
  now apply first_free_None.
Qed.

(** C4: in a table with a free slot, [Insert(o)] returns the index [id]
    of a slot.  From then on, after any table calls other than
    [Remove(id)], [Lookup(id)] returns [o] and adds one to the reference
    count of [o]; [Remove(id)] then goes through and a [Lookup(id)] made
    after it returns null.  The inserter holds a reference to [o] of its
    own. *)
Theorem ObjectTable_Lookup_until_Remove k object T :
  Tasks k !! object = Some T ->
  Z.of_nat (slots_of object (ObjectArray k)) < RefCounter T ->
  (exists i, ObjectArray k !! i = Some None) ->
  exists id k1,
    ObjectTable_Insert object k = Ok (Z.of_nat id) k1 /\
    (id < length (ObjectArray k))%nat /\
    forall ops k2,
      OpRemove (N.of_nat id) ∉ ops ->
      run_ops ops k1 = Ok tt k2 ->
      (exists T2, Tasks k2 !! object = Some T2 /\
         ObjectTable_Lookup (Z.of_nat id) k2 =
         Ok (Some object)
            (set_Tasks <[object := set_RefCounter (RefCounter T2 + 1) T2]> k2)) /\
      (exists k3, ObjectTable_Remove (Z.of_nat id) k2 = Ok tt k3 /\
         ObjectTable_Lookup (Z.of_nat id) k3 = Ok None k3).
Proof.
  intros HT Hc [i Hi].
  destruct (first_free_is_Some _ _ Hi) as [id Hfree].
  pose proof (first_free_Some _ _ Hfree) as [Hid _].
  assert (Hpos : 0 < RefCounter T) by lia.
  eexists id, _. split; [exact (ObjectTable_Insert_Ok _ _ _ _ HT Hpos Hfree)|].
  apply lookup_lt_Some in Hid as Hlt. split; [exact Hlt|].
  intros ops k2 Hnot Hrun.
  assert (Hinv : slot_holds object id k2).
  { eapply run_ops_preserves; [|exact Hnot|exact Hrun].
    split; [cbn; now apply list_lookup_insert_eq|].
    eexists. split; [cbn; apply lookup_insert_eq|].
    pose proof (slots_of_insert object _ _ _ (Some object) Hid) as Hcount.
    rewrite bool_decide_eq_false_2 in Hcount by discriminate.
    rewrite bool_decide_eq_true_2 in Hcount by reflexivity.
    cbn in *. lia. }
  destruct Hinv as (Hslot & T2 & HT2 & Hc2).
  pose proof (slots_of_pos _ _ _ Hslot) as Hslots.
  split.
  - exists T2. split; [exact HT2|].
    apply ObjectTable_Lookup_Ok; [assumption|assumption|lia].
  - eexists. split.
    + apply ObjectTable_Remove_Ok with (object := object) (T := T2);
        [assumption|assumption|lia].
    + apply ObjectTable_Lookup_null. cbn.
      apply list_lookup_insert_eq. now apply lookup_lt_Some in Hslot.
Qed.

End ObjectTableClaims.

Lemma ObjectTable_Insert_full_no_side_effects_witness :
  ObjectTable_Insert (KC := sample_consts) 4096 sample_full_kernel =
  Ok (2 ^ 64 - 1) sample_full_kernel.
Proof.
  apply (ObjectTable_Insert_full_no_side_effects (KC := sample_consts)
           sample_full_kernel 4096 (set_RefCounter 3 (@Task_ctor sample_consts))).
  - split; [reflexivity|]. repeat constructor; eexists; reflexivity.
  - reflexivity.
  - reflexivity.
Defined.

Lemma ObjectTable_Lookup_until_Remove_witness :
  exists id k1,
    ObjectTable_Insert (KC := sample_consts) 4096 sample_kernel = Ok (Z.of_nat id) k1 /\
    exists T2, Tasks k1 !! 4096 = Some T2 /\
      ObjectTable_Lookup (Z.of_nat id) k1 =
      Ok (Some 4096) (set_Tasks <[4096 := set_RefCounter (RefCounter T2 + 1) T2]> k1).
Proof.
  destruct (ObjectTable_Lookup_until_Remove (KC := sample_consts)
              sample_kernel 4096 (@Task_ctor sample_consts))
    as (id & k1 & Hins & _ & Hafter).
  - reflexivity.
  - vm_compute. reflexivity.
  - exists 0%nat. reflexivity.
  - exists id, k1. split; [exact Hins|].
    destruct (Hafter [] k1) as [Hlk _].
    + apply not_elem_of_nil.
    + reflexivity.
    + exact Hlk.
Defined.

(** ** The bucket lists *)

Section Buckets.

Lemma occurrences_cons (task : Z) (b : list Z) (buckets : list (list Z)) :
  occurrences task (b :: buckets) =
  (length (filter (fun x => x = task) b) + occurrences task buckets)%nat.
Proof.
  unfold occurrences. cbn [concat]. now rewrite list.filter_app, List.length_app.
Qed.

Lemma occurrences_InsertTail (task x : Z) i (buckets : list (list Z)) :
  (i < length buckets)%nat ->
  occurrences task (InsertTail i x buckets) =
  (occurrences task buckets + count1 (bool_decide (x = task)))%nat.
Proof.
  unfold InsertTail. revert i. induction buckets as [|b rest IH]; intros i Hi.
  - cbn in Hi. lia.
  - destruct i as [|i]; cbn [alter list_alter]; rewrite !occurrences_cons.
    + rewrite list.filter_app, List.length_app. cbn.
      destruct (decide (x = task)) as [Hx|Hx];
        [rewrite bool_decide_eq_true_2 by exact Hx
        |rewrite bool_decide_eq_false_2 by exact Hx]; cbn; lia.
    + cbn in Hi. fold (alter (fun b => b ++ [x]) i rest).
      rewrite IH by lia. lia.
Qed.

Lemma occurrences_RemoveInit_eq (task : Z) (buckets : list (list Z)) :
  occurrences task (RemoveInit task buckets) = 0%nat.
Proof.
  unfold RemoveInit. induction buckets as [|b rest IH]; [reflexivity|].
  cbn [map]. rewrite occurrences_cons, IH.
  induction b as [|y b IHb]; [reflexivity|].
  rewrite (filter_cons (fun z => z <> task)).
  destruct (decide (y <> task)) as [Hy|Hy]; [|exact IHb].
  rewrite (filter_cons (fun z => z = task)).
  destruct (decide (y = task)); [contradiction | exact IHb].
Qed.

Lemma occurrences_RemoveInit_ne (task x : Z) (buckets : list (list Z)) :
  x <> task ->
  occurrences x (RemoveInit task buckets) = occurrences x buckets.
Proof.
  intros Hne. unfold RemoveInit. induction buckets as [|b rest IH]; [reflexivity|].
  cbn [map]. rewrite !occurrences_cons, IH. f_equal.
  induction b as [|y b IHb]; [reflexivity|].
  rewrite (filter_cons (fun z => z <> task)).
  destruct (decide (y <> task)) as [Hy|Hy].
  - rewrite !(filter_cons (fun z => z = x)).
    destruct (decide (y = x)); cbn; congruence.
  - rewrite (filter_cons (fun z => z = x)).
    destruct (decide (y = x)) as [->|]; [|exact IHb].
    exfalso. apply Hy. exact Hne.
Qed.

End Buckets.

(** ** TaskTable *)

Lemma Kernel_eq k1 k2 :
  Tasks k1 = Tasks k2 -> Mem k1 = Mem k2 -> LiveStacks k1 = LiveStacks k2 ->
  StackPool k1 = StackPool k2 -> ObjectArray k1 = ObjectArray k2 ->
  TaskList k1 = TaskList k2 -> Queues k1 = Queues k2 ->
  RunningCpus k1 = RunningCpus k2 -> BootTime k1 = BootTime k2 ->
  Log k1 = Log k2 -> k1 = k2.
Proof. destruct k1, k2. cbn. intros. subst. reflexivity. Qed.

Ltac kernel_eq := apply Kernel_eq; cbn; try reflexivity.

Section TaskTableProofs.
Context {KC : KernelConsts}.

Lemma TaskTable_Insert_Ok k task T i :
  Tasks k !! task = Some T -> 0 < RefCounter T ->
  first_free (ObjectArray k) = Some i -> Z.of_nat i <> InvalidObjectId ->
  occurrences task (TaskList k) = 0%nat ->
  TaskTable_Insert task k =
  Ok true
     (set_TaskList (InsertTail (bucket_of task k) task)
        (set_ObjectArray <[i := Some task]>
           (set_Tasks
              <[task := set_RefCounter (RefCounter T + 2) (set_Pid (Z.of_nat i) T)]>
              k))).
Proof.
  intros HT Hc Hfree Hvalid Hempty. unfold TaskTable_Insert.
  rewrite (bind_Ok _ _ _ _ _ (ObjectTable_Insert_Ok _ _ _ _ HT Hc Hfree)).
  replace (Z.of_nat i =? InvalidObjectId) with false
    by (symmetry; now apply Z.eqb_neq).
  erewrite bind_Ok by (apply update_Ok; cbn; apply lookup_insert_eq).
  erewrite bind_Ok.
  2:{ apply Task_Get_Ok with
        (T := set_Pid (Z.of_nat i) (set_RefCounter (RefCounter T + 1) T)).
      - cbn. apply lookup_insert_eq.
      - cbn. lia. }
  mstep. unfold TableListEntry_IsEmpty. cbn [TaskList set_Tasks set_ObjectArray].
  rewrite bool_decide_eq_true_2 by exact Hempty. mstep. mstep.
  unfold ret. f_equal. kernel_eq.
  rewrite !insert_insert_eq. f_equal.
  unfold set_RefCounter, set_Pid. cbn. f_equal. lia.
Qed.

Lemma TaskTable_Insert_full k task T :
  Tasks k !! task = Some T -> 0 < RefCounter T ->
  first_free (ObjectArray k) = None ->
  TaskTable_Insert task k = Ok false k.
Proof.
  intros HT Hc Hfull. unfold TaskTable_Insert.
  rewrite (bind_Ok _ _ _ _ _ (ObjectTable_Insert_full _ _ _ HT Hc Hfull)).
  now rewrite Z.eqb_refl.
Qed.

Lemma TaskTable_Remove_Ok k task T i :
  Tasks k !! task = Some T -> 2 < RefCounter T ->
  Pid T = Z.of_nat i -> ObjectArray k !! i = Some (Some task) ->
  occurrences task (TaskList k) <> 0%nat ->
  TaskTable_Remove task k =
  Ok tt
     (set_TaskList (RemoveInit task)
        (set_ObjectArray <[i := None]>
           (set_Tasks <[task := set_RefCounter (RefCounter T - 2) T]> k))).
Proof.
  intros HT Hc Hpid Hslot Hlinked. unfold TaskTable_Remove. mstep. rewrite Hpid.
  erewrite bind_Ok by (apply ObjectTable_Remove_Ok with (T := T); [eassumption..|lia]).
  mstep. unfold TableListEntry_IsEmpty. cbn [TaskList set_Tasks set_ObjectArray].
  rewrite bool_decide_eq_false_2 by exact Hlinked. mstep. mstep.
  erewrite Task_Put_keep.
  2:{ cbn. apply lookup_insert_eq. }
  2:{ cbn. lia. }
  f_equal. kernel_eq.
  rewrite insert_insert_eq. f_equal.
  unfold set_RefCounter. cbn. f_equal. lia.
Qed.

Lemma bucket_of_lt task k :
  TaskList k <> [] -> (bucket_of task k < length (TaskList k))%nat.
Proof.
  intros Hne. unfold bucket_of.
  assert (0 < Z.of_nat (length (TaskList k))).
  { destruct (TaskList k); [congruence | cbn; lia]. }
  pose proof (Z.mod_pos_bound (HashPtr task) (Z.of_nat (length (TaskList k)))).
  lia.
Qed.

(** Registering an unregistered task and unregistering it again. *)
Lemma register_then_remove k task T :
  length (ObjectArray k) = MaxObjects ->
  Z.of_nat MaxObjects <= InvalidObjectId ->
  TaskList k <> [] ->
  Tasks k !! task = Some T -> 0 < RefCounter T ->
  in_no_bucket task k ->
  (exists i, ObjectArray k !! i = Some None) ->
  exists i k1 k2,
    let T1 := set_RefCounter (RefCounter T + 2) (set_Pid (Z.of_nat i) T) in
    (i < MaxObjects)%nat /\
    TaskTable_Insert task k = Ok true k1 /\
    Tasks k1 !! task = Some T1 /\
    ObjectArray k1 !! i = Some (Some task) /\
    in_one_bucket task k1 /\
    TaskTable_Remove task k1 = Ok tt k2 /\
    Tasks k2 !! task = Some (set_RefCounter (RefCounter T) T1) /\
    ObjectArray k2 !! i = Some None /\
    in_no_bucket task k2.
Proof.
  intros Hlen Hinv Hbuckets HT Hc Hempty [j Hj].
  destruct (first_free_is_Some _ _ Hj) as [i Hfree].
  pose proof (first_free_Some _ _ Hfree) as [Hi _].
  apply lookup_lt_Some in Hi as Hlt.
  assert (Hvalid : Z.of_nat i <> InvalidObjectId) by lia.
  pose proof (TaskTable_Insert_Ok k task T i HT Hc Hfree Hvalid Hempty) as Hins.
  set (T1 := set_RefCounter (RefCounter T + 2) (set_Pid (Z.of_nat i) T)) in *.
  set (k1 := set_TaskList _ _) in Hins.
  assert (HT1 : Tasks k1 !! task = Some T1) by (cbn; apply lookup_insert_eq).
  assert (Hslot : ObjectArray k1 !! i = Some (Some task))
    by (cbn; now apply list_lookup_insert_eq).
  assert (Hone : in_one_bucket task k1).
  { unfold in_one_bucket. cbn [TaskList k1 set_TaskList set_ObjectArray set_Tasks].
    rewrite occurrences_InsertTail by now apply bucket_of_lt.
    rewrite Hempty, bool_decide_eq_true_2 by reflexivity. reflexivity. }
  pose proof (TaskTable_Remove_Ok k1 task T1 i HT1) as Hrem.
  rewrite Hone in Hrem.
  specialize (Hrem ltac:(cbn; lia) eq_refl Hslot ltac:(discriminate)).
  eexists i, k1, _. cbv zeta. fold T1.
  split; [lia|]. split; [exact Hins|]. split; [exact HT1|].
  split; [exact Hslot|]. split; [exact Hone|]. split; [exact Hrem|].
  split; [|split].
  - cbn. rewrite lookup_insert_eq. do 2 f_equal. cbn. lia.
  - cbn. apply list_lookup_insert_eq. rewrite length_insert. exact Hlt.
  - unfold in_no_bucket. cbn [TaskList set_TaskList].
    apply occurrences_RemoveInit_eq.
Qed.

End TaskTableProofs.

Section TaskTableClaims.
Context {KC : KernelConsts}.

(** C1, as the code has it: a freshly constructed task has pid
    [InvalidObjectId]; [TaskTable::Insert] of an unregistered task gives
    it a valid pid, the index of the ObjectTable slot that now points at
    the task, and links it into exactly one bucket; [TaskTable::Remove]
    clears that slot and unlinks the task, so that it sits in no bucket,
    and leaves the task's pid at the value [Insert] gave it. *)
Theorem TaskTable_pid_and_membership k task T :
  length (ObjectArray k) = MaxObjects ->
  Z.of_nat MaxObjects <= InvalidObjectId ->
  TaskList k <> [] ->
  Tasks k !! task = Some T -> 0 < RefCounter T ->
  in_no_bucket task k ->
  (exists i, ObjectArray k !! i = Some None) ->
  Pid Task_ctor = InvalidObjectId /\
  exists i k1 T1,
    TaskTable_Insert task k = Ok true k1 /\
    Tasks k1 !! task = Some T1 /\
    Pid T1 = Z.of_nat i /\ Pid T1 <> InvalidObjectId /\
    ObjectArray k1 !! i = Some (Some task) /\
    in_one_bucket task k1 /\
    exists k2 T2,
      TaskTable_Remove task k1 = Ok tt k2 /\
      Tasks k2 !! task = Some T2 /\
      ObjectArray k2 !! i = Some None /\
      in_no_bucket task k2 /\
      Pid T2 = Pid T1.
Proof.
  intros Hlen Hinv Hbuckets HT Hc Hempty Hfree.
  split; [reflexivity|].
  destruct (register_then_remove k task T Hlen Hinv Hbuckets HT Hc Hempty Hfree)
    as (i & k1 & k2 & Hlt & Hins & HT1 & Hslot & Hone & Hrem & HT2 & Hcleared & Hnone).
  eexists i, k1, _. split; [exact Hins|]. split; [exact HT1|].
  split; [reflexivity|]. split; [cbn; lia|].
  split; [exact Hslot|]. split; [exact Hone|].
  eexists k2, _. split; [exact Hrem|]. split; [exact HT2|].
  split; [exact Hcleared|]. split; [exact Hnone|]. reflexivity.
Qed.

(** C2, as the code has it: after [TaskTable::Insert], a lookup of the
    task's pid returns the task and takes one more reference;
    [TaskTable::Remove] lowers the reference count by exactly two, one
    for the ObjectTable slot and one for the bucket list, and a lookup
    of the pid made after it returns null. *)
Theorem TaskTable_Lookup_and_Remove k task T :
  length (ObjectArray k) = MaxObjects ->
  Z.of_nat MaxObjects <= InvalidObjectId ->
  TaskList k <> [] ->
  Tasks k !! task = Some T -> 0 < RefCounter T ->
  in_no_bucket task k ->
  (exists i, ObjectArray k !! i = Some None) ->
  exists k1 T1,
    TaskTable_Insert task k = Ok true k1 /\
    Tasks k1 !! task = Some T1 /\
    RefCounter T1 = RefCounter T + 2 /\
    TaskTable_Lookup (Pid T1) k1 =
      Ok (Some task)
         (set_Tasks <[task := set_RefCounter (RefCounter T1 + 1) T1]> k1) /\
    exists k2 T2,
      TaskTable_Remove task k1 = Ok tt k2 /\
      Tasks k2 !! task = Some T2 /\
      RefCounter T2 = RefCounter T1 - 2 /\
      TaskTable_Lookup (Pid T1) k2 = Ok None k2.
Proof.
  intros Hlen Hinv Hbuckets HT Hc Hempty Hfree.
  destruct (register_then_remove k task T Hlen Hinv Hbuckets HT Hc Hempty Hfree)
    as (i & k1 & k2 & Hlt & Hins & HT1 & Hslot & Hone & Hrem & HT2 & Hcleared & Hnone).
  eexists k1, _. split; [exact Hins|]. split; [exact HT1|].
  split; [reflexivity|]. split.
  { unfold TaskTable_Lookup. cbn [Pid set_RefCounter set_Pid].
    apply ObjectTable_Lookup_Ok; [exact Hslot | exact HT1 | cbn; lia]. }
  eexists k2, _. split; [exact Hrem|]. split; [exact HT2|].
  split; [cbn; lia|].
  unfold TaskTable_Lookup. cbn [Pid set_RefCounter set_Pid].
  now apply ObjectTable_Lookup_null.
Qed.

End TaskTableClaims.

Lemma TaskTable_pid_and_membership_witness :
  exists i k1 T1,
    TaskTable_Insert (KC := sample_consts) 4096 sample_kernel = Ok true k1 /\
    Tasks k1 !! 4096 = Some T1 /\ Pid T1 = Z.of_nat i /\
    Pid T1 <> @InvalidObjectId sample_consts.
Proof.
  destruct (TaskTable_pid_and_membership (KC := sample_consts)
              sample_kernel 4096 (@Task_ctor sample_consts))
    as (_ & i & k1 & T1 & Hins & HT1 & Hpid & Hvalid & _).
  - reflexivity.
  - vm_compute. discriminate.
  - discriminate.
  - reflexivity.
  - reflexivity.
  - reflexivity.
  - exists 0%nat. reflexivity.
  - exists i, k1, T1. repeat split; assumption.
Defined.

(** The statement of the spec (C1) that the pid is [InvalidObjectId] again after
    [Remove] fails: the task below is registered and then removed; it
    sits in no bucket and no slot, yet its pid is still 0. *)
Lemma TaskTable_Remove_keeps_pid_counterexample :
  exists k1 k2 T2,
    TaskTable_Insert (KC := sample_consts) 4096 sample_kernel = Ok true k1 /\
    TaskTable_Remove 4096 k1 = Ok tt k2 /\
    Tasks k2 !! 4096 = Some T2 /\
    in_no_bucket 4096 k2 /\
    slots_of 4096 (ObjectArray k2) = 0%nat /\
    Pid T2 = 0 /\
    Pid T2 <> @InvalidObjectId sample_consts.
Proof.
  eexists _, _, _.
  split; [vm_compute; reflexivity|].
  split; [vm_compute; reflexivity|].
  split; [vm_compute; reflexivity|].
  split; [vm_compute; reflexivity|].
  split; [vm_compute; reflexivity|].
  split; [reflexivity|].
  vm_compute. discriminate.
Qed.

Lemma TaskTable_Lookup_and_Remove_witness :
  exists k1 T1 k2 T2,
    TaskTable_Insert (KC := sample_consts) 4096 sample_kernel = Ok true k1 /\
    Tasks k1 !! 4096 = Some T1 /\
    TaskTable_Remove 4096 k1 = Ok tt k2 /\
    Tasks k2 !! 4096 = Some T2 /\
    RefCounter T2 = RefCounter T1 - 2.
Proof.
  destruct (TaskTable_Lookup_and_Remove (KC := sample_consts)
              sample_kernel 4096 (@Task_ctor sample_consts))
    as (k1 & T1 & Hins & HT1 & _ & _ & k2 & T2 & Hrem & HT2 & Hdrop & _).
  - reflexivity.
  - vm_compute. discriminate.
  - discriminate.
  - reflexivity.
  - reflexivity.
  - reflexivity.
  - exists 0%nat. reflexivity.
  - exists k1, T1, k2, T2. repeat split; assumption.
Defined.

(** The statement of the spec (C2) that [Remove] lowers the reference count by exactly
    one fails: the count of the task below is 3 before [Remove] and 1
    after it. *)
Lemma TaskTable_Remove_drops_one_counterexample :
  exists k1 T1 k2 T2,
    TaskTable_Insert (KC := sample_consts) 4096 sample_kernel = Ok true k1 /\
    Tasks k1 !! 4096 = Some T1 /\
    TaskTable_Remove 4096 k1 = Ok tt k2 /\
    Tasks k2 !! 4096 = Some T2 /\
    RefCounter T1 = 3 /\ RefCounter T2 = 1 /\
    RefCounter T2 <> RefCounter T1 - 1.
Proof.
  eexists _, _, _, _.
  split; [vm_compute; reflexivity|].
  split; [vm_compute; reflexivity|].
  split; [vm_compute; reflexivity|].
  split; [vm_compute; reflexivity|].
  split; [reflexivity|]. split; [reflexivity|].
  vm_compute. discriminate.
Qed.

(** ** Placement *)

Section Placement.
Context {KC : KernelConsts}.

Lemma mask_bit (m : Z) (i : nat) :
  negb (Z.land m (Z.shiftl 1 (Z.of_nat i)) =? 0) = Z.testbit m (Z.of_nat i).
Proof.
  assert (Hi : 0 <= Z.of_nat i) by lia.
  destruct (Z.testbit m (Z.of_nat i)) eqn:Hbit.
  - apply negb_true_iff, Z.eqb_neq. intros Hz.
    assert (Hb : Z.testbit (Z.land m (Z.shiftl 1 (Z.of_nat i))) (Z.of_nat i) = true).
    { rewrite Z.land_spec, Hbit, Z.shiftl_spec by lia.
      now rewrite Z.sub_diag. }
    rewrite Hz, Z.bits_0 in Hb. discriminate.
  - apply negb_false_iff, Z.eqb_eq. apply Z.bits_inj'. intros n Hn.
    rewrite Z.land_spec, Z.bits_0, Z.shiftl_spec by lia.
    destruct (Z.eq_dec n (Z.of_nat i)) as [->|Hne].
    + rewrite Hbit. reflexivity.
    + destruct (Z_lt_le_dec n (Z.of_nat i)).
      * rewrite (Z.testbit_neg_r 1) by lia. apply andb_false_r.
      * rewrite (Z.bits_above_log2 1) by (cbn; lia). apply andb_false_r.
Qed.

Lemma select_step_scanned k T n best :
  scanned k T n best ->
  scanned k T (S n)
    (select_step k (Z.land (RunningCpus k) (CpuAffinity T)) (TaskQueue T) best n).
Proof.
  intros Hinv. unfold select_step. rewrite mask_bit.
  destruct (Z.testbit _ (Z.of_nat n)) eqn:Hbit.
  - case_bool_decide as Hown.
    + (* the task's own queue is skipped *)
      destruct best as [i|]; cbn in Hinv |- *.
      * destruct Hinv as (Hi & Hc & Hmin). split; [lia|]. split; [exact Hc|].
        intros j Hj [Hjb Hjo]. destruct (decide (j = n)) as [->|]; [congruence|].
        apply Hmin; [lia | now split].
      * intros j Hj [Hjb Hjo]. destruct (decide (j = n)) as [->|]; [congruence|].
        apply (Hinv j); [lia | now split].
    + destruct best as [i|]; cbn in Hinv |- *.
      * destruct Hinv as (Hi & Hc & Hmin).
        destruct (SwitchContextCounter (Queues k i) >? SwitchContextCounter (Queues k n))
          eqn:Hcmp.
        -- apply Z.gtb_lt in Hcmp. split; [lia|]. split; [now split|].
           intros j Hj Hcand. destruct (decide (j = n)) as [->|]; [right; lia|].
           destruct (Hmin j ltac:(lia) Hcand) as [?|[? ?]]; left; lia.
        -- assert (SwitchContextCounter (Queues k i) <= SwitchContextCounter (Queues k n)).
           { destruct (Z.gtb_spec (SwitchContextCounter (Queues k i))
                         (SwitchContextCounter (Queues k n))); [discriminate | lia]. }
           split; [lia|]. split; [exact Hc|].
           intros j Hj Hcand. destruct (decide (j = n)) as [->|]; [|apply Hmin; [lia|exact Hcand]].
           destruct (Z.eq_dec (SwitchContextCounter (Queues k i))
                       (SwitchContextCounter (Queues k n))); [right|left]; lia.
      * split; [lia|]. split; [now split|].
        intros j Hj Hcand. destruct (decide (j = n)) as [->|]; [right; lia|].
        destruct (Hinv j ltac:(lia) Hcand).
  - destruct best as [i|]; cbn in Hinv |- *.
    + destruct Hinv as (Hi & Hc & Hmin). split; [lia|]. split; [exact Hc|].
      intros j Hj [Hjb Hjo]. destruct (decide (j = n)) as [->|]; [congruence|].
      apply Hmin; [lia | now split].
    + intros j Hj [Hjb Hjo]. destruct (decide (j = n)) as [->|]; [congruence|].
      apply (Hinv j); [lia | now split].
Qed.

Lemma select_loop_scanned k T n :
  scanned k T n
    (fold_left (select_step k (Z.land (RunningCpus k) (CpuAffinity T)) (TaskQueue T))
       (seq 0 n) None).
Proof.
  induction n as [|n IH].
  - cbn. intros j Hj. lia.
  - rewrite seq_S, fold_left_app. cbn [fold_left Nat.add].
    now apply select_step_scanned.
Qed.

(** C5: [SelectNextTaskQueue] returns the queue of a CPU that is a
    candidate (bit set in [GetRunningCpus() & CpuAffinity], queue not the
    task's own), whose switch counter is the lowest among the
    candidates, and whose index is the lowest among the candidates with
    that counter; it returns null exactly when there is no candidate. *)
Theorem SelectNextTaskQueue_least_loaded k this T :
  Tasks k !! this = Some T ->
  exists r,
    Task_SelectNextTaskQueue this k = Ok r k /\
    match r with
    | Some i => least_loaded k T i
    | None => forall j, ~ candidate k T j
    end.
Proof.
  intros HT. unfold Task_SelectNextTaskQueue. mstep. mstep.
  set (mask := Z.land (RunningCpus k) (CpuAffinity T)).
  destruct (mask =? 0) eqn:Hz; cbn [negb].
  - exists None. split; [reflexivity|]. intros j (_ & Hbit & _).
    apply Z.eqb_eq in Hz. fold mask in Hbit. rewrite Hz, Z.bits_0 in Hbit. discriminate.
  - eexists. split; [reflexivity|].
    pose proof (select_loop_scanned k T 64) as Hinv. fold mask in Hinv |- *.
    destruct (fold_left _ _ _) as [i|]; cbn in Hinv.
    + destruct Hinv as (Hi & [Hbit Hown] & Hmin).
      split; [repeat split; assumption|].
      intros j (Hj & Hjb & Hjo). apply Hmin; [exact Hj | now split].
    + intros j (Hj & Hjb & Hjo). apply (Hinv j Hj). now split.
Qed.

End Placement.

Lemma SelectNextTaskQueue_least_loaded_witness :
  exists r, Task_SelectNextTaskQueue 4096 sample_kernel = Ok r sample_kernel /\ r = Some 0%nat.
Proof.
  destruct (SelectNextTaskQueue_least_loaded sample_kernel 4096
              (@Task_ctor sample_consts)) as (r & Hrun & _).
  - reflexivity.
  - exists r. split; [exact Hrun|].
    assert (Hc : Task_SelectNextTaskQueue 4096 sample_kernel = Ok (Some 0%nat) sample_kernel)
      by (vm_compute; reflexivity).
    rewrite Hc in Hrun. now injection Hrun.
Defined.

(** ** Task start-up *)

Lemma load_inv k this T k' :
  load this k = Ok T k' -> k' = k /\ Tasks k !! this = Some T.
Proof.
  unfold load. destruct (Tasks k !! this); [|discriminate].
  intros [= -> ->]. split; reflexivity.
Qed.

Lemma modify_bind {B} (f : Kernel -> Kernel) (g : unit -> M B) k :
  bind (modify f) g k = g tt (f k).
Proof. reflexivity. Qed.

Lemma get_bind {B} (g : Kernel -> M B) k : bind get g k = g k k.
Proof. reflexivity. Qed.

Section StartProofs.
Context {KC : KernelConsts}.

Lemma SelectNextTaskQueue_inv this k r k' :
  Task_SelectNextTaskQueue this k = Ok r k' -> k' = k.
Proof.
  unfold Task_SelectNextTaskQueue. intros H.
  unfold bind, load, get in H.
  destruct (Tasks k !! this) as [T|]; [|discriminate H].
  destruct (negb (_ =? 0)); unfold ret in H; congruence.
Qed.

Lemma TaskQueue_Insert_inv queue task k k' :
  TaskQueue_Insert queue task k = Ok tt k' ->
  exists T, Tasks k !! task = Some T /\
    Tasks k' !! task =
      Some (set_TaskQueue (Some queue) (set_RefCounter (RefCounter T + 1) T)) /\
    Mem k' = Mem k.
Proof.
  unfold TaskQueue_Insert. intros H.
  apply bind_inv in H as ([] & k1 & Hget & H).
  apply Task_Get_inv in Hget as (T & HT & Hc & ->).
  erewrite bind_Ok in H by (apply update_Ok; cbn; apply lookup_insert_eq).
  injection H as <-. exists T. split; [exact HT|]. cbn.
  split; [apply lookup_insert_eq | reflexivity].
Qed.

Lemma IF_bit_only n : Z.testbit (Z.shiftl 1 9) n = true <-> n = 9.
Proof.
  split.
  - intros H. destruct (Z.eq_dec n 9) as [|Hne]; [assumption|]. exfalso.
    destruct (Z_lt_le_dec n 0).
    + rewrite Z.testbit_neg_r in H by assumption. discriminate.
    + rewrite Z.shiftl_spec in H by assumption.
      destruct (Z_lt_le_dec n 9).
      * rewrite Z.testbit_neg_r in H by lia. discriminate.
      * rewrite (Z.bits_above_log2 1) in H by (cbn; lia). discriminate.
  - intros ->. reflexivity.
Qed.

Lemma framed_initial_frame this stack T k :
  context_layout_ok -> initial_frame this stack (framed this stack T k).
Proof.
  intros (Hd0 & Hd1 & Hf0 & Hf1 & Hsep). unfold initial_frame, framed, frame_base.
  assert (Hne : OffRdi <> OffRflags) by lia.
  cbn [Mem set_Tasks set_Mem].
  set (regs := stack + OffStackTop - 8 - SizeofContext).
  repeat split.
  - rewrite !fn_lookup_insert_ne by (subst regs; lia).
    unfold MemSet0.
    replace (stack + OffStackTop - 8 <? regs + SizeofContext) with false
      by (symmetry; apply Z.ltb_ge; subst regs; lia).
    rewrite andb_false_r. apply fn_lookup_insert.
  - rewrite fn_lookup_insert_ne by lia. apply fn_lookup_insert.
  - rewrite fn_lookup_insert. apply IF_bit_only.
  - rewrite fn_lookup_insert. apply IF_bit_only.
  - intros a [Hlo Hhi] Hd Hf.
    rewrite !fn_lookup_insert_ne by congruence.
    unfold MemSet0.
    replace (regs <=? a) with true by (symmetry; apply Z.leb_le; lia).
    replace (a <? regs + SizeofContext) with true by (symmetry; apply Z.ltb_lt; lia).
    reflexivity.
Qed.

Lemma Task_Start_after_prepare this func ctx k k1 T1 stack :
  Task_PrepareStart this func ctx k = Ok true k1 ->
  Tasks k1 !! this = Some T1 -> Stack T1 = Some stack ->
  Task_Start this func ctx k =
  (taskQueue <- Task_SelectNextTaskQueue this ;;
   match taskQueue with
   | None => crash NullDeref
   | Some queue => TaskQueue_Insert queue this ;;; ret true
   end) (framed this stack T1 k1).
Proof.
  intros Hprep HT1 Hs. unfold Task_Start.
  rewrite (bind_Ok _ _ _ _ _ Hprep). cbn [negb].
  rewrite (bind_Ok _ _ _ _ _ (load_Ok _ _ _ HT1)). rewrite Hs.
  rewrite !modify_bind.
  erewrite bind_Ok by (apply update_Ok; cbn; exact HT1).
  rewrite get_bind.
  erewrite bind_Ok by (apply update_Ok; cbn; apply lookup_insert_eq).
  erewrite bind_Ok by (apply update_Ok; cbn; apply lookup_insert_eq).
  f_equal. unfold framed. kernel_eq.
  rewrite !insert_insert_eq. reflexivity.
Qed.

Lemma initial_frame_Mem this stack k k' :
  Mem k' = Mem k -> initial_frame this stack k -> initial_frame this stack k'.
Proof. unfold initial_frame. intros ->. exact id. Qed.

(** With the queue's [Insert] as the spec describes it, [Task_Start_with]
    is [Task_Start]. *)
Lemma Task_Start_with_TaskQueue_Insert this func ctx :
  Task_Start_with TaskQueue_Insert this func ctx = Task_Start this func ctx.
Proof. reflexivity. Qed.

(** Up to the call of [Insert], [Start] does not depend on what the queue
    does: it reaches the call in the state [framed]. *)
Lemma Task_Start_with_after_prepare Insert this func ctx k k1 T1 stack :
  Task_PrepareStart this func ctx k = Ok true k1 ->
  Tasks k1 !! this = Some T1 -> Stack T1 = Some stack ->
  Task_Start_with Insert this func ctx k =
  (taskQueue <- Task_SelectNextTaskQueue this ;;
   match taskQueue with
   | None => crash NullDeref
   | Some queue => Insert queue this ;;; ret true
   end) (framed this stack T1 k1).
Proof.
  intros Hprep HT1 Hs. unfold Task_Start_with.
  rewrite (bind_Ok _ _ _ _ _ Hprep). cbn [negb].
  rewrite (bind_Ok _ _ _ _ _ (load_Ok _ _ _ HT1)). rewrite Hs.
  rewrite !modify_bind.
  erewrite bind_Ok by (apply update_Ok; cbn; exact HT1).
  rewrite get_bind.
  erewrite bind_Ok by (apply update_Ok; cbn; apply lookup_insert_eq).
  erewrite bind_Ok by (apply update_Ok; cbn; apply lookup_insert_eq).
  f_equal. unfold framed. kernel_eq.
  rewrite !insert_insert_eq. reflexivity.
Qed.

(** C7: whenever [Start] returns true, the stack of the task carries
    the initial frame: the word under the stack top is the address of
    the trampoline [Task::Exec], [Rdi] of the Context below it is the
    task pointer, [Rflags] has bit 9 (IF) set and no other bit, and the
    rest of the Context is zero; the saved [Rsp] points at that Context.
    All of this, and the state [StateWaiting], already hold in the state
    [kmid] in which the task is handed to [TaskQueue::Insert], and still
    hold when [Start] returns.  The state is set before the task is
    enqueued: whatever the queue's [Insert] does, [Start] calls it in
    [kmid], where the state is [StateWaiting] already, and after the call
    only returns true. *)
Theorem Task_Start_initial_frame this func ctx k k' :
  context_layout_ok ->
  Task_Start this func ctx k = Ok true k' ->
  exists stack queue kmid Tmid T',
    Tasks kmid !! this = Some Tmid /\
    Stack Tmid = Some stack /\ State Tmid = StateWaiting /\
    Rsp Tmid = frame_base stack /\
    initial_frame this stack kmid /\
    (forall Insert : nat -> Z -> M unit,
       Task_Start_with Insert this func ctx k =
       (Insert queue this ;;; ret true) kmid) /\
    TaskQueue_Insert queue this kmid = Ok tt k' /\
    Tasks k' !! this = Some T' /\
    Stack T' = Some stack /\ State T' = StateWaiting /\
    Rsp T' = frame_base stack /\
    initial_frame this stack k'.
Proof.
  intros Hlayout Hstart. pose proof Hstart as Hrun.
  unfold Task_Start in Hrun.
  apply bind_inv in Hrun as ([|] & k1 & Hprep & Hrun); [|discriminate].
  cbn [negb] in Hrun.
  apply bind_inv in Hrun as (T1 & k1' & Hload & Hrun).
  apply load_inv in Hload as [-> HT1].
  destruct (Stack T1) as [stack|] eqn:Hs; [|discriminate].
  clear Hrun.
  rewrite (Task_Start_after_prepare _ _ _ _ _ _ _ Hprep HT1 Hs) in Hstart.
  apply bind_inv in Hstart as (taskQueue & ks & Hsel & Hstart).
  pose proof Hsel as Hchosen.
  apply SelectNextTaskQueue_inv in Hsel as ->.
  destruct taskQueue as [queue|]; [|discriminate].
  apply bind_inv in Hstart as ([] & kf & Hins & Hret). injection Hret as <-.
  destruct (TaskQueue_Insert_inv _ _ _ _ Hins) as (Tmid & HTmid & HT' & Hmem).
  assert (Hmid : Tmid =
            set_State StateWaiting
              (set_StartTime (BootTime k1) (set_Rsp (frame_base stack) T1))).
  { unfold framed in HTmid. cbn in HTmid. rewrite lookup_insert_eq in HTmid.
    now injection HTmid. }
  eexists stack, queue, (framed this stack T1 k1), Tmid, _.
  pose proof (framed_initial_frame this stack T1 k1 Hlayout) as Hframe.
  split; [exact HTmid|]. split; [subst Tmid; exact Hs|].
  split; [subst Tmid; reflexivity|]. split; [subst Tmid; reflexivity|].
  split; [exact Hframe|].
  split.
  { intros Insert.
    rewrite (Task_Start_with_after_prepare Insert _ _ _ _ _ _ _ Hprep HT1 Hs).
    now rewrite (bind_Ok _ _ _ _ _ Hchosen). }
  split; [exact Hins|]. split; [exact HT'|].
  subst Tmid. cbn. split; [exact Hs|]. split; [reflexivity|]. split; [reflexivity|].
  now apply initial_frame_Mem with (k := framed this stack T1 k1).
Qed.

(** C3, what the code does: once [PrepareStart] has succeeded, a task
    whose affinity mask shares no bit with [GetRunningCpus()] makes
    [SelectNextTaskQueue] return null, and [Start] calls [Insert]
    through that null pointer instead of returning false. *)
Theorem Task_Start_empty_mask_null_deref this func ctx k k1 T1 :
  Task_PrepareStart this func ctx k = Ok true k1 ->
  Tasks k1 !! this = Some T1 ->
  Z.land (RunningCpus k1) (CpuAffinity T1) = 0 ->
  Task_SelectNextTaskQueue this k1 = Ok None k1 /\
  Task_Start this func ctx k = Crashed NullDeref.
Proof.
  intros Hprep HT1 Hmask. split.
  { unfold Task_SelectNextTaskQueue. mstep. rewrite get_bind, Hmask. reflexivity. }
  destruct (Stack T1) as [stack|] eqn:Hs.
  - rewrite (Task_Start_after_prepare _ _ _ _ _ _ _ Hprep HT1 Hs).
    assert (Hsel : Task_SelectNextTaskQueue this (framed this stack T1 k1) =
                   Ok None (framed this stack T1 k1)).
    { unfold Task_SelectNextTaskQueue.
      erewrite bind_Ok by (apply load_Ok; unfold framed; cbn; apply lookup_insert_eq).
      rewrite get_bind.
      change (RunningCpus (framed this stack T1 k1)) with (RunningCpus k1).
      cbn [CpuAffinity set_State set_StartTime set_Rsp].
      rewrite Hmask. reflexivity. }
    now rewrite (bind_Ok _ _ _ _ _ Hsel).
  - unfold Task_Start. rewrite (bind_Ok _ _ _ _ _ Hprep). cbn [negb].
    rewrite (bind_Ok _ _ _ _ _ (load_Ok _ _ _ HT1)). now rewrite Hs.
Qed.

End StartProofs.

Lemma Task_Start_initial_frame_witness :
  initial_frame (KC := sample_consts) 4096 65536 sample_started_kernel.
Proof.
  destruct (Task_Start_initial_frame (KC := sample_consts)
              4096 777 0 sample_kernel sample_started_kernel)
    as (stack & queue & kmid & Tmid & T' & _ & _ & _ & _ & _ & _ & _ & HT' & Hs & _ & _ & Hframe).
  - unfold context_layout_ok. cbn. lia.
  - vm_compute. reflexivity.
  - assert (Hstack : stack = 65536).
    { assert (H : Tasks sample_started_kernel !! 4096 =
                  Some (mkTask (Some 0%nat) 98224 1 0 11 (2 ^ 64 - 1) 0
                          (Some 65536) (Some 777) 0 4 0))
        by (vm_compute; reflexivity).
      rewrite H in HT'. injection HT' as <-. cbn in Hs. now injection Hs. }
    rewrite Hstack in Hframe. exact Hframe.
Defined.

Lemma Task_Start_empty_mask_null_deref_witness :
  Task_Start (KC := sample_consts) 4096 777 0 sample_unplaceable_kernel =
  Crashed NullDeref.
Proof.
  destruct (Task_PrepareStart (KC := sample_consts) 4096 777 0 sample_unplaceable_kernel)
    as [prepared k1|c] eqn:Hprep; [|vm_compute in Hprep; discriminate Hprep].
  assert (Hp : prepared = true) by (vm_compute in Hprep; now injection Hprep).
  subst prepared.
  destruct (Tasks k1 !! 4096) as [T1|] eqn:HT1.
  - refine (proj2 (Task_Start_empty_mask_null_deref (KC := sample_consts)
                    4096 777 0 sample_unplaceable_kernel k1 T1 Hprep HT1 _)).
    vm_compute in Hprep. injection Hprep as <-.
    vm_compute in HT1. injection HT1 as <-. reflexivity.
  - vm_compute in Hprep. injection Hprep as <-.
    vm_compute in HT1. discriminate HT1.
Defined.

(** ** Failing start-up *)

Lemma set_Stack_None_same T : Stack T = None -> set_Stack None T = T.
Proof. destruct T. cbn. now intros ->. Qed.

Lemma set_Stack_None_undo stack T :
  Stack T = None -> set_Stack None (set_Stack (Some stack) T) = T.
Proof. destruct T. cbn. now intros ->. Qed.

Section StartFailure.
Context {KC : KernelConsts}.

Lemma PrepareStart_no_stack this func ctx k T :
  Tasks k !! this = Some T -> Stack T = None -> Function T = None ->
  StackPool k = [] ->
  Task_PrepareStart this func ctx k = Ok false (set_Tasks <[this := T]> k).
Proof.
  intros HT Hs Hf Hpool. unfold Task_PrepareStart.
  mstep. rewrite Hs, Hf. mstep. mstep.
  unfold Stack_new. mstep. rewrite get_bind, Hpool.
  erewrite bind_Ok by reflexivity.
  erewrite bind_Ok by (apply update_Ok; exact HT).
  now rewrite set_Stack_None_same.
Qed.

Lemma PrepareStart_table_full this func ctx k T stack rest :
  Tasks k !! this = Some T -> 0 < RefCounter T ->
  Stack T = None -> Function T = None ->
  StackPool k = stack :: rest ->
  first_free (ObjectArray k) = None ->
  exists k',
    Task_PrepareStart this func ctx k = Ok false k' /\
    Tasks k' = <[this := T]> (Tasks k) /\
    ObjectArray k' = ObjectArray k /\ TaskList k' = TaskList k /\
    Log k' = Log k ++ [EvFreeStack stack].
Proof.
  intros HT Hc Hs Hf Hpool Hfull. unfold Task_PrepareStart.
  mstep. rewrite Hs, Hf. mstep. mstep.
  unfold Stack_new. mstep. rewrite get_bind, Hpool.
  rewrite !bind_assoc, !modify_bind.
  erewrite bind_Ok by reflexivity.
  erewrite bind_Ok by (apply update_Ok; cbn; exact HT).
  erewrite bind_Ok.
  2:{ apply TaskTable_Insert_full with (T := set_Stack (Some stack) T).
      - cbn. apply lookup_insert_eq.
      - cbn. exact Hc.
      - cbn. exact Hfull. }
  cbn [negb].
  erewrite bind_Ok.
  2:{ apply Stack_delete_Ok. cbn. apply elem_of_union_l. now apply elem_of_singleton. }
  erewrite bind_Ok by (apply update_Ok; cbn; apply lookup_insert_eq).
  eexists. split; [reflexivity|]. cbn.
  rewrite insert_insert_eq, set_Stack_None_undo by exact Hs.
  repeat split.
Qed.

(** C8: when the stack allocation yields nullptr, or the TaskTable
    insertion fails because the ObjectTable is full, [Start] returns
    false and leaves nothing behind: the Task object is as it was, so it
    owns no stack and has no function installed; the slots and the
    buckets are as they were, so the task is in no bucket and no slot
    points at it. *)
Theorem Task_Start_fails_cleanly this func ctx k T :
  Tasks k !! this = Some T -> 0 < RefCounter T ->
  Stack T = None -> Function T = None ->
  in_no_bucket this k -> slots_of this (ObjectArray k) = 0%nat ->
  StackPool k = [] \/ table_full k ->
  exists k' T',
    Task_Start this func ctx k = Ok false k' /\
    Tasks k' !! this = Some T' /\
    Stack T' = None /\ Function T' = None /\
    in_no_bucket this k' /\ slots_of this (ObjectArray k') = 0%nat /\
    T' = T /\ ObjectArray k' = ObjectArray k /\ TaskList k' = TaskList k.
Proof.
  intros HT Hc Hs Hf Hbucket Hslots Hfail.
  destruct (StackPool k) as [|stack rest] eqn:Hpool.
  - exists (set_Tasks <[this := T]> k), T. split.
    + unfold Task_Start.
      now rewrite (bind_Ok _ _ _ _ _ (PrepareStart_no_stack _ func ctx _ _ HT Hs Hf Hpool)).
    + cbn. rewrite lookup_insert_eq. repeat split; assumption.
  - destruct Hfail as [|[_ Hfull]]; [discriminate|].
    apply first_free_None in Hfull.
    destruct (PrepareStart_table_full this func ctx k T stack rest
                HT Hc Hs Hf Hpool Hfull)
      as (k' & Hprep & Htasks & Hoa & Htl & _).
    exists k', T. split.
    + unfold Task_Start. now rewrite (bind_Ok _ _ _ _ _ Hprep).
    + rewrite Htasks, lookup_insert_eq. unfold in_no_bucket. rewrite Hoa, Htl.
      repeat split; assumption.
Qed.

End StartFailure.

Lemma Task_Start_fails_cleanly_witness :
  exists k',
    Task_Start (KC := sample_consts) 4096 777 0 sample_exhausted_kernel = Ok false k' /\
    Tasks k' !! 4096 = Some (@Task_ctor sample_consts).
Proof.
  destruct (Task_Start_fails_cleanly (KC := sample_consts)
              4096 777 0 sample_exhausted_kernel (@Task_ctor sample_consts))
    as (k' & T' & Hrun & HT' & _ & _ & _ & _ & -> & _).
  - reflexivity.
  - reflexivity.
  - reflexivity.
  - reflexivity.
  - reflexivity.
  - reflexivity.
  - right. split; [reflexivity|]. repeat constructor; eexists; reflexivity.
  - exists k'. split; assumption.
Defined.

(** ** The current task, from the stack pointer *)

Lemma land_ulong_mask (rsp m : Z) :
  0 <= rsp < 2 ^ 64 -> Z.land rsp (to_ulong m) = Z.land rsp m.
Proof.
  intros Hr. apply Z.bits_inj'. intros i Hi.
  rewrite !Z.land_spec. unfold to_ulong, ulong_mod.
  destruct (Z_lt_le_dec i 64).
  - now rewrite Z.mod_pow2_bits_low by lia.
  - rewrite <- (Z.mod_small rsp (2 ^ 64)) by lia.
    now rewrite Z.mod_pow2_bits_high by lia.
Qed.

Lemma mask_stack (rsp stack n : Z) :
  0 <= n < 64 -> 0 <= stack -> stack mod 2 ^ n = 0 ->
  stack <= rsp < stack + 2 ^ n -> rsp < 2 ^ 64 ->
  Z.land rsp (to_ulong (Z.lnot (2 ^ n - 1))) = stack.
Proof.
  intros Hn Hs Hal Hr Hu.
  rewrite land_ulong_mask by lia.
  rewrite <- Z.ldiff_land.
  replace (2 ^ n - 1) with (Z.ones n) by (rewrite Z.ones_equiv; lia).
  rewrite Z.ldiff_ones_r by lia.
  rewrite Z.shiftr_div_pow2, Z.shiftl_mul_pow2 by lia.
  assert (Hp : 0 < 2 ^ n) by (apply Z.pow_pos_nonneg; lia).
  apply Z.mod_divide in Hal; [|lia]. destruct Hal as [q ->].
  replace (rsp / 2 ^ n) with q; [reflexivity|].
  apply Z.div_unique with (r := rsp - q * 2 ^ n); lia.
Qed.

Section CurrentTask.
Context {KC : KernelConsts}.

Lemma GetCurrentTask_unfold rsp k stack :
  Z.land rsp (to_ulong (Z.lnot (StackSize - 1))) = stack ->
  Task_GetCurrentTask rsp k =
  (BugOn (negb (Mem k (stack + OffMagic1) =? StackMagic1)) ;;;
   BugOn (negb (Mem k (stack + OffMagic2) =? StackMagic2)) ;;;
   BugOn (rsp <? stack + OffStackBottom + PageSize) ;;;
   BugOn (rsp >? stack + OffStackTop) ;;;
   T <- load (Mem k (stack + OffTask)) ;;
   BugOn (negb (Magic T =? TaskMagic)) ;;;
   ret (Mem k (stack + OffTask))) k.
Proof. intros <-. reflexivity. Qed.

Lemma GetCurrentTask_Ok rsp k stack :
  Z.land rsp (to_ulong (Z.lnot (StackSize - 1))) = stack ->
  header_intact k stack -> rsp_in_range stack rsp ->
  Task_GetCurrentTask rsp k = Ok (Mem k (stack + OffTask)) k.
Proof.
  intros Hmask (H1 & H2 & T & HT & Hm) [Hlo Hhi].
  rewrite (GetCurrentTask_unfold _ _ _ Hmask).
  rewrite H1, H2, !Z.eqb_refl. cbn [negb]. mstep. mstep.
  replace (rsp <? stack + OffStackBottom + PageSize) with false
    by (symmetry; apply Z.ltb_ge; lia).
  mstep.
  replace (rsp >? stack + OffStackTop) with false
    by (symmetry; rewrite Z.gtb_ltb; apply Z.ltb_ge; lia).
  mstep. mstep. rewrite Hm, Z.eqb_refl. reflexivity.
Qed.

Lemma GetCurrentTask_inv rsp k stack r k' :
  Z.land rsp (to_ulong (Z.lnot (StackSize - 1))) = stack ->
  Task_GetCurrentTask rsp k = Ok r k' ->
  header_intact k stack /\ rsp_in_range stack rsp /\
  r = Mem k (stack + OffTask) /\ k' = k.
Proof.
  intros Hmask. rewrite (GetCurrentTask_unfold _ _ _ Hmask).
  unfold bind, BugOn, load, crash, ret. 
  destruct (Mem k (stack + OffMagic1) =? StackMagic1) eqn:H1; [|discriminate].
  destruct (Mem k (stack + OffMagic2) =? StackMagic2) eqn:H2; [|discriminate].
  destruct (rsp <? stack + OffStackBottom + PageSize) eqn:Hlo; [discriminate|].
  destruct (rsp >? stack + OffStackTop) eqn:Hhi; [discriminate|].
  cbn. destruct (Tasks k !! Mem k (stack + OffTask)) as [T|] eqn:HT; [|discriminate].
  destruct (Magic T =? TaskMagic) eqn:Hm; [|discriminate].
  cbn. intros [= <- <-].
  apply Z.eqb_eq in H1, H2, Hm. apply Z.ltb_ge in Hlo.
  rewrite Z.gtb_ltb in Hhi. apply Z.ltb_ge in Hhi.
  repeat split; try assumption. exists T. now split.
Qed.

(** C9, as the code has it: let [rsp] lie in the [StackSize]-aligned
    block that starts at [stack].  Masking [rsp] with [~(StackSize-1)]
    yields [stack].  If the two stack magics and the magic of the task
    named in the header are intact and [rsp] lies between one page above
    [StackBottom] and [StackTop], both included, [GetCurrentTask]
    returns the task named in the header.  It returns a task only then,
    and that task; in every other case, a stack pointer inside the guard
    page included, the call does not return. *)
Theorem GetCurrentTask_from_rsp k stack rsp n :
  StackSize = 2 ^ n -> 0 <= n < 64 ->
  0 <= stack -> stack mod StackSize = 0 ->
  stack <= rsp < stack + StackSize -> rsp < 2 ^ 64 ->
  Z.land rsp (to_ulong (Z.lnot (StackSize - 1))) = stack /\
  (header_intact k stack -> rsp_in_range stack rsp ->
     Task_GetCurrentTask rsp k = Ok (Mem k (stack + OffTask)) k) /\
  (forall r k', Task_GetCurrentTask rsp k = Ok r k' ->
     header_intact k stack /\ rsp_in_range stack rsp /\
     r = Mem k (stack + OffTask) /\ k' = k) /\
  (~ (header_intact k stack /\ rsp_in_range stack rsp) ->
     exists c, Task_GetCurrentTask rsp k = Crashed c).
Proof.
  intros Hsize Hn Hs Hal Hr Hu.
  assert (Hmask : Z.land rsp (to_ulong (Z.lnot (StackSize - 1))) = stack).
  { rewrite Hsize in *. now apply mask_stack. }
  split; [exact Hmask|]. split; [|split].
  - now apply GetCurrentTask_Ok.
  - intros r k'. now apply GetCurrentTask_inv.
  - intros Hnot. destruct (Task_GetCurrentTask rsp k) as [r k'|c] eqn:Hrun; [|eauto].
    destruct (GetCurrentTask_inv _ _ _ _ _ Hmask Hrun) as (Hi & Hrange & _).
    destruct Hnot. now split.
Qed.

End CurrentTask.

Lemma GetCurrentTask_from_rsp_witness :
  Task_GetCurrentTask (KC := sample_consts) 98224 sample_started_kernel =
  Ok 4096 sample_started_kernel.
Proof.
  destruct (GetCurrentTask_from_rsp (KC := sample_consts)
              sample_started_kernel 65536 98224 15) as (_ & Hok & _).
  - reflexivity.
  - lia.
  - lia.
  - reflexivity.
  - vm_compute. split; [discriminate | reflexivity].
  - reflexivity.
  - apply Hok.
    + split; [reflexivity|]. split; [reflexivity|].
      eexists. split; [vm_compute; reflexivity | reflexivity].
    + vm_compute. split; discriminate.
Defined.

(** The statement of the spec (C9) that every [rsp] strictly between the end of the
    header and the stack top recovers the task fails: with the header at
    65536 intact, [rsp] = 65568 lies 8 bytes above the end of the header
    (65560) and below the stack top (98304), inside the guard page, and
    [GetCurrentTask] panics. *)
Lemma GetCurrentTask_guard_page_counterexample :
  header_intact (KC := sample_consts) sample_started_kernel 65536 /\
  65536 + @OffStackBottom sample_consts < 65568 /\
  65568 < 65536 + @OffStackTop sample_consts /\
  Z.land 65568 (to_ulong (Z.lnot (@StackSize sample_consts - 1))) = 65536 /\
  Task_GetCurrentTask (KC := sample_consts) 65568 sample_started_kernel =
  Crashed BugCheck.
Proof.
  split.
  { split; [reflexivity|]. split; [reflexivity|].
    eexists. split; [vm_compute; reflexivity | reflexivity]. }
  split; [reflexivity|]. split; [reflexivity|]. split; [reflexivity|].
  vm_compute. reflexivity.
Qed.

(** ** The model on concrete inputs *)

Example place_on_least_loaded :
  Task_SelectNextTaskQueue 4096 sample_loaded_kernel =
  Ok (Some 1%nat) sample_loaded_kernel.
Proof. vm_compute. reflexivity. Qed.

Example place_skips_own_queue :
  exists k,
    (update 4096 (set_TaskQueue (Some 1%nat)) ;;;
     Task_SelectNextTaskQueue 4096) sample_loaded_kernel = Ok (Some 2%nat) k.
Proof. eexists. vm_compute. reflexivity. Qed.

Example place_respects_affinity :
  exists k,
    (update 4096 (set_CpuAffinity 1) ;;;
     Task_SelectNextTaskQueue 4096) sample_loaded_kernel = Ok (Some 0%nat) k.
Proof. eexists. vm_compute. reflexivity. Qed.

Example start_without_memory :
  exists k,
    Task_Start (KC := sample_consts) 4096 777 0 sample_no_memory_kernel = Ok false k /\
    Tasks k !! 4096 = Some (@Task_ctor sample_consts).
Proof. eexists. split; vm_compute; reflexivity. Qed.

Example start_then_current_task :
  exists k,
    (Task_Start (KC := sample_consts) 4096 777 0 ;;;
     Task_GetCurrentTask (KC := sample_consts) 98224) sample_kernel = Ok 4096 k.
Proof. eexists. vm_compute. reflexivity. Qed.

Example third_insert_is_refused :
  exists k,
    (ObjectTable_Insert (KC := sample_consts) 4096 ;;;
     ObjectTable_Insert (KC := sample_consts) 4096 ;;;
     ObjectTable_Insert (KC := sample_consts) 4096) sample_kernel =
    Ok (2 ^ 64 - 1) k /\
    ObjectArray k = [Some 4096; Some 4096] /\
    RefCounter <$> Tasks k !! 4096 = Some 3.
Proof. eexists. repeat split; vm_compute; reflexivity. Qed.

Example remove_unknown_id_is_noop :
  ObjectTable_Remove 7 sample_kernel = Ok tt sample_kernel.
Proof. vm_compute. reflexivity. Qed.

(** ** ObjectTable: unknown ids, allocation order, round trips *)

Lemma set_ObjectArray_same f k :
  f (ObjectArray k) = ObjectArray k -> set_ObjectArray f k = k.
Proof. intros H. destruct k. unfold set_ObjectArray. cbn in *. now rewrite H. Qed.

Section ObjectTableMore.
Context {KC : KernelConsts}.

(** X1: An id that names no object (out of range, or an empty slot):
    [Remove] is a no-op and [Lookup] returns null; neither changes the
    state. *)
Theorem ObjectTable_unknown_id k objectId :
  0 <= objectId ->
  mjoin (ObjectArray k !! Z.to_nat objectId) = None ->
  ObjectTable_Remove objectId k = Ok tt k /\
  ObjectTable_Lookup objectId k = Ok None k.
Proof.
  intros Hid Hslot. unfold ObjectTable_Remove, ObjectTable_Lookup.
  rewrite !get_bind.
  destruct (Z.of_nat (length (ObjectArray k)) <=? objectId) eqn:Hrange;
    [split; reflexivity|].
  rewrite Hslot, modify_bind. split; [|reflexivity].
  unfold ret. f_equal. apply set_ObjectArray_same.
  apply Z.leb_gt in Hrange.
  destruct (lookup_lt_is_Some_2 (ObjectArray k) (Z.to_nat objectId)) as [s Hs]; [lia|].
  rewrite Hs in Hslot. cbn in Hslot. subst s. now apply list_insert_id.
Qed.

(** X2: [Insert] hands out the lowest free index: the slot it returns was
    empty, every slot below it is occupied, and only that slot changes.
    It returns [InvalidObjectId] only when no slot is empty. *)
Theorem ObjectTable_Insert_lowest_free k object T :
  Tasks k !! object = Some T -> 0 < RefCounter T ->
  exists r k',
    ObjectTable_Insert object k = Ok r k' /\
    ((r = InvalidObjectId /\ Forall is_Some (ObjectArray k) /\ k' = k) \/
     (exists id, r = Z.of_nat id /\
        ObjectArray k !! id = Some None /\
        (forall j, (j < id)%nat -> exists o, ObjectArray k !! j = Some (Some o)) /\
        ObjectArray k' = <[id := Some object]> (ObjectArray k) /\
        Tasks k' = <[object := set_RefCounter (RefCounter T + 1) T]> (Tasks k))).
Proof.
  intros HT Hc. destruct (first_free (ObjectArray k)) as [id|] eqn:Hfree.
  - eexists _, _. split; [exact (ObjectTable_Insert_Ok _ _ _ _ HT Hc Hfree)|].
    right. exists id. destruct (first_free_Some _ _ Hfree) as [Hid Hbelow].
    repeat split; assumption.
  - eexists _, _. split; [exact (ObjectTable_Insert_full _ _ _ HT Hc Hfree)|].
    left. repeat split. now apply first_free_None.
Qed.

(** X3: [Insert] followed by [Remove] of the id it returned puts the state
    back exactly as it was, whether the table had room or not. *)
Theorem ObjectTable_Insert_Remove_roundtrip k object T :
  Z.of_nat (length (ObjectArray k)) <= InvalidObjectId ->
  Tasks k !! object = Some T -> 0 < RefCounter T ->
  (id <- ObjectTable_Insert object ;; ObjectTable_Remove id) k = Ok tt k.
Proof.
  intros Hinv HT Hc. destruct (first_free (ObjectArray k)) as [id|] eqn:Hfree.
  - rewrite (bind_Ok _ _ _ _ _ (ObjectTable_Insert_Ok _ _ _ _ HT Hc Hfree)).
    destruct (first_free_Some _ _ Hfree) as [Hid _].
    apply lookup_lt_Some in Hid as Hlt.
    erewrite ObjectTable_Remove_Ok with (object := object).
    2:{ cbn. now apply list_lookup_insert_eq. }
    2:{ cbn. apply lookup_insert_eq. }
    2:{ cbn. lia. }
    f_equal. apply Kernel_eq; cbn; try reflexivity.
    + rewrite insert_insert_eq. apply insert_id. rewrite HT. f_equal.
      destruct T; unfold set_RefCounter; cbn. f_equal. lia.
    + rewrite list_insert_insert_eq. now apply list_insert_id.
  - rewrite (bind_Ok _ _ _ _ _ (ObjectTable_Insert_full _ _ _ HT Hc Hfree)).
    unfold ObjectTable_Remove. rewrite get_bind.
    replace (Z.of_nat (length (ObjectArray k)) <=? InvalidObjectId) with true
      by (symmetry; now apply Z.leb_le).
    reflexivity.
Qed.

(** X4: The reference that [Lookup] takes is given back by one [Put]: the
    two together leave the state as it was. *)
Theorem ObjectTable_Lookup_Put_roundtrip k id object T :
  ObjectArray k !! id = Some (Some object) ->
  Tasks k !! object = Some T -> 0 < RefCounter T ->
  (found <- ObjectTable_Lookup (Z.of_nat id) ;;
   match found with
   | Some o => Task_Put o
   | None => ret tt
   end) k = Ok tt k.
Proof.
  intros Hslot HT Hc.
  rewrite (bind_Ok _ _ _ _ _ (ObjectTable_Lookup_Ok _ _ _ _ Hslot HT Hc)).
  erewrite Task_Put_keep.
  2:{ cbn. apply lookup_insert_eq. }
  2:{ cbn. lia. }
  f_equal. apply Kernel_eq; cbn; try reflexivity.
  rewrite insert_insert_eq. apply insert_id. rewrite HT. f_equal.
  destruct T; unfold set_RefCounter; cbn. f_equal. lia.
Qed.

(** X5: When the table holds the last reference to an object that is on no
    queue, [Remove] releases it: the slot is cleared, the object's stack
    is deleted once, then the object itself. *)
Theorem ObjectTable_Remove_last_reference k id object T :
  ObjectArray k !! id = Some (Some object) ->
  Tasks k !! object = Some T -> RefCounter T = 1 -> TaskQueue T = None ->
  (forall stack, Stack T = Some stack -> stack ∈ LiveStacks k) ->
  exists k',
    ObjectTable_Remove (Z.of_nat id) k = Ok tt k' /\
    ObjectArray k' = <[id := None]> (ObjectArray k) /\
    Tasks k' = delete object (Tasks k) /\
    Log k' = Log k ++ release_events object T.
Proof.
  intros Hslot HT Hc Hq Hlive. unfold ObjectTable_Remove. rewrite get_bind.
  apply lookup_lt_Some in Hslot as Hlt.
  replace (Z.of_nat (length (ObjectArray k)) <=? Z.of_nat id) with false
    by (symmetry; apply Z.leb_gt; lia).
  rewrite Nat2Z.id, Hslot, modify_bind. cbn [mjoin option_join].
  destruct (Task_Put_release (set_ObjectArray <[id := None]> k) object T HT Hc Hq Hlive)
    as (k' & Hrun & Htasks & Hlog & _ & Hoa & _).
  exists k'. repeat split; assumption.
Qed.

End ObjectTableMore.

Lemma ObjectTable_unknown_id_witness :
  ObjectTable_Remove 1 sample_kernel = Ok tt sample_kernel /\
  ObjectTable_Lookup 1 sample_kernel = Ok None sample_kernel.
Proof.
  apply (ObjectTable_unknown_id sample_kernel 1).
  - lia.
  - reflexivity.
Defined.

Lemma ObjectTable_Insert_lowest_free_witness :
  exists k', ObjectTable_Insert (KC := sample_consts) 4096 sample_kernel = Ok 0 k'.
Proof.
  destruct (ObjectTable_Insert_lowest_free (KC := sample_consts)
              sample_kernel 4096 (@Task_ctor sample_consts))
    as (r & k' & Hrun & Hcase).
  - reflexivity.
  - reflexivity.
  - exists k'. rewrite Hrun. f_equal.
    assert (Hc : exists k2, ObjectTable_Insert (KC := sample_consts) 4096 sample_kernel
                            = Ok 0 k2) by (eexists; vm_compute; reflexivity).
    destruct Hc as [k2 Hc]. rewrite Hc in Hrun. now injection Hrun.
Defined.

Lemma ObjectTable_Insert_Remove_roundtrip_witness :
  (id <- ObjectTable_Insert (KC := sample_consts) 4096 ;; ObjectTable_Remove id)
    sample_kernel = Ok tt sample_kernel.
Proof.
  apply (ObjectTable_Insert_Remove_roundtrip (KC := sample_consts)
           sample_kernel 4096 (@Task_ctor sample_consts)).
  - vm_compute. discriminate.
  - reflexivity.
  - reflexivity.
Defined.

Lemma ObjectTable_Lookup_Put_roundtrip_witness :
  (found <- ObjectTable_Lookup 0 ;;
   match found with
   | Some o => Task_Put o
   | None => ret tt
   end) sample_full_kernel = Ok tt sample_full_kernel.
Proof.
  apply (ObjectTable_Lookup_Put_roundtrip sample_full_kernel 0 4096
           (set_RefCounter 3 (@Task_ctor sample_consts))).
  - reflexivity.
  - reflexivity.
  - reflexivity.
Defined.

(** ** Releasing many references *)

Lemma set_RefCounter_twice a b T :
  set_RefCounter a (set_RefCounter b T) = set_RefCounter a T.
Proof. reflexivity. Qed.

Lemma set_RefCounter_same T c : c = RefCounter T -> set_RefCounter c T = T.
Proof. intros ->. now destruct T. Qed.

Lemma filter_eq_cons (o x : Z) (l : list Z) :
  length (filter (fun y => y = o) (x :: l)) =
  (count1 (bool_decide (x = o)) + length (filter (fun y => y = o) l))%nat.
Proof.
  rewrite filter_cons. destruct (decide (x = o)) as [Hx|Hx];
    [rewrite bool_decide_eq_true_2 by exact Hx
    |rewrite bool_decide_eq_false_2 by exact Hx]; reflexivity.
Qed.

Lemma for_each_Put (l : list Z) k :
  (forall o, o ∈ l -> exists T, Tasks k !! o = Some T /\
     Z.of_nat (length (filter (fun y => y = o) l)) < RefCounter T) ->
  exists k',
    for_each Task_Put l k = Ok tt k' /\
    (forall o T, Tasks k !! o = Some T ->
       Tasks k' !! o =
       Some (set_RefCounter
               (RefCounter T - Z.of_nat (length (filter (fun y => y = o) l))) T)) /\
    ObjectArray k' = ObjectArray k /\ TaskList k' = TaskList k /\ Log k' = Log k.
Proof.
  revert k. induction l as [|x l IH]; intros k Hinv.
  - exists k. split; [reflexivity|]. split; [|auto].
    intros o T HT. cbn. rewrite HT. f_equal. symmetry. apply set_RefCounter_same. lia.
  - destruct (Hinv x) as (Tx & HTx & Hcx); [apply list_elem_of_here|].
    rewrite filter_eq_cons, bool_decide_eq_true_2 in Hcx by reflexivity.
    cbn [count1] in Hcx.
    cbn [for_each].
    rewrite (bind_Ok _ _ _ _ _ (Task_Put_keep k x Tx HTx ltac:(lia))).
    set (k1 := set_Tasks _ k).
    destruct (IH k1) as (k' & Hrun & Htasks & Hoa & Htl & Hlog).
    { intros o Ho. destruct (decide (o = x)) as [->|Hne].
      - eexists. split; [cbn; apply lookup_insert_eq|]. cbn. lia.
      - destruct (Hinv o) as (T & HT & Hc); [now apply list_elem_of_further|].
        rewrite filter_eq_cons, bool_decide_eq_false_2 in Hc by congruence.
        exists T. split; [cbn; rewrite lookup_insert_ne; congruence|]. cbn in Hc. lia. }
    exists k'. split; [exact Hrun|]. split; [|auto].
    intros o T HT. rewrite filter_eq_cons.
    destruct (decide (o = x)) as [->|Hne].
    + rewrite bool_decide_eq_true_2 by reflexivity.
      assert (T = Tx) by congruence. subst T.
      rewrite (Htasks x (set_RefCounter (RefCounter Tx - 1) Tx))
        by (cbn; apply lookup_insert_eq).
      rewrite set_RefCounter_twice. cbn [RefCounter set_RefCounter count1].
      do 2 f_equal. lia.
    + rewrite bool_decide_eq_false_2 by congruence.
      rewrite (Htasks o T) by (cbn; rewrite lookup_insert_ne; congruence).
      reflexivity.
Qed.

(** ** The destructor of ObjectTable *)

Lemma slots_of_cons (o : Z) (s : option Z) (l : list (option Z)) :
  slots_of o (s :: l) = (count1 (bool_decide (s = Some o)) + slots_of o l)%nat.
Proof.
  unfold slots_of. rewrite filter_cons.
  destruct (decide (s = Some o)) as [Hs|Hs];
    [rewrite bool_decide_eq_true_2 by exact Hs
    |rewrite bool_decide_eq_false_2 by exact Hs]; reflexivity.
Qed.

Lemma ObjectTable_dtor_loop m : forall i k,
  (i + m = length (ObjectArray k))%nat ->
  (forall o, (0 < slots_of o (drop i (ObjectArray k)))%nat ->
     exists T, Tasks k !! o = Some T /\
       Z.of_nat (slots_of o (drop i (ObjectArray k))) < RefCounter T) ->
  exists k',
    for_each ObjectTable_dtor_step (seq i m) k = Ok tt k' /\
    ObjectArray k' = take i (ObjectArray k) ++ replicate m None /\
    (forall o T, Tasks k !! o = Some T ->
       Tasks k' !! o =
       Some (set_RefCounter
               (RefCounter T - Z.of_nat (slots_of o (drop i (ObjectArray k)))) T)) /\
    TaskList k' = TaskList k /\ Log k' = Log k.
Proof.
  induction m as [|m IH]; intros i k Hlen Hinv.
  - exists k. split; [reflexivity|]. cbn [replicate]. rewrite app_nil_r.
    rewrite take_ge, drop_ge by lia. split; [reflexivity|]. split; [|auto].
    intros o T HT. rewrite HT. f_equal. symmetry. apply set_RefCounter_same.
    unfold slots_of. cbn. lia.
  - destruct (lookup_lt_is_Some_2 (ObjectArray k) i) as [s Hs]; [lia|].
    pose proof (drop_S _ _ _ Hs) as Hdrop.
    cbn [seq for_each]. unfold ObjectTable_dtor_step at 1.
    rewrite bind_assoc, get_bind, bind_assoc, modify_bind, Hs.
    cbn [mjoin option_join].
    set (k1 := set_ObjectArray <[i := None]> k).
    assert (Hdrop1 : forall kk, ObjectArray kk = ObjectArray k1 ->
              drop (S i) (ObjectArray kk) = drop (S i) (ObjectArray k)).
    { intros kk ->. cbn. apply drop_insert_lt. lia. }
    assert (Htake1 : forall kk, ObjectArray kk = ObjectArray k1 ->
              take (S i) (ObjectArray kk) ++ replicate m None =
              take i (ObjectArray k) ++ replicate (S m) None).
    { intros kk ->. cbn.
      rewrite (take_S_r _ _ None) by (apply list_lookup_insert_eq; lia).
      rewrite take_insert_ge by lia. now rewrite <- app_assoc. }
    destruct s as [o|].
    + destruct (Hinv o) as (T & HT & Hc).
      { rewrite Hdrop, slots_of_cons, bool_decide_eq_true_2 by reflexivity. cbn. lia. }
      rewrite Hdrop, slots_of_cons, bool_decide_eq_true_2 in Hc by reflexivity.
      cbn [count1] in Hc.
      rewrite (bind_Ok _ _ _ _ _ (Task_Put_keep k1 o T HT ltac:(lia))).
      set (k2 := set_Tasks _ k1).
      destruct (IH (S i) k2) as (k' & Hrun & Harr & Htasks & Htl & Hlog).
      { cbn. rewrite length_insert. lia. }
      { intros o' Ho'. rewrite (Hdrop1 k2 eq_refl) in Ho' |- *.
        destruct (decide (o' = o)) as [->|Hne].
        - eexists. split; [cbn; apply lookup_insert_eq|]. cbn. lia.
        - destruct (Hinv o') as (T' & HT' & Hc').
          { rewrite Hdrop, slots_of_cons. lia. }
          rewrite Hdrop, slots_of_cons, bool_decide_eq_false_2 in Hc' by congruence.
          exists T'. split; [cbn; rewrite lookup_insert_ne; congruence|].
          cbn in Hc'. lia. }
      exists k'. split; [exact Hrun|].
      split; [rewrite Harr; apply (Htake1 k2 eq_refl)|]. split; [|auto].
      intros o' T' HT'. rewrite Hdrop, slots_of_cons.
      rewrite (Hdrop1 k2 eq_refl) in Htasks.
      destruct (decide (o' = o)) as [->|Hne].
      * rewrite bool_decide_eq_true_2 by reflexivity.
        assert (T' = T) by congruence. subst T'.
        rewrite (Htasks o (set_RefCounter (RefCounter T - 1) T))
          by (cbn; apply lookup_insert_eq).
        rewrite set_RefCounter_twice. cbn [RefCounter set_RefCounter count1].
        do 2 f_equal. lia.
      * rewrite bool_decide_eq_false_2 by congruence.
        rewrite (Htasks o' T') by (cbn; rewrite lookup_insert_ne; congruence).
        reflexivity.
    + rewrite (bind_Ok (ret tt) _ _ tt _ eq_refl).
      destruct (IH (S i) k1) as (k' & Hrun & Harr & Htasks & Htl & Hlog).
      { cbn. rewrite length_insert. lia. }
      { intros o' Ho'. rewrite (Hdrop1 k1 eq_refl) in Ho' |- *.
        destruct (Hinv o') as (T' & HT' & Hc').
        { rewrite Hdrop, slots_of_cons. lia. }
        rewrite Hdrop, slots_of_cons, bool_decide_eq_false_2 in Hc' by discriminate.
        exists T'. split; [exact HT'|]. cbn in Hc'. lia. }
      exists k'. split; [exact Hrun|].
      split; [rewrite Harr; apply (Htake1 k1 eq_refl)|]. split; [|auto].
      intros o' T' HT'. rewrite Hdrop, slots_of_cons.
      rewrite bool_decide_eq_false_2 by discriminate.
      rewrite (Hdrop1 k1 eq_refl) in Htasks.
      apply (Htasks o' T' HT').
Qed.

Lemma slots_of_pos_elem (o : Z) (slots : list (option Z)) :
  (0 < slots_of o slots)%nat -> Some o ∈ slots.
Proof.
  induction slots as [|s l IH]; [unfold slots_of; cbn; lia|].
  rewrite slots_of_cons. case_bool_decide as Hs.
  - subst s. intros _. apply list_elem_of_here.
  - cbn. intros H. apply list_elem_of_further. now apply IH.
Qed.

Lemma occurrences_cons_app (o : Z) (b : list Z) (rest : list (list Z)) :
  occurrences o (b :: rest) =
  (length (filter (fun y => y = o) b) + occurrences o rest)%nat.
Proof. unfold occurrences. cbn [concat]. now rewrite list.filter_app, List.length_app. Qed.

Lemma filter_eq_pos_elem (o : Z) (l : list Z) :
  o ∈ l -> (0 < length (filter (fun y => y = o) l))%nat.
Proof.
  intros Hin. assert (Hf : o ∈ filter (fun y => y = o) l)
    by (apply list_elem_of_filter; now split).
  destruct (filter _ l); [inversion Hf | cbn; lia].
Qed.

Section Destructors.
Context {KC : KernelConsts}.

(** X6: [~ObjectTable] gives back one reference for every slot that points
    at an object and leaves every slot null; when each object has a
    holder besides the table, nothing is released. *)
Theorem ObjectTable_dtor_balances k :
  refs_cover [] k ->
  exists k',
    ObjectTable_dtor k = Ok tt k' /\
    ObjectArray k' = replicate (length (ObjectArray k)) None /\
    (forall o T, Tasks k !! o = Some T ->
       Tasks k' !! o =
       Some (set_RefCounter
               (RefCounter T - Z.of_nat (slots_of o (ObjectArray k))) T)) /\
    TaskList k' = TaskList k /\ Log k' = Log k.
Proof.
  intros Hcover. unfold ObjectTable_dtor. rewrite get_bind.
  destruct (ObjectTable_dtor_loop (length (ObjectArray k)) 0 k) as (k' & Hrun & Hrest).
  - reflexivity.
  - rewrite drop_0. intros o Ho.
    destruct (Hcover o) as (T & HT & Hc); [left; now apply slots_of_pos_elem|].
    exists T. split; [exact HT|]. cbn in Hc. lia.
  - exists k'. split; [exact Hrun|]. rewrite drop_0 in Hrest. exact Hrest.
Qed.

Lemma TaskTable_dtor_loop m : forall i k,
  (i + m = length (TaskList k))%nat ->
  (forall o, (0 < occurrences o (drop i (TaskList k)))%nat ->
     exists T, Tasks k !! o = Some T /\
       Z.of_nat (occurrences o (drop i (TaskList k))) < RefCounter T) ->
  exists k',
    for_each TaskTable_dtor_bucket (seq i m) k = Ok tt k' /\
    TaskList k' = take i (TaskList k) ++ replicate m [] /\
    (forall o T, Tasks k !! o = Some T ->
       Tasks k' !! o =
       Some (set_RefCounter
               (RefCounter T - Z.of_nat (occurrences o (drop i (TaskList k)))) T)) /\
    ObjectArray k' = ObjectArray k /\ Log k' = Log k.
Proof.
  induction m as [|m IH]; intros i k Hlen Hinv.
  - exists k. split; [reflexivity|]. cbn [replicate]. rewrite app_nil_r.
    rewrite take_ge, drop_ge by lia. split; [reflexivity|]. split; [|auto].
    intros o T HT. rewrite HT. f_equal. symmetry. apply set_RefCounter_same.
    unfold occurrences. cbn. lia.
  - destruct (lookup_lt_is_Some_2 (TaskList k) i) as [b Hb]; [lia|].
    pose proof (drop_S _ _ _ Hb) as Hdrop.
    cbn [seq for_each]. unfold TaskTable_dtor_bucket at 1.
    rewrite bind_assoc, get_bind, bind_assoc, modify_bind, Hb. cbn [default].
    set (k1 := set_TaskList <[i := []]> k).
    destruct (for_each_Put b k1) as (k2 & Hputs & Htasks2 & Hoa2 & Htl2 & Hlog2).
    { intros o Ho. destruct (Hinv o) as (T & HT & Hc).
      { rewrite Hdrop, occurrences_cons_app.
        pose proof (filter_eq_pos_elem o b Ho). lia. }
      rewrite Hdrop, occurrences_cons_app in Hc.
      exists T. split; [exact HT|]. lia. }
    rewrite (bind_Ok _ _ _ _ _ Hputs).
    assert (Hdrop2 : drop (S i) (TaskList k2) = drop (S i) (TaskList k)).
    { rewrite Htl2. cbn. apply drop_insert_lt. lia. }
    destruct (IH (S i) k2) as (k' & Hrun & Hbuckets & Htasks & Hoa & Hlog).
    { rewrite Htl2. cbn. rewrite length_insert. lia. }
    { intros o Ho. rewrite Hdrop2 in Ho |- *.
      destruct (Hinv o) as (T & HT & Hc).
      { rewrite Hdrop, occurrences_cons_app. lia. }
      rewrite Hdrop, occurrences_cons_app in Hc.
      eexists. split; [apply (Htasks2 o T HT)|]. cbn. lia. }
    exists k'. split; [exact Hrun|].
    split; [|split; [|split; [rewrite Hoa, Hoa2|rewrite Hlog, Hlog2]; reflexivity]].
    + rewrite Hbuckets, Htl2. cbn.
      rewrite (take_S_r _ _ []) by (apply list_lookup_insert_eq; lia).
      rewrite take_insert_ge by lia. now rewrite <- app_assoc.
    + intros o T HT. rewrite Hdrop, occurrences_cons_app.
      rewrite (Htasks o _ (Htasks2 o T HT)), Hdrop2.
      rewrite set_RefCounter_twice. cbn [RefCounter set_RefCounter].
      do 2 f_equal. lia.
Qed.

(** X7: [~TaskTable], with the destructor of its ObjectTable member, gives
    back every reference the table holds: one for each bucket entry and
    one for each slot.  It leaves every bucket empty and every slot null;
    when each task has a holder besides the table, nothing is released. *)
Theorem TaskTable_dtor_balances k :
  refs_cover (concat (TaskList k)) k ->
  exists k',
    TaskTable_dtor k = Ok tt k' /\
    TaskList k' = replicate (length (TaskList k)) [] /\
    ObjectArray k' = replicate (length (ObjectArray k)) None /\
    (forall o T, Tasks k !! o = Some T ->
       Tasks k' !! o =
       Some (set_RefCounter
               (RefCounter T - Z.of_nat (occurrences o (TaskList k))
                             - Z.of_nat (slots_of o (ObjectArray k))) T)) /\
    Log k' = Log k.
Proof.
  intros Hcover. unfold TaskTable_dtor. rewrite get_bind.
  destruct (TaskTable_dtor_loop (length (TaskList k)) 0 k)
    as (k1 & Hrun1 & Htl1 & Htasks1 & Hoa1 & Hlog1).
  { reflexivity. }
  { rewrite drop_0. intros o Ho.
    destruct (Hcover o) as (T & HT & Hc).
    { right. unfold occurrences in Ho.
      destruct (filter _ _) as [|x l] eqn:Hf; [cbn in Ho; lia|].
      assert (Hx : x ∈ filter (fun y => y = o) (concat (TaskList k)))
        by (rewrite Hf; apply list_elem_of_here).
      apply list_elem_of_filter in Hx as [-> Hx]. exact Hx. }
    exists T. split; [exact HT|]. unfold occurrences. lia. }
  rewrite drop_0 in Htasks1. rewrite take_0 in Htl1. cbn [app] in Htl1.
  rewrite (bind_Ok _ _ _ _ _ Hrun1).
  destruct (ObjectTable_dtor_balances k1) as (k' & Hrun & Hoa & Htasks & Htl & Hlog).
  { intros o [Ho|Ho]; [|inversion Ho]. rewrite Hoa1 in Ho |- *.
    destruct (Hcover o) as (T & HT & Hc); [now left|].
    eexists. split; [apply (Htasks1 o T HT)|].
    cbn. unfold occurrences. lia. }
  exists k'. split; [exact Hrun|]. split; [congruence|].
  split; [congruence|]. split; [|congruence].
  intros o T HT. rewrite (Htasks o _ (Htasks1 o T HT)), Hoa1.
  rewrite set_RefCounter_twice. reflexivity.
Qed.

End Destructors.

(** ** Capacity of the ObjectTable *)

Lemma first_free_prefix (pre : list Z) (m : nat) :
  first_free (map Some pre ++ replicate (S m) None) = Some (length pre).
Proof.
  induction pre as [|x pre IH]; [reflexivity|].
  cbn [map app first_free length]. now rewrite IH.
Qed.

Lemma first_free_all_Some (l : list Z) : first_free (map Some l) = None.
Proof.
  induction l as [|x l IH]; [reflexivity|]. cbn [map first_free]. now rewrite IH.
Qed.

Section Capacity.
Context {KC : KernelConsts}.

Lemma insert_all_fills (objects : list Z) : forall (pre : list Z) (m : nat) k,
  ObjectArray k = map Some pre ++ replicate m None ->
  (length objects <= m)%nat ->
  (forall o, o ∈ objects -> exists T, Tasks k !! o = Some T /\ 0 < RefCounter T) ->
  exists k',
    insert_all objects k =
      Ok (map Z.of_nat (seq (length pre) (length objects))) k' /\
    ObjectArray k' =
      map Some (pre ++ objects) ++ replicate (m - length objects) None /\
    (forall o T, Tasks k !! o = Some T ->
       exists T', Tasks k' !! o = Some T' /\ RefCounter T <= RefCounter T').
Proof.
  induction objects as [|x objects IH]; intros pre m k Harr Hlen Hlive.
  - exists k. split; [reflexivity|]. rewrite app_nil_r, Nat.sub_0_r.
    split; [exact Harr|]. intros o T HT. exists T. split; [exact HT | lia].
  - destruct m as [|m]; [cbn in Hlen; lia|].
    destruct (Hlive x) as (T & HT & Hc); [apply list_elem_of_here|].
    assert (Hfree : first_free (ObjectArray k) = Some (length pre))
      by (rewrite Harr; apply first_free_prefix).
    cbn [insert_all].
    rewrite (bind_Ok _ _ _ _ _ (ObjectTable_Insert_Ok _ _ _ _ HT Hc Hfree)).
    set (k1 := set_ObjectArray _ _).
    destruct (IH (pre ++ [x]) m k1) as (k' & Hrun & Harr' & Hmono).
    { cbn. rewrite Harr. replace (length pre) with (length (map Some pre) + 0)%nat
        by (rewrite length_map; lia).
      rewrite insert_app_r. cbn. rewrite map_app, <- app_assoc. reflexivity. }
    { cbn in Hlen. lia. }
    { intros o Ho. destruct (decide (o = x)) as [->|Hne].
      - eexists. split; [cbn; apply lookup_insert_eq|]. cbn. lia.
      - destruct (Hlive o) as (T' & HT' & Hc'); [now apply list_elem_of_further|].
        exists T'. split; [cbn; rewrite lookup_insert_ne; congruence | exact Hc']. }
    rewrite (bind_Ok _ _ _ _ _ Hrun).
    exists k'. split; [|split].
    + unfold ret. f_equal. cbn [length seq map]. f_equal.
      rewrite length_app. cbn. f_equal. f_equal. lia.
    + rewrite Harr', <- app_assoc. reflexivity.
    + intros o T' HT'. destruct (decide (o = x)) as [->|Hne].
      * assert (T' = T) by congruence. subst T'.
        destruct (Hmono x (set_RefCounter (RefCounter T + 1) T))
          as (T2 & HT2 & Hle); [cbn; apply lookup_insert_eq|].
        exists T2. split; [exact HT2|]. cbn in Hle. lia.
      * apply Hmono. cbn. rewrite lookup_insert_ne; congruence.
Qed.

(** X8: A freshly constructed table takes exactly [MaxObjects] objects: the
    inserts return the ids 0, 1, ..., [MaxObjects] - 1 in this order and
    fill the slots in this order, and one more insert returns
    [InvalidObjectId] and changes nothing. *)
Theorem ObjectTable_capacity k objects extra :
  length objects = MaxObjects ->
  (forall o, o ∈ extra :: objects ->
     exists T, Tasks k !! o = Some T /\ 0 < RefCounter T) ->
  exists k',
    (ObjectTable_ctor ;;; insert_all objects) k =
      Ok (map Z.of_nat (seq 0 MaxObjects)) k' /\
    ObjectArray k' = map Some objects /\
    ObjectTable_Insert extra k' = Ok InvalidObjectId k'.
Proof.
  intros Hlen Hlive. unfold ObjectTable_ctor. rewrite modify_bind.
  destruct (insert_all_fills objects [] MaxObjects
              (set_ObjectArray (fun _ => replicate MaxObjects None) k))
    as (k' & Hrun & Harr & Hmono).
  - reflexivity.
  - lia.
  - intros o Ho. apply Hlive. now apply list_elem_of_further.
  - exists k'. rewrite Hlen in Hrun. split; [exact Hrun|].
    rewrite Hlen, Nat.sub_diag, app_nil_r in Harr. cbn [app] in Harr.
    split; [exact Harr|].
    destruct (Hlive extra) as (T & HT & Hc); [apply list_elem_of_here|].
    destruct (Hmono extra T HT) as (T' & HT' & Hle).
    apply ObjectTable_Insert_full with (T := T'); [exact HT' | lia|].
    rewrite Harr. apply first_free_all_Some.
Qed.

End Capacity.

Lemma ObjectTable_capacity_witness :
  exists k',
    (ObjectTable_ctor (KC := sample_consts) ;;;
     insert_all (KC := sample_consts) [4096; 4096]) sample_kernel = Ok [0; 1] k' /\
    ObjectTable_Insert (KC := sample_consts) 4096 k' = Ok (2 ^ 64 - 1) k'.
Proof.
  destruct (ObjectTable_capacity (KC := sample_consts) sample_kernel [4096; 4096] 4096)
    as (k' & Hrun & _ & Hfull).
  - reflexivity.
  - intros o Ho. exists (@Task_ctor sample_consts).
    repeat (apply elem_of_cons in Ho as [->|Ho]; [split; reflexivity|]).
    inversion Ho.
  - exists k'. split; assumption.
Defined.

(** ** TaskTable: misuse, round trip, pid reuse *)

Lemma filter_ne_id (task : Z) (l : list Z) :
  task ∉ l -> filter (fun x => x <> task) l = l.
Proof.
  induction l as [|y l IH]; [reflexivity|]. intros Hnot.
  apply not_elem_of_cons in Hnot as [Hne Hnot].
  rewrite filter_cons. destruct (decide (y <> task)) as [_|Hn]; [|destruct Hn; congruence].
  now rewrite IH.
Qed.

Lemma filter_ne_snoc (task : Z) (l : list Z) :
  task ∉ l -> filter (fun x => x <> task) (l ++ [task]) = l.
Proof.
  intros Hnot. rewrite list.filter_app, filter_ne_id by exact Hnot.
  rewrite (filter_cons (fun x => x <> task)).
  destruct (decide (task <> task)); [congruence|].
  apply app_nil_r.
Qed.

Lemma occurrences_0_not_elem (task : Z) (buckets : list (list Z)) :
  occurrences task buckets = 0%nat -> forall b, b ∈ buckets -> task ∉ b.
Proof.
  intros Hocc b Hb Hin. unfold occurrences in Hocc.
  assert (Hf : task ∈ filter (fun x => x = task) (concat buckets)).
  { apply list_elem_of_filter. split; [reflexivity|].
    apply list_elem_of_In, in_concat. exists b.
    split; now apply list_elem_of_In. }
  destruct (filter _ _); [inversion Hf | discriminate].
Qed.

Lemma RemoveInit_InsertTail (task : Z) i (buckets : list (list Z)) :
  occurrences task buckets = 0%nat ->
  RemoveInit task (InsertTail i task buckets) = buckets.
Proof.
  intros Hocc. pose proof (occurrences_0_not_elem _ _ Hocc) as Hnot.
  unfold RemoveInit, InsertTail. clear Hocc. revert i.
  induction buckets as [|b rest IH]; intros i; [reflexivity|].
  assert (Hb : task ∉ b) by (apply Hnot; apply list_elem_of_here).
  assert (Hrest : forall b', b' ∈ rest -> task ∉ b')
    by (intros b' Hb'; apply Hnot; now apply list_elem_of_further).
  destruct i as [|i]; cbn [alter list_alter map].
  - rewrite filter_ne_snoc by exact Hb. f_equal.
    clear IH. induction rest as [|c rest IHr]; [reflexivity|]. cbn [map].
    rewrite filter_ne_id by (apply Hrest; apply list_elem_of_here). f_equal.
    apply IHr.
    + intros b' Hb'. apply Hnot. apply elem_of_cons in Hb' as [->|Hb'];
        [apply list_elem_of_here | do 2 apply list_elem_of_further; exact Hb'].
    + intros b' Hb'. apply Hrest. now apply list_elem_of_further.
  - rewrite filter_ne_id by exact Hb. f_equal. now apply IH.
Qed.

Section TaskTableMore.
Context {KC : KernelConsts}.

(** X9: Registering a task that is already linked into a bucket is fatal:
    [Insert] runs into its [BugOn]. *)
Theorem TaskTable_Insert_twice_panics k task T i :
  Tasks k !! task = Some T -> 0 < RefCounter T ->
  first_free (ObjectArray k) = Some i -> Z.of_nat i <> InvalidObjectId ->
  occurrences task (TaskList k) <> 0%nat ->
  TaskTable_Insert task k = Crashed BugCheck.
Proof.
  intros HT Hc Hfree Hvalid Hlinked. unfold TaskTable_Insert.
  rewrite (bind_Ok _ _ _ _ _ (ObjectTable_Insert_Ok _ _ _ _ HT Hc Hfree)).
  replace (Z.of_nat i =? InvalidObjectId) with false
    by (symmetry; now apply Z.eqb_neq).
  erewrite bind_Ok by (apply update_Ok; cbn; apply lookup_insert_eq).
  erewrite bind_Ok.
  2:{ apply Task_Get_Ok with
        (T := set_Pid (Z.of_nat i) (set_RefCounter (RefCounter T + 1) T)).
      - cbn. apply lookup_insert_eq.
      - cbn. lia. }
  rewrite get_bind. unfold TableListEntry_IsEmpty.
  cbn [TaskList set_Tasks set_ObjectArray].
  rewrite bool_decide_eq_false_2 by exact Hlinked. reflexivity.
Qed.

(** X10: Unregistering a task that is in no bucket is fatal: when its pid
    names no object, the call [ObjectTable.Remove(task->Pid)] that
    [Remove] makes first returns with the state as it was, so nothing is
    removed from the ObjectTable, and [Remove] then runs into its
    [BugOn]. *)
Theorem TaskTable_Remove_unregistered_panics k task T :
  Tasks k !! task = Some T -> 0 <= Pid T ->
  mjoin (ObjectArray k !! Z.to_nat (Pid T)) = None ->
  in_no_bucket task k ->
  ObjectTable_Remove (Pid T) k = Ok tt k /\
  TaskTable_Remove task k = Crashed BugCheck.
Proof.
  intros HT Hpid Hslot Hempty.
  assert (Hrem : ObjectTable_Remove (Pid T) k = Ok tt k);
    [|split; [exact Hrem|]; unfold TaskTable_Remove;
      rewrite (bind_Ok _ _ _ _ _ (load_Ok _ _ _ HT))].
  { unfold ObjectTable_Remove. rewrite get_bind.
    destruct (Z.of_nat (length (ObjectArray k)) <=? Pid T) eqn:Hrange; [reflexivity|].
    rewrite Hslot, modify_bind. unfold ret. f_equal.
    apply Z.leb_gt in Hrange.
    destruct (lookup_lt_is_Some_2 (ObjectArray k) (Z.to_nat (Pid T))) as [s Hs]; [lia|].
    rewrite Hs in Hslot. cbn in Hslot. subst s.
    destruct k. unfold set_ObjectArray. cbn in *. f_equal. now apply list_insert_id. }
  rewrite (bind_Ok _ _ _ _ _ Hrem), get_bind.
  unfold TableListEntry_IsEmpty. rewrite bool_decide_eq_true_2 by exact Hempty.
  reflexivity.
Qed.

(** X11: Registering an unregistered task and unregistering it again puts
    the state back as it was, except for the task's pid, which keeps the
    index of the slot the task had. *)
Theorem TaskTable_Insert_Remove_roundtrip k task T i :
  Tasks k !! task = Some T -> 0 < RefCounter T ->
  first_free (ObjectArray k) = Some i -> Z.of_nat i <> InvalidObjectId ->
  TaskList k <> [] -> in_no_bucket task k ->
  (TaskTable_Insert task ;;; TaskTable_Remove task) k =
  Ok tt (set_Tasks <[task := set_Pid (Z.of_nat i) T]> k).
Proof.
  intros HT Hc Hfree Hvalid Hbuckets Hempty.
  rewrite (bind_Ok _ _ _ _ _ (TaskTable_Insert_Ok k task T i HT Hc Hfree Hvalid Hempty)).
  destruct (first_free_Some _ _ Hfree) as [Hi _].
  apply lookup_lt_Some in Hi as Hlt.
  erewrite TaskTable_Remove_Ok with (i := i).
  2:{ cbn. apply lookup_insert_eq. }
  2:{ cbn. lia. }
  2:{ reflexivity. }
  2:{ cbn. now apply list_lookup_insert_eq. }
  2:{ cbn [TaskList set_TaskList set_ObjectArray set_Tasks].
      rewrite occurrences_InsertTail by now apply bucket_of_lt.
      rewrite bool_decide_eq_true_2 by reflexivity. cbn. lia. }
  f_equal. apply Kernel_eq; cbn; try reflexivity.
  - rewrite insert_insert_eq. f_equal.
    destruct T; unfold set_RefCounter, set_Pid; cbn. f_equal. lia.
  - rewrite list_insert_insert_eq. now apply list_insert_id.
  - now apply RemoveInit_InsertTail.
Qed.

(** X12: A pid is handed out again: when a task is registered and
    unregistered and another task is registered next, the second task
    gets the pid the first one still carries, and a lookup of that pid
    returns the second task. *)
Theorem TaskTable_pid_reuse k t1 t2 T1 T2 i :
  t1 <> t2 ->
  Tasks k !! t1 = Some T1 -> 0 < RefCounter T1 ->
  Tasks k !! t2 = Some T2 -> 0 < RefCounter T2 ->
  first_free (ObjectArray k) = Some i -> Z.of_nat i <> InvalidObjectId ->
  TaskList k <> [] -> in_no_bucket t1 k -> in_no_bucket t2 k ->
  exists k3 T1' T2',
    (TaskTable_Insert t1 ;;; TaskTable_Remove t1 ;;; TaskTable_Insert t2) k =
      Ok true k3 /\
    Tasks k3 !! t1 = Some T1' /\ Tasks k3 !! t2 = Some T2' /\
    Pid T1' = Z.of_nat i /\ Pid T2' = Z.of_nat i /\
    in_no_bucket t1 k3 /\
    exists k4, TaskTable_Lookup (Pid T1') k3 = Ok (Some t2) k4.
Proof.
  intros Hne HT1 Hc1 HT2 Hc2 Hfree Hvalid Hbuckets He1 He2.
  destruct (first_free_Some _ _ Hfree) as [Hi _].
  apply lookup_lt_Some in Hi as Hlt.
  rewrite (bind_Ok _ _ _ _ _ (TaskTable_Insert_Ok k t1 T1 i HT1 Hc1 Hfree Hvalid He1)).
  set (k1 := set_TaskList _ _).
  assert (Hocc1 : occurrences t1 (TaskList k1) = 1%nat).
  { cbn [TaskList k1 set_TaskList set_ObjectArray set_Tasks].
    rewrite occurrences_InsertTail by now apply bucket_of_lt.
    rewrite He1, bool_decide_eq_true_2 by reflexivity. reflexivity. }
  erewrite bind_Ok.
  2:{ apply TaskTable_Remove_Ok with (i := i).
      - cbn. apply lookup_insert_eq.
      - cbn. lia.
      - reflexivity.
      - cbn. now apply list_lookup_insert_eq.
      - rewrite Hocc1. discriminate. }
  set (k2 := set_TaskList _ _).
  assert (Harr2 : ObjectArray k2 = ObjectArray k).
  { cbn. rewrite list_insert_insert_eq. now apply list_insert_id. }
  assert (HT2' : Tasks k2 !! t2 = Some T2).
  { cbn. rewrite !lookup_insert_ne by congruence. exact HT2. }
  assert (Hocc2 : occurrences t2 (TaskList k2) = 0%nat).
  { cbn [TaskList k2 k1 set_TaskList set_ObjectArray set_Tasks].
    rewrite occurrences_RemoveInit_ne by congruence.
    rewrite occurrences_InsertTail by now apply bucket_of_lt.
    rewrite He2, bool_decide_eq_false_2 by congruence. reflexivity. }
  assert (Hfree2 : first_free (ObjectArray k2) = Some i) by (now rewrite Harr2).
  rewrite (TaskTable_Insert_Ok k2 t2 T2 i HT2' Hc2 Hfree2 Hvalid Hocc2).
  eexists _, _, _. split; [reflexivity|].
  split; [cbn; rewrite lookup_insert_ne by congruence; apply lookup_insert_eq|].
  split; [cbn; apply lookup_insert_eq|].
  split; [reflexivity|]. split; [reflexivity|]. split.
  { unfold in_no_bucket. cbn [TaskList set_TaskList set_ObjectArray set_Tasks].
    rewrite occurrences_InsertTail.
    - subst k2. cbn [TaskList set_TaskList set_ObjectArray set_Tasks].
      rewrite occurrences_RemoveInit_eq, bool_decide_eq_false_2 by congruence.
      reflexivity.
    - apply bucket_of_lt. subst k2 k1. cbn. unfold RemoveInit, InsertTail.
      destruct (TaskList k); [congruence | destruct (bucket_of t1 k); discriminate]. }
  eexists. unfold TaskTable_Lookup. cbn [Pid set_RefCounter set_Pid].
  apply ObjectTable_Lookup_Ok with
    (T := set_RefCounter (RefCounter T2 + 2) (set_Pid (Z.of_nat i) T2)).
  - cbn. rewrite list_lookup_insert_eq; [reflexivity|].
    rewrite !length_insert. exact Hlt.
  - cbn. apply lookup_insert_eq.
  - cbn. lia.
Qed.

(** X13: Two tasks registered one after the other get different pids, each
    pid looks up its own task, and each task is in exactly one bucket. *)
Theorem TaskTable_distinct_pids k t1 t2 T1 T2 :
  t1 <> t2 ->
  Tasks k !! t1 = Some T1 -> 0 < RefCounter T1 ->
  Tasks k !! t2 = Some T2 -> 0 < RefCounter T2 ->
  (exists a b, a <> b /\ ObjectArray k !! a = Some None /\
               ObjectArray k !! b = Some None) ->
  Z.of_nat (length (ObjectArray k)) <= InvalidObjectId ->
  TaskList k <> [] -> in_no_bucket t1 k -> in_no_bucket t2 k ->
  exists k2 T1' T2',
    (TaskTable_Insert t1 ;;; TaskTable_Insert t2) k = Ok true k2 /\
    Tasks k2 !! t1 = Some T1' /\ Tasks k2 !! t2 = Some T2' /\
    Pid T1' <> Pid T2' /\
    (exists k3, TaskTable_Lookup (Pid T1') k2 = Ok (Some t1) k3) /\
    (exists k3, TaskTable_Lookup (Pid T2') k2 = Ok (Some t2) k3) /\
    in_one_bucket t1 k2 /\ in_one_bucket t2 k2.
Proof.
  intros Hne HT1 Hc1 HT2 Hc2 (a & b & Hab & Ha & Hb) Hinv Hbuckets He1 He2.
  destruct (first_free_is_Some _ _ Ha) as [i Hfree].
  destruct (first_free_Some _ _ Hfree) as [Hi _].
  apply lookup_lt_Some in Hi as Hlt.
  assert (Hvalid : Z.of_nat i <> InvalidObjectId) by lia.
  rewrite (bind_Ok _ _ _ _ _ (TaskTable_Insert_Ok k t1 T1 i HT1 Hc1 Hfree Hvalid He1)).
  set (k1 := set_TaskList _ _).
  assert (Hlen1 : length (ObjectArray k1) = length (ObjectArray k))
    by (cbn; apply length_insert).
  assert (Hspare : exists c, ObjectArray k1 !! c = Some None).
  { destruct (decide (a = i)) as [->|Hai].
    - exists b. cbn. rewrite list_lookup_insert_ne by congruence. exact Hb.
    - exists a. cbn. rewrite list_lookup_insert_ne by congruence. exact Ha. }
  destruct Hspare as [c Hc].
  destruct (first_free_is_Some _ _ Hc) as [j Hfree1].
  destruct (first_free_Some _ _ Hfree1) as [Hj _].
  apply lookup_lt_Some in Hj as Hltj.
  assert (Hij : i <> j).
  { intros ->. cbn in Hj. rewrite list_lookup_insert_eq in Hj by exact Hlt.
    discriminate. }
  assert (Hvalid1 : Z.of_nat j <> InvalidObjectId) by lia.
  assert (HT2' : Tasks k1 !! t2 = Some T2)
    by (cbn; rewrite lookup_insert_ne by congruence; exact HT2).
  assert (Hb1 : TaskList k1 <> []).
  { cbn. unfold InsertTail.
    destruct (TaskList k); [congruence | destruct (bucket_of t1 k); discriminate]. }
  assert (Hocc2 : occurrences t2 (TaskList k1) = 0%nat).
  { cbn [TaskList k1 set_TaskList set_ObjectArray set_Tasks].
    rewrite occurrences_InsertTail by now apply bucket_of_lt.
    rewrite He2, bool_decide_eq_false_2 by congruence. reflexivity. }
  rewrite (TaskTable_Insert_Ok k1 t2 T2 j HT2' Hc2 Hfree1 Hvalid1 Hocc2).
  eexists _, _, _. split; [reflexivity|].
  split; [cbn; rewrite lookup_insert_ne by congruence; apply lookup_insert_eq|].
  split; [cbn; apply lookup_insert_eq|].
  split; [cbn; lia|].
  split; [|split; [|split]].
  - eexists. unfold TaskTable_Lookup. cbn [Pid set_RefCounter set_Pid].
    apply ObjectTable_Lookup_Ok with
      (T := set_RefCounter (RefCounter T1 + 2) (set_Pid (Z.of_nat i) T1)).
    + cbn. rewrite list_lookup_insert_ne by congruence.
      now apply list_lookup_insert_eq.
    + cbn. rewrite lookup_insert_ne by congruence. apply lookup_insert_eq.
    + cbn. lia.
  - eexists. unfold TaskTable_Lookup. cbn [Pid set_RefCounter set_Pid].
    apply ObjectTable_Lookup_Ok with
      (T := set_RefCounter (RefCounter T2 + 2) (set_Pid (Z.of_nat j) T2)).
    + cbn. apply list_lookup_insert_eq. rewrite length_insert. lia.
    + cbn. apply lookup_insert_eq.
    + cbn. lia.
  - unfold in_one_bucket. cbn [TaskList set_TaskList set_ObjectArray set_Tasks].
    rewrite occurrences_InsertTail by now apply bucket_of_lt.
    subst k1. cbn [TaskList set_TaskList set_ObjectArray set_Tasks].
    rewrite occurrences_InsertTail by now apply bucket_of_lt.
    rewrite He1, bool_decide_eq_true_2, bool_decide_eq_false_2 by congruence.
    reflexivity.
  - unfold in_one_bucket. cbn [TaskList set_TaskList set_ObjectArray set_Tasks].
    rewrite occurrences_InsertTail by now apply bucket_of_lt.
    rewrite Hocc2, bool_decide_eq_true_2 by reflexivity. reflexivity.
Qed.

End TaskTableMore.

(** ** Start, forwards *)

Section StartForward.
Context {KC : KernelConsts}.

Lemma Stack_new_Ok this k stack rest :
  StackPool k = stack :: rest ->
  Stack_new this k =
  Ok (Some stack)
     (set_Mem (fun m =>
        <[stack + OffMagic2 := StackMagic2]>
          (<[stack + OffTask := this]>
             (<[stack + OffMagic1 := StackMagic1]> m)))
        (set_LiveStacks (fun s => {[stack]} ∪ s)
           (set_StackPool (fun _ => rest) k))).
Proof. intros Hpool. unfold Stack_new. rewrite get_bind, Hpool. reflexivity. Qed.

Lemma PrepareStart_Ok this func ctx k T stack rest i :
  Tasks k !! this = Some T -> 0 < RefCounter T ->
  Stack T = None -> Function T = None ->
  StackPool k = stack :: rest ->
  first_free (ObjectArray k) = Some i -> Z.of_nat i <> InvalidObjectId ->
  in_no_bucket this k ->
  Task_PrepareStart this func ctx k =
  Ok true (prepared this func ctx stack rest i T k).
Proof.
  intros HT Hc Hs Hf Hpool Hfree Hvalid Hempty. unfold Task_PrepareStart.
  rewrite (bind_Ok _ _ _ _ _ (load_Ok _ _ _ HT)). rewrite Hs, Hf.
  erewrite bind_Ok by reflexivity.
  erewrite bind_Ok by reflexivity.
  rewrite (bind_Ok _ _ _ _ _ (Stack_new_Ok this k stack rest Hpool)).
  erewrite bind_Ok by (apply update_Ok; cbn; exact HT).
  erewrite bind_Ok.
  2:{ apply TaskTable_Insert_Ok with (T := set_Stack (Some stack) T) (i := i).
      - cbn. apply lookup_insert_eq.
      - cbn. exact Hc.
      - cbn. exact Hfree.
      - exact Hvalid.
      - cbn. exact Hempty. }
  cbn [negb].
  erewrite bind_Ok by (apply update_Ok; cbn; apply lookup_insert_eq).
  unfold ret. f_equal. unfold prepared, prepared_task. apply Kernel_eq; cbn; try reflexivity.
  rewrite !insert_insert_eq. reflexivity.
Qed.

Lemma TaskQueue_Insert_Ok queue task k T :
  Tasks k !! task = Some T -> 0 < RefCounter T ->
  exists k',
    TaskQueue_Insert queue task k = Ok tt k' /\
    Tasks k' = <[task := set_TaskQueue (Some queue)
                           (set_RefCounter (RefCounter T + 1) T)]> (Tasks k) /\
    Mem k' = Mem k /\ ObjectArray k' = ObjectArray k /\ TaskList k' = TaskList k /\
    QueueList (Queues k' queue) = QueueList (Queues k queue) ++ [task].
Proof.
  intros HT Hc. unfold TaskQueue_Insert.
  rewrite (bind_Ok _ _ _ _ _ (Task_Get_Ok _ _ _ HT Hc)).
  erewrite bind_Ok by (apply update_Ok; cbn; apply lookup_insert_eq).
  eexists. split; [reflexivity|]. cbn.
  rewrite insert_insert_eq, bool_decide_eq_true_2 by reflexivity. repeat split.
Qed.

(** The result of the placement loop, as a lemma of its own. *)
Lemma select_result k this T :
  Tasks k !! this = Some T ->
  exists r,
    Task_SelectNextTaskQueue this k = Ok r k /\
    match r with
    | Some i => least_loaded k T i
    | None => forall j, ~ candidate k T j
    end.
Proof.
  intros HT. unfold Task_SelectNextTaskQueue.
  rewrite (bind_Ok _ _ _ _ _ (load_Ok _ _ _ HT)), get_bind.
  set (mask := Z.land (RunningCpus k) (CpuAffinity T)).
  destruct (mask =? 0) eqn:Hz; cbn [negb].
  - exists None. split; [reflexivity|]. intros j (_ & Hbit & _).
    apply Z.eqb_eq in Hz. fold mask in Hbit. rewrite Hz, Z.bits_0 in Hbit. discriminate.
  - eexists. split; [reflexivity|].
    pose proof (select_loop_scanned k T 64) as Hinv. fold mask in Hinv |- *.
    destruct (fold_left _ _ _) as [i|]; cbn in Hinv.
    + destruct Hinv as (Hi & [Hbit Hown] & Hmin).
      split; [repeat split; assumption|].
      intros j (Hj & Hjb & Hjo). apply Hmin; [exact Hj | now split].
    + intros j (Hj & Hjb & Hjo). apply (Hinv j Hj). now split.
Qed.

Lemma least_loaded_framed this stack T1 k1 k T q :
  RunningCpus k1 = RunningCpus k -> Queues k1 = Queues k ->
  CpuAffinity T1 = CpuAffinity T -> TaskQueue T1 = TaskQueue T ->
  least_loaded (framed this stack T1 k1)
    (set_State StateWaiting
       (set_StartTime (BootTime k1) (set_Rsp (stack + OffStackTop - 8 - SizeofContext) T1)))
    q ->
  least_loaded k T q.
Proof.
  intros Hr Hq Ha Ht. unfold least_loaded, candidate, framed. cbn.
  rewrite Hr, Hq, Ha, Ht. exact id.
Qed.

Lemma candidate_framed this stack T1 k1 k T c :
  RunningCpus k1 = RunningCpus k ->
  CpuAffinity T1 = CpuAffinity T -> TaskQueue T1 = TaskQueue T ->
  candidate k T c ->
  candidate (framed this stack T1 k1)
    (set_State StateWaiting
       (set_StartTime (BootTime k1) (set_Rsp (stack + OffStackTop - 8 - SizeofContext) T1)))
    c.
Proof.
  intros Hr Ha Ht. unfold candidate, framed. cbn.
  rewrite Hr, Ha, Ht. exact id.
Qed.

(** [Start] on a startable task: the state handed to the queue and the
    queue chosen. *)
Lemma Start_forward this func ctx k T stack rest i :
  startable this stack rest i T k ->
  exists q k',
    let T1 := prepared_task func ctx stack i T in
    let k1 := prepared this func ctx stack rest i T k in
    Task_Start this func ctx k = Ok true k' /\
    least_loaded k T q /\
    TaskQueue_Insert q this (framed this stack T1 k1) = Ok tt k'.
Proof.
  intros (HT & Hc & Hs & Hf & Hpool & Hfree & Hvalid & Hbuckets & Hempty & c & Hcand).
  pose proof (PrepareStart_Ok this func ctx k T stack rest i
                HT Hc Hs Hf Hpool Hfree Hvalid Hempty) as Hprep.
  set (T1 := prepared_task func ctx stack i T).
  set (k1 := prepared this func ctx stack rest i T k) in *.
  assert (HT1 : Tasks k1 !! this = Some T1) by (cbn; apply lookup_insert_eq).
  rewrite (Task_Start_after_prepare _ _ _ _ _ _ stack Hprep HT1 eq_refl).
  set (Tm := set_State StateWaiting
               (set_StartTime (BootTime k1)
                  (set_Rsp (stack + OffStackTop - 8 - SizeofContext) T1))).
  assert (HTm : Tasks (framed this stack T1 k1) !! this = Some Tm)
    by (unfold framed; cbn; apply lookup_insert_eq).
  destruct (select_result _ this Tm HTm) as (r & Hsel & Hr).
  rewrite (bind_Ok _ _ _ _ _ Hsel).
  destruct r as [q|].
  2:{ exfalso. apply (Hr c).
      apply (candidate_framed this stack T1 k1 k T c); try reflexivity. exact Hcand. }
  destruct (TaskQueue_Insert_Ok q this (framed this stack T1 k1) Tm HTm)
    as (k' & Hins & _); [cbn; lia|].
  exists q, k'. cbv zeta. split; [now rewrite (bind_Ok _ _ _ _ _ Hins)|].
  split; [|exact Hins].
  apply (least_loaded_framed this stack T1 k1 k T q); try reflexivity. exact Hr.
Qed.

(** X14: [Start] goes through on a startable task: it returns true; the
    task is registered under the pid of the lowest free slot, owns the
    stack, has the callback and its context installed and is in state
    [StateWaiting]; it was handed to the queue of the least loaded CPU
    that is running and allowed by its affinity mask. *)
Theorem Task_Start_succeeds this func ctx k T stack rest i :
  startable this stack rest i T k ->
  exists q k' T',
    Task_Start this func ctx k = Ok true k' /\
    least_loaded k T q /\
    Tasks k' !! this = Some T' /\
    Pid T' = Z.of_nat i /\ Stack T' = Some stack /\
    Function T' = Some func /\ Ctx T' = ctx /\
    State T' = StateWaiting /\ TaskQueue T' = Some q /\
    ObjectArray k' !! i = Some (Some this) /\
    in_one_bucket this k' /\
    QueueList (Queues k' q) = QueueList (Queues k q) ++ [this].
Proof.
  intros Hstart.
  destruct (Start_forward this func ctx k T stack rest i Hstart)
    as (q & k' & Hrun & Hleast & Hins).
  destruct Hstart as (HT & Hc & _ & _ & _ & Hfree & _ & Hbuckets & Hempty & _).
  destruct (first_free_Some _ _ Hfree) as [Hi _].
  apply lookup_lt_Some in Hi as Hlt.
  edestruct (TaskQueue_Insert_Ok q this) as (k2 & Hins2 & Htasks & _ & Hoa & Htl & Hq);
    [| | rewrite Hins2 in Hins; injection Hins as <-].
  { unfold framed. cbn. apply lookup_insert_eq. }
  { cbn. lia. }
  exists q, k2. eexists. split; [exact Hrun|]. split; [exact Hleast|].
  split; [rewrite Htasks; apply lookup_insert_eq|].
  cbn. repeat split.
  - rewrite Hoa. cbn. now apply list_lookup_insert_eq.
  - unfold in_one_bucket. rewrite Htl. cbn.
    rewrite occurrences_InsertTail by now apply bucket_of_lt.
    rewrite Hempty, bool_decide_eq_true_2 by reflexivity. reflexivity.
  - exact Hq.
Qed.

Lemma Start_true_inv this func ctx k k' :
  Task_Start this func ctx k = Ok true k' ->
  exists T' stack, Tasks k' !! this = Some T' /\ Stack T' = Some stack.
Proof.
  intros Hstart. pose proof Hstart as Hrun. unfold Task_Start in Hrun.
  apply bind_inv in Hrun as ([|] & k1 & Hprep & Hrun); [|discriminate].
  cbn [negb] in Hrun.
  apply bind_inv in Hrun as (T1 & k1' & Hload & Hrun).
  apply load_inv in Hload as [-> HT1].
  destruct (Stack T1) as [stack|] eqn:Hs; [|discriminate].
  clear Hrun.
  rewrite (Task_Start_after_prepare _ _ _ _ _ _ _ Hprep HT1 Hs) in Hstart.
  apply bind_inv in Hstart as (taskQueue & ks & Hsel & Hstart).
  apply SelectNextTaskQueue_inv in Hsel as ->.
  destruct taskQueue as [queue|]; [|discriminate].
  apply bind_inv in Hstart as ([] & kf & Hins & Hret). injection Hret as <-.
  destruct (TaskQueue_Insert_inv _ _ _ _ Hins) as (Tmid & HTmid & HT' & _).
  unfold framed in HTmid. cbn in HTmid. rewrite lookup_insert_eq in HTmid.
  injection HTmid as <-.
  eexists _, stack. split; [exact HT'|]. exact Hs.
Qed.

(** X15: A task can be started once: after a [Start] that returned true,
    another [Start] on the same task runs into the [BugOn] of
    [PrepareStart]. *)
Theorem Task_Start_twice_panics this func ctx k k' func' ctx' :
  Task_Start this func ctx k = Ok true k' ->
  Task_Start this func' ctx' k' = Crashed BugCheck.
Proof.
  intros Hstart. destruct (Start_true_inv _ _ _ _ _ Hstart) as (T' & stack & HT' & Hs).
  unfold Task_Start. erewrite bind_Crashed; [reflexivity|].
  unfold Task_PrepareStart.
  rewrite (bind_Ok _ _ _ _ _ (load_Ok _ _ _ HT')). now rewrite Hs.
Qed.

(** X16: [SetCpuAffinity] takes effect at the next placement: a [Start] that
    follows it puts the task on a CPU that is running and whose bit is
    set in the mask; with a mask of one bit, on that CPU. *)
Theorem Task_Start_honours_affinity this func ctx k T mask stack rest i :
  Tasks k !! this = Some T ->
  startable this stack rest i (set_CpuAffinity mask T)
    (set_Tasks <[this := set_CpuAffinity mask T]> k) ->
  exists q k' T',
    (Task_SetCpuAffinity this mask ;;; Task_Start this func ctx) k = Ok true k' /\
    Tasks k' !! this = Some T' /\ TaskQueue T' = Some q /\
    Z.testbit mask (Z.of_nat q) = true /\
    Z.testbit (RunningCpus k) (Z.of_nat q) = true /\
    (forall c, 0 <= c -> mask = Z.shiftl 1 c -> Z.of_nat q = c).
Proof.
  intros HT Hstart. unfold Task_SetCpuAffinity.
  rewrite (bind_Ok _ _ _ _ _ (update_Ok _ _ _ _ HT)).
  destruct (Start_forward this func ctx _ _ stack rest i Hstart)
    as (q & k' & Hrun & Hleast & Hins).
  edestruct (TaskQueue_Insert_Ok q this) as (k2 & Hins2 & Htasks & _);
    [| | rewrite Hins2 in Hins; injection Hins as <-].
  { unfold framed. cbn. apply lookup_insert_eq. }
  { destruct Hstart as (_ & Hc & _). cbn in *. lia. }
  destruct Hleast as [(Hq & Hbit & _) _]. cbn in Hbit.
  rewrite Z.land_spec in Hbit. apply andb_true_iff in Hbit as [Hrun_bit Hmask_bit].
  exists q, k2. eexists. split; [exact Hrun|].
  split; [rewrite Htasks; apply lookup_insert_eq|].
  split; [reflexivity|]. split; [exact Hmask_bit|]. split; [exact Hrun_bit|].
  intros c Hc ->. rewrite Z.shiftl_spec in Hmask_bit by lia.
  destruct (Z.eq_dec (Z.of_nat q) c) as [|Hne]; [assumption|]. exfalso.
  destruct (Z_lt_le_dec (Z.of_nat q) c).
  - rewrite Z.testbit_neg_r in Hmask_bit by lia. discriminate.
  - rewrite (Z.bits_above_log2 1) in Hmask_bit by (cbn; lia). discriminate.
Qed.

Lemma framed_header this func ctx stack rest i T k off v :
  context_layout_ok -> 0 <= SizeofContext ->
  (off + 8 <= OffStackTop - 8 - SizeofContext \/ OffStackTop <= off) ->
  Mem (prepared this func ctx stack rest i T k) (stack + off) = v ->
  Mem (framed this stack (prepared_task func ctx stack i T)
         (prepared this func ctx stack rest i T k)) (stack + off) = v.
Proof.
  intros (Hd0 & Hd1 & Hf0 & Hf1 & _) Hsz Hoff Hv.
  unfold framed. cbn [Mem set_Tasks set_Mem].
  rewrite !fn_lookup_insert_ne by lia.
  unfold MemSet0.
  destruct (Z.leb_spec (stack + OffStackTop - 8 - SizeofContext) (stack + off));
    destruct (Z.ltb_spec (stack + off)
                (stack + OffStackTop - 8 - SizeofContext + SizeofContext));
    cbn [andb]; try lia;
    rewrite fn_lookup_insert_ne by lia; exact Hv.
Qed.

(** X17: The stack pointer that [Start] saves in the task identifies the
    task: in the state [Start] leaves, [GetCurrentTask] at that stack
    pointer returns the task, so the check at the head of the trampoline
    passes on the first switch to the task. *)
Theorem Task_Start_rsp_identifies_task this func ctx k T stack rest i n :
  startable this stack rest i T k ->
  context_layout_ok -> stack_layout_ok ->
  StackSize = 2 ^ n -> 0 <= n < 64 ->
  0 <= stack -> stack mod StackSize = 0 -> stack + StackSize <= 2 ^ 64 ->
  Magic T = TaskMagic ->
  exists k' T',
    Task_Start this func ctx k = Ok true k' /\
    Tasks k' !! this = Some T' /\
    Task_GetCurrentTask (Rsp T') k' = Ok this k'.
Proof.
  intros Hstart Hctx Hlay Hsize Hn Hs0 Hal Htop Hmagic.
  destruct (Start_forward this func ctx k T stack rest i Hstart)
    as (q & k' & Hrun & _ & Hins).
  edestruct (TaskQueue_Insert_Ok q this) as (k2 & Hins2 & Htasks & Hmem & _);
    [| | rewrite Hins2 in Hins; injection Hins as <-].
  { unfold framed. cbn. apply lookup_insert_eq. }
  { destruct Hstart as (_ & Hc & _). cbn. lia. }
  exists k2. eexists. split; [exact Hrun|].
  split; [rewrite Htasks; apply lookup_insert_eq|].
  cbn [Rsp set_TaskQueue set_RefCounter set_State set_StartTime set_Rsp].
  destruct Hlay as (Hsz & H12 & H13 & H23 & Hm1 & Hmt & Hm2 & Hg0 & Hguard & Hin).
  set (regs := stack + OffStackTop - 8 - SizeofContext).
  assert (Hmask : Z.land regs (to_ulong (Z.lnot (StackSize - 1))) = stack).
  { rewrite Hsize in *. apply mask_stack; subst regs; lia. }
  assert (Hhdr : forall off v,
            (off + 8 <= OffStackTop - 8 - SizeofContext \/ OffStackTop <= off) ->
            Mem (prepared this func ctx stack rest i T k) (stack + off) = v ->
            Mem k2 (stack + off) = v).
  { intros off v Hoff Hv. rewrite Hmem. now apply framed_header. }
  assert (H1 : Mem k2 (stack + OffMagic1) = StackMagic1).
  { apply Hhdr; [exact Hm1|]. unfold prepared. cbn.
    rewrite !fn_lookup_insert_ne by lia. apply fn_lookup_insert. }
  assert (H2 : Mem k2 (stack + OffMagic2) = StackMagic2).
  { apply Hhdr; [exact Hm2|]. unfold prepared. cbn. apply fn_lookup_insert. }
  assert (Ht : Mem k2 (stack + OffTask) = this).
  { apply Hhdr; [exact Hmt|]. unfold prepared. cbn.
    rewrite fn_lookup_insert_ne by lia. apply fn_lookup_insert. }
  assert (Hintact : header_intact k2 stack).
  { split; [exact H1|]. split; [exact H2|]. rewrite Ht.
    eexists. split; [rewrite Htasks; apply lookup_insert_eq|]. cbn. exact Hmagic. }
  assert (Hrange : rsp_in_range stack regs)
    by (unfold rsp_in_range; subst regs; lia).
  pose proof (GetCurrentTask_Ok regs k2 stack Hmask Hintact Hrange) as Hcur.
  rewrite Ht in Hcur. exact Hcur.
Qed.

End StartForward.

(** ** Get and Put, Exit, the stopping flag *)

(** X18: [Get] followed by [Put] leaves the state as it was; so does [Put]
    followed by [Get] when the task has another holder. *)
Theorem Task_Get_Put_roundtrip k this T :
  Tasks k !! this = Some T -> 0 < RefCounter T ->
  (Task_Get this ;;; Task_Put this) k = Ok tt k /\
  (1 < RefCounter T -> (Task_Put this ;;; Task_Get this) k = Ok tt k).
Proof.
  intros HT Hc. split.
  - rewrite (bind_Ok _ _ _ _ _ (Task_Get_Ok _ _ _ HT Hc)).
    erewrite Task_Put_keep.
    2:{ cbn. apply lookup_insert_eq. }
    2:{ cbn. lia. }
    f_equal. apply Kernel_eq; cbn; try reflexivity.
    rewrite insert_insert_eq. apply insert_id. rewrite HT. f_equal.
    destruct T; unfold set_RefCounter; cbn. f_equal. lia.
  - intros Hc1. rewrite (bind_Ok _ _ _ _ _ (Task_Put_keep _ _ _ HT Hc1)).
    erewrite Task_Get_Ok.
    2:{ cbn. apply lookup_insert_eq. }
    2:{ cbn. lia. }
    f_equal. apply Kernel_eq; cbn; try reflexivity.
    rewrite insert_insert_eq. apply insert_id. rewrite HT. f_equal.
    destruct T; unfold set_RefCounter; cbn. f_equal. lia.
Qed.

Section ExitAndFlags.
Context {KC : KernelConsts} {TC : TaskConsts}.

(** X19: [Exit] by the current task, registered and with a holder besides
    the table: when control passes to [Schedule], the task is in state
    [StateExited], its exit time is the boot time, it is in no bucket,
    its slot is empty and a lookup of its pid returns null; the table's
    two references are gone. *)
Theorem Task_Exit_hands_over Schedule this rsp times k T i :
  Task_GetCurrentTask rsp k = Ok this k ->
  Tasks k !! this = Some T -> 2 < RefCounter T ->
  Pid T = Z.of_nat i -> ObjectArray k !! i = Some (Some this) ->
  occurrences this (TaskList k) <> 0%nat ->
  exists k1,
    Task_Exit Schedule this rsp times k =
      (Schedule (<[this := BootTime k]> times) ;;; crash BugCheck) k1 /\
    Tasks k1 !! this =
      Some (set_RefCounter (RefCounter T - 2) (set_State StateExited T)) /\
    in_no_bucket this k1 /\
    ObjectArray k1 !! i = Some None /\
    TaskTable_Lookup (Pid T) k1 = Ok None k1.
Proof.
  intros Hcur HT Hc Hpid Hslot Hlinked. unfold Task_Exit.
  rewrite (bind_Ok _ _ _ _ _ Hcur), Z.eqb_refl. cbn [negb].
  erewrite bind_Ok by reflexivity.
  rewrite (bind_Ok _ _ _ _ _ (update_Ok _ _ _ _ HT)), get_bind.
  cbn [BootTime set_Tasks].
  erewrite bind_Ok.
  2:{ apply TaskTable_Remove_Ok with (T := set_State StateExited T) (i := i).
      - cbn. apply lookup_insert_eq.
      - cbn. exact Hc.
      - cbn. exact Hpid.
      - cbn. exact Hslot.
      - cbn. exact Hlinked. }
  eexists. split; [reflexivity|]. apply lookup_lt_Some in Hslot as Hlt.
  split; [cbn; rewrite insert_insert_eq; apply lookup_insert_eq|].
  split; [unfold in_no_bucket; cbn; apply occurrences_RemoveInit_eq|].
  assert (Hnone : <[i := None]> (ObjectArray k) !! i = Some None)
    by now apply list_lookup_insert_eq.
  split; [cbn; exact Hnone|].
  unfold TaskTable_Lookup. rewrite Hpid. apply ObjectTable_Lookup_null. cbn. exact Hnone.
Qed.

(** X20: [SetStopping] sets the stopping bit of the flags and nothing else:
    [IsStopping] then returns true, every other flag bit and every other
    member of the task is as before, and a second [SetStopping] changes
    nothing. *)
Theorem Task_SetStopping_IsStopping k this T :
  Tasks k !! this = Some T -> 0 <= FlagStoppingBit ->
  exists k' T',
    Task_SetStopping this k = Ok tt k' /\
    Tasks k' !! this = Some T' /\
    Task_IsStopping this k' = Ok true k' /\
    (forall n, n <> FlagStoppingBit ->
       Z.testbit (Flags T') n = Z.testbit (Flags T) n) /\
    set_Flags (Flags T) T' = T /\
    Task_SetStopping this k' = Ok tt k'.
Proof.
  intros HT Hbit.
  set (T' := set_Flags (Z.lor (Flags T) (Z.shiftl 1 FlagStoppingBit)) T).
  set (k' := set_Tasks <[this := T']> k).
  assert (Hset : Task_SetStopping this k = Ok tt k').
  { unfold Task_SetStopping. rewrite (bind_Ok _ _ _ _ _ (load_Ok _ _ _ HT)).
    now rewrite (update_Ok _ _ _ _ HT). }
  assert (HT' : Tasks k' !! this = Some T') by (cbn; apply lookup_insert_eq).
  assert (Hown : Z.testbit (Flags T') FlagStoppingBit = true).
  { cbn. rewrite Z.lor_spec, Z.shiftl_spec, Z.sub_diag by lia. apply orb_true_r. }
  exists k', T'. split; [exact Hset|]. split; [exact HT'|]. split; [|split; [|split]].
  - unfold Task_IsStopping. rewrite (bind_Ok _ _ _ _ _ (load_Ok _ _ _ HT')).
    now rewrite Hown.
  - intros n Hn. cbn. rewrite Z.lor_spec.
    destruct (Z_lt_le_dec n 0); [now rewrite !Z.testbit_neg_r by lia|].
    rewrite Z.shiftl_spec by lia.
    destruct (Z_lt_le_dec n FlagStoppingBit).
    + rewrite (Z.testbit_neg_r 1) by lia. apply orb_false_r.
    + rewrite (Z.bits_above_log2 1) by (cbn; lia). apply orb_false_r.
  - now destruct T.
  - unfold Task_SetStopping. rewrite (bind_Ok _ _ _ _ _ (load_Ok _ _ _ HT')).
    rewrite (update_Ok _ _ _ _ HT'). unfold ret. f_equal.
    apply Kernel_eq; cbn; try reflexivity.
    rewrite insert_insert_eq. f_equal. subst T'. unfold set_Flags. cbn. f_equal.
    apply Z.bits_inj'. intros n Hn. rewrite !Z.lor_spec.
    now destruct (Z.testbit (Flags T) n), (Z.testbit (Z.shiftl 1 FlagStoppingBit) n).
Qed.

End ExitAndFlags.

(** ** CPU start-up *)

Section CpuStartupProofs.
Context {KC : KernelConsts}.

Lemma alloc_cpu_stacks_from StackBase MaxCpus n : forall idx,
  0 <= idx -> idx + Z.of_nat n <= MaxCpus ->
  alloc_cpu_stacks StackBase MaxCpus n idx =
  Some (map (fun j => StackBase + (idx + Z.of_nat j + 1) * CpuStackSize) (seq 0 n),
        idx + Z.of_nat n).
Proof.
  induction n as [|n IH]; intros idx Hidx Hmax.
  - cbn. repeat f_equal. lia.
  - cbn [alloc_cpu_stacks]. unfold ALLOC_CPU_STACK.
    replace (idx >=? MaxCpus) with false
      by (symmetry; rewrite Z.geb_leb; apply Z.leb_gt; lia).
    rewrite IH by lia. cbn [seq map]. f_equal. f_equal.
    + f_equal; [lia|]. rewrite <- seq_shift, map_map.
      apply map_ext. intros j. f_equal. lia.
    + lia.
Qed.

(** X21: The first [MaxCpus] CPUs that run [ALLOC_CPU_STACK] get the tops of
    the rows 0, 1, ... of the array [Stack], in this order: stack
    pointers a full [CpuStackSize] apart, all inside the array, so that
    no two CPUs share stack memory.  One CPU more, and the macro
    panics. *)
Theorem ALLOC_CPU_STACK_rows StackBase MaxCpus n :
  0 < PageSize -> Z.of_nat n <= MaxCpus ->
  exists rsps,
    alloc_cpu_stacks StackBase MaxCpus n 0 = Some (rsps, Z.of_nat n) /\
    length rsps = n /\
    (forall a ra, rsps !! a = Some ra ->
       ra = StackBase + (Z.of_nat a + 1) * CpuStackSize /\
       StackBase + CpuStackSize <= ra <= StackBase + MaxCpus * CpuStackSize) /\
    (forall a b ra rb, (a < b)%nat -> rsps !! a = Some ra -> rsps !! b = Some rb ->
       ra + CpuStackSize <= rb) /\
    (Z.of_nat n = MaxCpus ->
       ALLOC_CPU_STACK StackBase MaxCpus (Z.of_nat n) = None).
Proof.
  intros Hpage Hn.
  assert (Hsize : 0 < CpuStackSize) by (unfold CpuStackSize; lia).
  eexists. split; [rewrite alloc_cpu_stacks_from by lia; reflexivity|].
  assert (Hget : forall a ra,
            map (fun j => StackBase + (0 + Z.of_nat j + 1) * CpuStackSize) (seq 0 n) !! a
              = Some ra ->
            (a < n)%nat /\ ra = StackBase + (Z.of_nat a + 1) * CpuStackSize).
  { intros a ra Ha. rewrite list_lookup_fmap in Ha.
    destruct (seq 0 n !! a) as [j|] eqn:Hj; [|discriminate].
    apply lookup_seq in Hj as [-> Hlt]. cbn in Ha. injection Ha as <-.
    split; [exact Hlt|]. f_equal. }
  split; [now rewrite length_map, length_seq|]. split; [|split].
  - intros a ra Ha. destruct (Hget a ra Ha) as [Hlt ->]. split; [reflexivity|]. nia.
  - intros a b ra rb Hab Ha Hb.
    destruct (Hget a ra Ha) as [_ ->]. destruct (Hget b rb Hb) as [_ ->]. nia.
  - intros Heq. unfold ALLOC_CPU_STACK.
    replace (Z.of_nat n >=? MaxCpus) with true
      by (symmetry; rewrite Z.geb_leb; apply Z.leb_le; lia).
    reflexivity.
Qed.

Lemma ipi_loop (cpuMask self : Z) (l : list nat) : forall sent,
  fold_left (ipi_step cpuMask self) l sent =
  sent ++ filter (fun i => Z.testbit cpuMask (Z.of_nat i) = true /\ Z.of_nat i <> self) l.
Proof.
  induction l as [|i l IH]; intros sent; [now rewrite app_nil_r|].
  cbn [fold_left]. rewrite IH. unfold ipi_step. rewrite mask_bit, filter_cons.
  destruct (Z.testbit cpuMask (Z.of_nat i)) eqn:Hbit.
  - destruct (Z.eqb_spec (Z.of_nat i) self) as [Heq|Hne]; cbn [negb].
    + destruct (decide _) as [[_ Hd]|_]; [congruence | reflexivity].
    + destruct (decide _) as [_|Hd]; [now rewrite <- app_assoc|].
      destruct Hd. now split.
  - destruct (decide _) as [[Hd _]|_]; [discriminate | reflexivity].
Qed.

Lemma filter_seq_increasing (P : nat -> Prop) `{forall x, Decision (P x)} n :
  forall s a b x y, (a < b)%nat ->
    filter P (seq s n) !! a = Some x -> filter P (seq s n) !! b = Some y ->
    (x < y)%nat.
Proof.
  induction n as [|n IH]; intros s a b x y Hab Ha Hb; [discriminate|].
  cbn [seq] in Ha, Hb. rewrite filter_cons in Ha, Hb.
  destruct (decide (P s)); [|now apply (IH (S s) a b)].
  destruct b as [|b]; [lia|]. cbn in Hb. destruct a as [|a].
  - cbn in Ha. injection Ha as <-.
    assert (Hy : y ∈ filter P (seq (S s) n)) by (apply list_elem_of_lookup; eauto).
    apply list_elem_of_filter in Hy as [_ Hy]. apply elem_of_seq in Hy. lia.
  - cbn in Ha. apply (IH (S s) a b); [lia | assumption | assumption].
Qed.

(** X22: The IPI loop of [BpStartup] calls [SendIPI] once for every CPU
    whose bit is set in the running mask, except the CPU it runs on, in
    the order of the CPU indexes, and for no other CPU. *)
Theorem BpStartup_ipis_others_once cpuMask self :
  (forall i, i ∈ BpStartup_ipis cpuMask self <->
     (i < 64)%nat /\ Z.testbit cpuMask (Z.of_nat i) = true /\ Z.of_nat i <> self) /\
  NoDup (BpStartup_ipis cpuMask self) /\
  (forall a b x y, (a < b)%nat -> BpStartup_ipis cpuMask self !! a = Some x ->
     BpStartup_ipis cpuMask self !! b = Some y -> (x < y)%nat).
Proof.
  unfold BpStartup_ipis. rewrite ipi_loop. cbn [app].
  split; [|split].
  - intros i. rewrite list_elem_of_filter, elem_of_seq. split.
    + intros [[Hb Hs] Hi]. repeat split; try assumption; lia.
    + intros (Hi & Hb & Hs). repeat split; try assumption; lia.
  - apply list.NoDup_filter, NoDup_seq.
  - apply filter_seq_increasing.
Qed.

End CpuStartupProofs.

(** ** The theorems above at concrete states *)

Lemma ObjectTable_Remove_last_reference_witness :
  exists k',
    ObjectTable_Remove 0 sample_sole_holder_kernel = Ok tt k' /\
    Tasks k' !! 4096 = None /\
    Log k' = [EvFreeStack 65536; EvFreeTask 4096].
Proof.
  destruct (ObjectTable_Remove_last_reference sample_sole_holder_kernel 0 4096
              (set_Stack (Some 65536) (@Task_ctor sample_consts)))
    as (k' & Hrun & _ & Htasks & Hlog).
  - reflexivity.
  - reflexivity.
  - reflexivity.
  - reflexivity.
  - intros stack Hs. injection Hs as <-. vm_compute. reflexivity.
  - exists k'. split; [exact Hrun|]. split; [|exact Hlog].
    rewrite Htasks. apply lookup_delete_eq.
Defined.

Lemma ObjectTable_dtor_balances_witness :
  exists k',
    ObjectTable_dtor sample_full_kernel = Ok tt k' /\
    ObjectArray k' = [None; None] /\
    RefCounter <$> Tasks k' !! 4096 = Some 1.
Proof.
  destruct (ObjectTable_dtor_balances sample_full_kernel)
    as (k' & Hrun & Harr & Htasks & _).
  - intros o [Ho|Ho]; [|inversion Ho].
    exists (set_RefCounter 3 (@Task_ctor sample_consts)).
    cbn in Ho. repeat (apply elem_of_cons in Ho as [Ho|Ho];
      [injection Ho as ->; split; [reflexivity | vm_compute; reflexivity]|]).
    inversion Ho.
  - exists k'. split; [exact Hrun|]. split; [exact Harr|].
    rewrite (Htasks 4096 (set_RefCounter 3 (@Task_ctor sample_consts)) eq_refl).
    reflexivity.
Defined.

Lemma TaskTable_dtor_balances_witness :
  exists k',
    TaskTable_dtor sample_registered_kernel = Ok tt k' /\
    TaskList k' = [[]; []; []; []] /\ ObjectArray k' = [None; None] /\
    RefCounter <$> Tasks k' !! 4096 = Some 1.
Proof.
  assert (HT : Tasks sample_registered_kernel !! 4096 =
               Some (set_RefCounter 3 (set_Pid 0 (@Task_ctor sample_consts))))
    by (vm_compute; reflexivity).
  destruct (TaskTable_dtor_balances sample_registered_kernel)
    as (k' & Hrun & Htl & Harr & Htasks & _).
  - intros o Ho.
    assert (Ho' : o = 4096).
    { destruct Ho as [Ho|Ho]; vm_compute in Ho.
      - repeat (apply elem_of_cons in Ho as [Ho|Ho]; [congruence|]).
        inversion Ho.
      - repeat (apply elem_of_cons in Ho as [Ho|Ho]; [exact Ho|]). inversion Ho. }
    subst o. eexists. split; [exact HT|]. vm_compute. reflexivity.
  - exists k'. split; [exact Hrun|]. split; [exact Htl|]. split; [exact Harr|].
    rewrite (Htasks 4096 _ HT). reflexivity.
Defined.

Lemma Task_Get_Put_roundtrip_witness :
  (Task_Get 4096 ;;; Task_Put 4096) sample_full_kernel = Ok tt sample_full_kernel.
Proof.
  refine (proj1 (Task_Get_Put_roundtrip sample_full_kernel 4096
                   (set_RefCounter 3 (@Task_ctor sample_consts)) _ _)).
  - reflexivity.
  - reflexivity.
Defined.

Lemma TaskTable_Insert_twice_panics_witness :
  TaskTable_Insert (KC := sample_consts) 4096 sample_registered_kernel =
  Crashed BugCheck.
Proof.
  apply (TaskTable_Insert_twice_panics (KC := sample_consts)
           sample_registered_kernel 4096
           (set_RefCounter 3 (set_Pid 0 (@Task_ctor sample_consts))) 1).
  - vm_compute. reflexivity.
  - reflexivity.
  - vm_compute. reflexivity.
  - vm_compute. discriminate.
  - vm_compute. discriminate.
Defined.

Lemma TaskTable_Remove_unregistered_panics_witness :
  ObjectTable_Remove (2 ^ 64 - 1) sample_two_tasks_kernel =
    Ok tt sample_two_tasks_kernel /\
  TaskTable_Remove 4096 sample_two_tasks_kernel = Crashed BugCheck.
Proof.
  apply (TaskTable_Remove_unregistered_panics sample_two_tasks_kernel 4096
           (@Task_ctor sample_consts)).
  - reflexivity.
  - vm_compute. discriminate.
  - rewrite (proj2 (lookup_ge_None _ _)); [reflexivity|].
    change (Pid (@Task_ctor sample_consts)) with (2 ^ 64 - 1).
    change (length (ObjectArray sample_two_tasks_kernel)) with 2%nat. lia.
  - reflexivity.
Defined.

Lemma TaskTable_Insert_Remove_roundtrip_witness :
  (TaskTable_Insert (KC := sample_consts) 4096 ;;; TaskTable_Remove 4096) sample_kernel =
  Ok tt (set_Tasks <[4096 := set_Pid 0 (@Task_ctor sample_consts)]> sample_kernel).
Proof.
  apply (TaskTable_Insert_Remove_roundtrip (KC := sample_consts)
           sample_kernel 4096 (@Task_ctor sample_consts) 0).
  - reflexivity.
  - reflexivity.
  - reflexivity.
  - vm_compute. discriminate.
  - discriminate.
  - reflexivity.
Defined.

Lemma TaskTable_pid_reuse_witness :
  exists k3 k4 T1',
    (TaskTable_Insert (KC := sample_consts) 4096 ;;; TaskTable_Remove 4096 ;;;
     TaskTable_Insert (KC := sample_consts) 8192) sample_two_tasks_kernel = Ok true k3 /\
    Tasks k3 !! 4096 = Some T1' /\
    TaskTable_Lookup (Pid T1') k3 = Ok (Some 8192) k4.
Proof.
  destruct (TaskTable_pid_reuse (KC := sample_consts) sample_two_tasks_kernel
              4096 8192 (@Task_ctor sample_consts) (@Task_ctor sample_consts) 0)
    as (k3 & T1' & T2' & Hrun & HT1 & _ & _ & _ & _ & k4 & Hlk).
  - discriminate.
  - reflexivity.
  - reflexivity.
  - reflexivity.
  - reflexivity.
  - reflexivity.
  - vm_compute. discriminate.
  - discriminate.
  - reflexivity.
  - reflexivity.
  - exists k3, k4, T1'. repeat split; assumption.
Defined.

Lemma TaskTable_distinct_pids_witness :
  exists k2 T1' T2',
    (TaskTable_Insert (KC := sample_consts) 4096 ;;;
     TaskTable_Insert (KC := sample_consts) 8192) sample_two_tasks_kernel = Ok true k2 /\
    Tasks k2 !! 4096 = Some T1' /\ Tasks k2 !! 8192 = Some T2' /\
    Pid T1' <> Pid T2'.
Proof.
  destruct (TaskTable_distinct_pids (KC := sample_consts) sample_two_tasks_kernel
              4096 8192 (@Task_ctor sample_consts) (@Task_ctor sample_consts))
    as (k2 & T1' & T2' & Hrun & HT1 & HT2 & Hne & _).
  - discriminate.
  - reflexivity.
  - reflexivity.
  - reflexivity.
  - reflexivity.
  - exists 0%nat, 1%nat. split; [discriminate|]. split; reflexivity.
  - vm_compute. discriminate.
  - discriminate.
  - reflexivity.
  - reflexivity.
  - exists k2, T1', T2'. repeat split; assumption.
Defined.

Lemma sample_startable :
  startable (KC := sample_consts) 4096 65536 [98304] 0
    (@Task_ctor sample_consts) sample_kernel.
Proof.
  unfold startable. repeat split; try reflexivity.
  - vm_compute. discriminate.
  - discriminate.
  - exists 0%nat. repeat split; [lia | discriminate].
Qed.

Lemma Task_Start_succeeds_witness :
  exists q k' T',
    Task_Start (KC := sample_consts) 4096 777 0 sample_kernel = Ok true k' /\
    Tasks k' !! 4096 = Some T' /\ TaskQueue T' = Some q /\ Pid T' = 0.
Proof.
  destruct (Task_Start_succeeds (KC := sample_consts) 4096 777 0 sample_kernel
              (@Task_ctor sample_consts) 65536 [98304] 0 sample_startable)
    as (q & k' & T' & Hrun & _ & HT' & Hpid & _ & _ & _ & _ & Hq & _).
  exists q, k', T'. repeat split; assumption.
Defined.

Lemma Task_Start_twice_panics_witness :
  Task_Start (KC := sample_consts) 4096 888 0 sample_started_kernel =
  Crashed BugCheck.
Proof.
  apply (Task_Start_twice_panics (KC := sample_consts) 4096 777 0 sample_kernel).
  vm_compute. reflexivity.
Defined.

Lemma Task_Start_honours_affinity_witness :
  exists k' T',
    (Task_SetCpuAffinity 4096 2 ;;; Task_Start (KC := sample_consts) 4096 777 0)
      sample_kernel = Ok true k' /\
    Tasks k' !! 4096 = Some T' /\ TaskQueue T' = Some 1%nat.
Proof.
  destruct (Task_Start_honours_affinity (KC := sample_consts) 4096 777 0 sample_kernel
              (@Task_ctor sample_consts) 2 65536 [98304] 0)
    as (q & k' & T' & Hrun & HT' & Hq & _ & _ & Hpin).
  - reflexivity.
  - unfold startable. repeat split; try reflexivity.
    + vm_compute. discriminate.
    + discriminate.
    + exists 1%nat. repeat split; [lia | discriminate].
  - exists k', T'. split; [exact Hrun|]. split; [exact HT'|].
    rewrite Hq. f_equal. apply Nat2Z.inj. apply (Hpin 1); [lia | reflexivity].
Defined.

Lemma Task_Start_rsp_identifies_task_witness :
  exists k' T',
    Task_Start (KC := sample_consts) 4096 777 0 sample_kernel = Ok true k' /\
    Tasks k' !! 4096 = Some T' /\
    Task_GetCurrentTask (KC := sample_consts) (Rsp T') k' = Ok 4096 k'.
Proof.
  apply (Task_Start_rsp_identifies_task (KC := sample_consts) 4096 777 0 sample_kernel
           (@Task_ctor sample_consts) 65536 [98304] 0 15).
  - exact sample_startable.
  - unfold context_layout_ok. cbn. lia.
  - unfold stack_layout_ok. cbn. lia.
  - reflexivity.
  - lia.
  - lia.
  - reflexivity.
  - vm_compute. discriminate.
  - reflexivity.
Defined.

Lemma Task_Exit_hands_over_witness :
  exists k1,
    Task_Exit (KC := sample_consts) (TC := sample_task_consts)
      (fun _ => ret tt) 4096 98224 ∅ sample_started_kernel =
      ((fun _ => ret tt) (<[4096 := 0]> (∅ : gmap Z Z)) ;;; crash BugCheck) k1 /\
    State <$> Tasks k1 !! 4096 = Some 3 /\
    TaskTable_Lookup 0 k1 = Ok None k1.
Proof.
  destruct (Task_Exit_hands_over (KC := sample_consts) (TC := sample_task_consts)
              (fun _ => ret tt) 4096 98224 ∅ sample_started_kernel
              (mkTask (Some 0%nat) 98224 1 0 11 (2 ^ 64 - 1) 0
                 (Some 65536) (Some 777) 0 4 0) 0)
    as (k1 & Hrun & HT & _ & _ & Hlk).
  - vm_compute. reflexivity.
  - vm_compute. reflexivity.
  - reflexivity.
  - reflexivity.
  - vm_compute. reflexivity.
  - vm_compute. discriminate.
  - exists k1. split; [exact Hrun|]. split; [rewrite HT; reflexivity | exact Hlk].
Defined.

Lemma Task_SetStopping_IsStopping_witness :
  exists k',
    Task_SetStopping (TC := sample_task_consts) 4096 sample_kernel = Ok tt k' /\
    Task_IsStopping (TC := sample_task_consts) 4096 k' = Ok true k'.
Proof.
  destruct (Task_SetStopping_IsStopping (TC := sample_task_consts) sample_kernel 4096
              (@Task_ctor sample_consts))
    as (k' & T' & Hset & _ & Hget & _).
  - reflexivity.
  - reflexivity.
  - exists k'. split; assumption.
Defined.

Lemma ALLOC_CPU_STACK_rows_witness :
  alloc_cpu_stacks (KC := sample_consts) 1048576 2 2 0 =
    Some ([1081344; 1114112], 2) /\
  ALLOC_CPU_STACK (KC := sample_consts) 1048576 2 2 = None.
Proof.
  destruct (ALLOC_CPU_STACK_rows (KC := sample_consts) 1048576 2 2)
    as (rsps & Hrun & _ & _ & _ & Hover).
  - reflexivity.
  - reflexivity.
  - split; [reflexivity | now apply Hover].
Defined.
